(** * Family-finance analytics engine: a shallow embedding

    The engine of the repository is four TypeScript modules:
    - [src/services/ml.ts]            regression, trend and outlier primitives,
    - [src/services/anomaly.ts]       per-transaction anomaly checks,
    - [src/services/health.ts]        the composite health score,
    - [src/services/autocategory.ts]  the description categorizer,
    plus [getBudgetAlerts] of [src/services/analytics.ts].

    Each TypeScript function is transcribed below under its own name.
    What the JavaScript platform supplies (numbers, strings, [Date],
    object key order, the members an object inherits from
    [Object.prototype], [Array.prototype.sort]) is modelled first.
    Arithmetic is exact; [Rounded] repeats the health score with every
    operation rounded to binary64. *)

From Stdlib Require Import String Ascii ZArith QArith Qround Qabs Lqa Lia Bool List
  Sorted Permutation.
Import ListNotations.

Set Implicit Arguments.

(* ================================================================== *)
(** * The JavaScript platform *)
(* ================================================================== *)

(** ** Numbers

    A JavaScript number is either finite, an infinity or NaN.  Finite
    arithmetic is exact (rationals): the operations of [JS] do not
    round and do not overflow ([Binary64] has the rounding), and the
    sign of zero is not modelled.  Division by zero and the other
    invalid operations produce the IEEE special values, as in
    JavaScript. *)

Inductive num : Type :=
| Fin (q : Q)
| PInf
| NInf
| NaN.

Coercion Fin : Q >-> num.

Declare Scope js_scope.
Delimit Scope js_scope with js.
Bind Scope js_scope with num.

Module JS.

Definition of_Z (z : Z) : num := Fin (inject_Z z).
Definition of_nat (n : nat) : num := of_Z (Z.of_nat n).

Definition is_finite (x : num) : bool :=
  match x with Fin _ => true | _ => false end.

Definition is_nan (x : num) : bool :=
  match x with NaN => true | _ => false end.

(** Sign of a number: -1, 0 or 1 (0 for NaN, which callers rule out). *)
Definition sign (x : num) : Z :=
  match x with
  | Fin q => Z.sgn (Qnum q)
  | PInf => 1
  | NInf => -1
  | NaN => 0
  end.

Definition neg (x : num) : num :=
  match x with
  | Fin q => Fin (- q)
  | PInf => NInf
  | NInf => PInf
  | NaN => NaN
  end.

Definition add (x y : num) : num :=
  match x, y with
  | Fin a, Fin b => Fin (a + b)
  | NaN, _ | _, NaN => NaN
  | PInf, NInf | NInf, PInf => NaN
  | PInf, _ | _, PInf => PInf
  | NInf, _ | _, NInf => NInf
  end.

Definition sub (x y : num) : num := add x (neg y).

Definition of_sign (s : Z) : num :=
  match s with
  | Z0 => NaN
  | Zpos _ => PInf
  | Zneg _ => NInf
  end.

Definition mul (x y : num) : num :=
  match x, y with
  | Fin a, Fin b => Fin (a * b)
  | NaN, _ | _, NaN => NaN
  | _, _ => of_sign (sign x * sign y)
  end.

Definition div (x y : num) : num :=
  match x, y with
  | NaN, _ | _, NaN => NaN
  | Fin a, Fin b => if Qeq_bool b 0 then of_sign (sign x) else Fin (a / b)
  | Fin _, _ => Fin 0
  | _, Fin _ => if (sign y <? 0)%Z then neg x else x
  | _, _ => NaN
  end.

(** [x ** 2] *)
Definition sq (x : num) : num := mul x x.

Definition lt (x y : num) : bool :=
  match x, y with
  | NaN, _ | _, NaN => false
  | Fin a, Fin b => negb (Qle_bool b a)
  | _, NInf => false
  | PInf, _ => false
  | _, _ => true
  end.

Definition le (x y : num) : bool :=
  match x, y with
  | NaN, _ | _, NaN => false
  | Fin a, Fin b => Qle_bool a b
  | NInf, _ => true
  | _, PInf => true
  | _, _ => false
  end.

Definition gt (x y : num) : bool := lt y x.
Definition ge (x y : num) : bool := le y x.

(** [===] on numbers *)
Definition eq (x y : num) : bool :=
  match x, y with
  | Fin a, Fin b => Qeq_bool a b
  | PInf, PInf | NInf, NInf => true
  | _, _ => false
  end.

(** [!==] on numbers *)
Definition ne (x y : num) : bool := negb (eq x y).

Module Import Notations.
  Infix "+" := add : js_scope.
  Infix "-" := sub : js_scope.
  Infix "*" := mul : js_scope.
  Infix "/" := div : js_scope.
  Infix "<?" := lt (at level 70) : js_scope.
  Infix "<=?" := le (at level 70) : js_scope.
  Infix ">?" := gt (at level 70) : js_scope.
  Infix ">=?" := ge (at level 70) : js_scope.
  Infix "===" := eq (at level 70) : js_scope.
  Infix "!==" := ne (at level 70) : js_scope.
End Notations.

(** [Math.max(a, b)], [Math.min(a, b)]: NaN as soon as one argument is. *)
Definition Math_max (x y : num) : num :=
  match x, y with
  | NaN, _ | _, NaN => NaN
  | _, _ => if lt x y then y else x
  end.

Definition Math_min (x y : num) : num :=
  match x, y with
  | NaN, _ | _, NaN => NaN
  | _, _ => if lt y x then y else x
  end.

(** [Math.max(...xs)] and [Math.min(...xs)] *)
Definition Math_max_list (xs : list num) : num := fold_left Math_max xs NInf.
Definition Math_min_list (xs : list num) : num := fold_left Math_min xs PInf.

Definition Math_abs (x : num) : num :=
  match x with
  | Fin q => Fin (Qabs q)
  | NaN => NaN
  | _ => PInf
  end.

(** [Math.round]: nearest integer, ties towards +Infinity. *)
Definition Math_round (x : num) : num :=
  match x with
  | Fin q => of_Z (Qfloor (q + (1 # 2)))
  | _ => x
  end.

Definition Math_floor (x : num) : num :=
  match x with
  | Fin q => of_Z (Qfloor q)
  | _ => x
  end.

Definition Math_ceil (x : num) : num :=
  match x with
  | Fin q => of_Z (Qceiling q)
  | _ => x
  end.

(** [x || d] for a possibly missing number: [undefined], [0] and NaN
    are falsy. *)
Definition or_default (x : option num) (d : num) : num :=
  match x with
  | Some (Fin q) => if Qeq_bool q 0 then d else Fin q
  | Some NaN | None => d
  | Some v => v
  end.

(** [xs.reduce((a, b) => a + b, 0)] *)
Definition sum (xs : list num) : num := fold_left add xs (Fin 0).

End JS.

Import JS.Notations.

(** ** Exceptions

    A call either returns a value or throws. *)

Inductive exception : Type :=
| Error (message : string)
| RangeError (message : string)
| TypeError (message : string).

Inductive completion (A : Type) : Type :=
| Return (a : A)
| Throw (e : exception).

Arguments Return {A} a.
Arguments Throw {A} e.

Definition bind {A B : Type} (c : completion A) (k : A -> completion B)
  : completion B :=
  match c with
  | Return a => k a
  | Throw e => Throw e
  end.

Notation "x <- c ;; k" := (bind c (fun x => k))
  (at level 61, c at next level, right associativity).


(** ** Strings

    A JavaScript string is a sequence of UTF-16 code units. *)

Definition jsstring : Type := list N.

Module Str.

(** Code units of a literal written in this file (UTF-8 source text). *)
Definition emit (cp : N) : list N :=
  if (cp <? 65536)%N then [cp]
  else [(55296 + (cp - 65536) / 1024)%N; (56320 + (cp - 65536) mod 1024)%N].

Fixpoint utf16_go (s : string) (need : nat) (acc : N) : jsstring :=
  match s with
  | EmptyString => []
  | String c s' =>
      let b := N_of_ascii c in
      match need with
      | O =>
          if (b <? 128)%N then b :: utf16_go s' 0 0%N
          else if (b <? 224)%N then utf16_go s' 1 (b - 192)%N
          else if (b <? 240)%N then utf16_go s' 2 (b - 224)%N
          else utf16_go s' 3 (b - 240)%N
      | S k =>
          let acc' := (acc * 64 + (b - 128))%N in
          match k with
          | O => emit acc' ++ utf16_go s' 0 0%N
          | S _ => utf16_go s' k acc'
          end
      end
  end.

Definition utf16 (s : string) : jsstring := utf16_go s 0 0%N.

(** [a === b] on strings *)
Fixpoint eqb (a b : jsstring) : bool :=
  match a, b with
  | [], [] => true
  | x :: a', y :: b' => (x =? y)%N && eqb a' b'
  | _, _ => false
  end.

Fixpoint starts_with (p s : jsstring) : bool :=
  match p, s with
  | [], _ => true
  | x :: p', y :: s' => (x =? y)%N && starts_with p' s'
  | _ :: _, [] => false
  end.

(** [s.includes(p)] *)
Fixpoint includes (s p : jsstring) : bool :=
  starts_with p s ||
  match s with
  | [] => false
  | _ :: s' => includes s' p
  end.

(** Code-unit order, the order of [<] on strings. *)
Fixpoint compare (a b : jsstring) : comparison :=
  match a, b with
  | [], [] => Eq
  | [], _ :: _ => Lt
  | _ :: _, [] => Gt
  | x :: a', y :: b' =>
      match (x ?= y)%N with
      | Eq => compare a' b'
      | c => c
      end
  end.

(** WhiteSpace and LineTerminator code units: what [\s] matches and
    what [trim] removes. *)
Definition is_space (c : N) : bool :=
  ((9 <=? c) && (c <=? 13) || (c =? 32) || (c =? 160) || (c =? 5760)
   || (8192 <=? c) && (c <=? 8202) || (c =? 8232) || (c =? 8233)
   || (c =? 8239) || (c =? 8287) || (c =? 12288) || (c =? 65279))%N.

Fixpoint trim_start (s : jsstring) : jsstring :=
  match s with
  | c :: s' => if is_space c then trim_start s' else s
  | [] => []
  end.

(** [s.trim()] *)
Definition trim (s : jsstring) : jsstring :=
  rev (trim_start (rev (trim_start s))).

(** [s.substring(0, n)] *)
Definition substring0 (n : nat) (s : jsstring) : jsstring := firstn n s.

End Str.

(** String literals of the source are written [U "..."]. *)
Definition U (s : string) : jsstring := Str.utf16 s.

(** ** The host

    What the engine takes from its JavaScript host and this model leaves
    open: the value of [Math.sqrt] on a finite non-negative number, the
    time value [Date.parse] gives a string ([None] for an invalid date),
    the collation of [localeCompare] and the offset of local time from
    UTC in milliseconds (constant: no daylight saving). *)

Class Host : Type := {
  host_sqrt : Q -> Q;
  Date_parse : jsstring -> option Z;
  localeCompare : jsstring -> jsstring -> comparison;
  tz_offset : Z
}.

Module JSMath.

(** [Math.sqrt] *)
Definition Math_sqrt {H : Host} (x : num) : num :=
  match x with
  | Fin q => if Qle_bool 0 q then Fin (host_sqrt q) else NaN
  | PInf => PInf
  | _ => NaN
  end.

End JSMath.

(** ** Arrays *)

Module Arr.

(** [xs[i]] in a numeric context: a missing element is [undefined],
    which arithmetic turns into NaN. *)
Definition get (xs : list num) (i : num) : num :=
  match i with
  | Fin q =>
      if Qeq_bool q (inject_Z (Qfloor q)) && (0 <=? Qfloor q)%Z
      then nth (Z.to_nat (Qfloor q)) xs NaN
      else NaN
  | _ => NaN
  end.

(** [xs.sort(cmp)]: the sort is stable; [x] goes after [y] exactly when
    [cmp(x, y) > 0].  (With a comparator that returns NaN the order is
    implementation-defined; here such a pair is left in place.) *)
Section Sort.
Variable A : Type.
Variable cmp : A -> A -> num.

Fixpoint insert (x : A) (l : list A) : list A :=
  match l with
  | [] => [x]
  | y :: l' => if (cmp x y >? 0)%js then y :: insert x l' else x :: l
  end.

Definition sort (l : list A) : list A := fold_right insert [] l.
End Sort.

(** The number a string comparison ([localeCompare]) returns. *)
Definition cmp_num (c : comparison) : num :=
  match c with Lt => Fin (-1) | Eq => Fin 0 | Gt => Fin 1 end.

(** [xs.find(p)] *)
Definition find {A : Type} (p : A -> bool) (xs : list A) : option A :=
  List.find p xs.

(** [xs.slice(a, b)] for integers [0 <= a] *)
Definition slice {A : Type} (a b : nat) (xs : list A) : list A :=
  firstn (b - a) (skipn a xs).

End Arr.

(* ================================================================== *)
(** * ml.ts *)
(* ================================================================== *)

Module ML.

Record LinearRegressionResult : Type := {
  slope : num;
  intercept : num;
  r_squared : num;
  prediction : num;
  confidence : num
}.

Inductive Direction : Type := up | down | stable.

Record TrendAnalysis : Type := {
  direction : Direction;
  change_percent : num;
  average : num;
  min : num;
  max : num;
  volatility : num
}.

(** [xs.map((_, i) => i)] *)
Definition indices {A : Type} (xs : list A) : list num :=
  map JS.of_nat (seq 0 (length xs)).

Definition linearRegression (xValues yValues : list num)
  : completion LinearRegressionResult :=
  if negb (length xValues =? length yValues)%nat || (length xValues <? 2)%nat
  then Throw (Error "Arrays must have equal length and at least 2 points")
  else
    let n := JS.of_nat (length xValues) in
    let xMean := (JS.sum xValues / n)%js in
    let yMean := (JS.sum yValues / n)%js in
    let '(numerator, denominator) :=
      fold_left
        (fun '(numerator, denominator) '(x, y) =>
           ((numerator + (x - xMean) * (y - yMean))%js,
            (denominator + JS.sq (x - xMean))%js))
        (combine xValues yValues) (Fin 0, Fin 0) in
    let slope := if (denominator !== 0)%js then (numerator / denominator)%js else Fin 0 in
    let intercept := (yMean - slope * xMean)%js in
    let yPredicted := map (fun x => (slope * x + intercept)%js) xValues in
    let ssRes :=
      fold_left (fun sum '(y, yp) => (sum + JS.sq (y - yp))%js)
        (combine yValues yPredicted) (Fin 0) in
    let ssTot :=
      fold_left (fun sum y => (sum + JS.sq (y - yMean))%js) yValues (Fin 0) in
    let rSquared := if (ssTot !== 0)%js then (1 - ssRes / ssTot)%js else Fin 0 in
    let prediction := (slope * n + intercept)%js in
    let confidence :=
      JS.Math_min 0.95 (JS.Math_max 0.1 (rSquared * (1 - 1 / n))%js) in
    Return {| slope := slope;
              intercept := intercept;
              r_squared := rSquared;
              prediction := JS.Math_max 0 prediction;
              confidence := confidence |}.


Section WithHost.
Context {H : Host}.

Definition calculateStdDev (values : list num) : num :=
  if (length values <? 2)%nat then Fin 0
  else
    let mean := (JS.sum values / JS.of_nat (length values))%js in
    let squaredDiffs := map (fun v => JS.sq (v - mean)%js) values in
    let avgSquaredDiff := (JS.sum squaredDiffs / JS.of_nat (length values))%js in
    JSMath.Math_sqrt avgSquaredDiff.

Definition percentile (sortedValues : list num) (p : num) : num :=
  let index := ((p / 100) * (JS.of_nat (length sortedValues) - 1))%js in
  let lower := JS.Math_floor index in
  let upper := JS.Math_ceil index in
  if (lower === upper)%js then Arr.get sortedValues lower
  else
    let weight := (index - lower)%js in
    (Arr.get sortedValues lower * (1 - weight)
     + Arr.get sortedValues upper * weight)%js.

Definition analyzeTrend (values : list num) : completion TrendAnalysis :=
  if (length values <? 2)%nat then
    Return {| direction := stable;
              change_percent := Fin 0;
              average := JS.or_default (hd_error values) 0;
              min := JS.or_default (hd_error values) 0;
              max := JS.or_default (hd_error values) 0;
              volatility := Fin 0 |}
  else
    let xValues := indices values in
    regression <- linearRegression xValues values ;;
    let average := (JS.sum values / JS.of_nat (length values))%js in
    let min := JS.Math_min_list values in
    let max := JS.Math_max_list values in
    let volatility := (calculateStdDev values / average)%js in
    let half := Nat.div (length values) 2 in
    let firstHalfAvg :=
      (JS.sum (Arr.slice 0 half values) / JS.of_nat half)%js in
    let secondHalfAvg :=
      (JS.sum (skipn half values) / JS.of_nat (length values - half))%js in
    let changePercent :=
      if (firstHalfAvg !== 0)%js
      then ((secondHalfAvg - firstHalfAvg) / firstHalfAvg * 100)%js
      else Fin 0 in
    let slopeSignificance := (JS.Math_abs (slope regression) / average)%js in
    let direction :=
      if (slopeSignificance <? 0.02)%js || (r_squared regression <? 0.3)%js
      then stable
      else if (slope regression >? 0)%js then up
      else down in
    Return {| direction := direction;
              change_percent := (JS.Math_round (changePercent * 10) / 10)%js;
              average := JS.Math_round average;
              min := min;
              max := max;
              volatility := (JS.Math_round (volatility * 100) / 100)%js |}.

Record AnomalyResult : Type := {
  isAnomaly_ : bool;
  zScore : num;
  expectedRange : num * num
}.

Definition isAnomaly (value : num) (historicalValues : list num) (threshold : num)
  : AnomalyResult :=
  if (length historicalValues <? 5)%nat then
    {| isAnomaly_ := false; zScore := Fin 0; expectedRange := (Fin 0, PInf) |}
  else
    let mean := (JS.sum historicalValues / JS.of_nat (length historicalValues))%js in
    let stdDev := calculateStdDev historicalValues in
    if (stdDev === 0)%js then
      {| isAnomaly_ := (value !== mean)%js;
         zScore := if (value === mean)%js then Fin 0 else PInf;
         expectedRange := (mean, mean) |}
    else
      let z := ((value - mean) / stdDev)%js in
      {| isAnomaly_ := (JS.Math_abs z >? threshold)%js;
         zScore := (JS.Math_round (z * 100) / 100)%js;
         expectedRange :=
           (JS.Math_round (mean - threshold * stdDev)%js,
            JS.Math_round (mean + threshold * stdDev)%js) |}.

Inductive IQRSeverity : Type := mild | extreme | none.

Record IQRResult : Type := {
  iqr_isAnomaly : bool;
  severity : IQRSeverity
}.

Definition detectAnomaliesIQR (value : num) (historicalValues : list num)
  (multiplier : num) : IQRResult :=
  if (length historicalValues <? 4)%nat then
    {| iqr_isAnomaly := false; severity := none |}
  else
    let sorted := Arr.sort (fun a b => (a - b)%js) historicalValues in
    let q1 := percentile sorted 25 in
    let q3 := percentile sorted 75 in
    let iqr := (q3 - q1)%js in
    let lowerBound := (q1 - multiplier * iqr)%js in
    let upperBound := (q3 + multiplier * iqr)%js in
    let extremeLower := (q1 - 3 * iqr)%js in
    let extremeUpper := (q3 + 3 * iqr)%js in
    if (value <? extremeLower)%js || (value >? extremeUpper)%js then
      {| iqr_isAnomaly := true; severity := extreme |}
    else if (value <? lowerBound)%js || (value >? upperBound)%js then
      {| iqr_isAnomaly := true; severity := mild |}
    else
      {| iqr_isAnomaly := false; severity := none |}.

End WithHost.

End ML.

(* ================================================================== *)
(** * Dates *)
(* ================================================================== *)

(** A [Date] object holds a time value: milliseconds since the epoch,
    or NaN for an invalid date ([None]). *)

Module JSDate.

Definition Date : Type := option Z.

Definition msPerDay : Z := 86400000.

(** [TimeClip] *)
Definition TimeClip (t : Z) : Date :=
  if (Z.abs t <=? 8640000000000000)%Z then Some t else None.

(** [d.getTime()] *)
Definition getTime (d : Date) : num :=
  match d with
  | Some t => JS.of_Z t
  | None => NaN
  end.

(** [a >= b], [a < b] on dates compare the time values. *)
Definition ge (a b : Date) : bool := (getTime a >=? getTime b)%js.
Definition lt (a b : Date) : bool := (getTime a <? getTime b)%js.

(** Day number of a time value, and the civil date of a day number
    (proleptic Gregorian calendar; months are numbered from 0). *)
Definition Day (t : Z) : Z := (t / msPerDay)%Z.

Definition civil_from_days (z : Z) : Z * Z * Z :=
  let z := (z + 719468)%Z in
  let era := (z / 146097)%Z in
  let doe := (z - era * 146097)%Z in
  let yoe := ((doe - doe / 1460 + doe / 36524 - doe / 146096) / 365)%Z in
  let doy := (doe - (365 * yoe + yoe / 4 - yoe / 100))%Z in
  let mp := ((5 * doy + 2) / 153)%Z in
  let d := (doy - (153 * mp + 2) / 5 + 1)%Z in
  let m := (if mp <? 10 then mp + 2 else mp - 10)%Z in
  let y := (yoe + era * 400 + (if m <=? 1 then 1 else 0))%Z in
  (y, m, d).

(** [MakeDay(year, month, date)] for a month in 0..11 *)
Definition MakeDay (year month date : Z) : Z :=
  let y := (if month <=? 1 then year - 1 else year)%Z in
  let era := (y / 400)%Z in
  let yoe := (y - era * 400)%Z in
  let mp := (if month <=? 1 then month + 10 else month - 2)%Z in
  let doy := ((153 * mp + 2) / 5)%Z in
  let doe := (yoe * 365 + yoe / 4 - yoe / 100 + doy)%Z in
  (era * 146097 + doe - 719468 + (date - 1))%Z.

(** [ToIntegerOrInfinity] on a finite number: truncation towards zero *)
Definition ToInteger (q : Q) : Z :=
  if Qle_bool 0 q then Qfloor q else Qceiling q.

Section WithHost.
Context {H : Host}.

(** [new Date(s)] *)
Definition of_string (s : jsstring) : Date := Date_parse s.

Definition LocalTime (t : Z) : Z := (t + tz_offset)%Z.
Definition UTC (t : Z) : Z := (t - tz_offset)%Z.

Definition getFullYear (t : Z) : Z :=
  let '(y, _, _) := civil_from_days (Day (LocalTime t)) in y.
Definition getMonth (t : Z) : Z :=
  let '(_, m, _) := civil_from_days (Day (LocalTime t)) in m.
(** [d.getDate()]: day of the month, local time *)
Definition getDate (t : Z) : Z :=
  let '(_, _, d) := civil_from_days (Day (LocalTime t)) in d.

(** [new Date(year, month, 1)]: local midnight; a year in 0..99 counts
    from 1900. *)
Definition of_year_month (year month : Z) : Date :=
  let yr := (if (0 <=? year) && (year <=? 99) then 1900 + year else year)%Z in
  TimeClip (UTC (MakeDay yr month 1 * msPerDay)).

(** [d.setDate(d.getDate() - n)]: the same local time of day on the
    day of the month [d.getDate() - n], truncated to an integer; days
    outside the month carry into the neighbouring months. *)
Definition minus_days (t : Z) (n : Q) : Date :=
  let local := LocalTime t in
  let '(y, m, d) := civil_from_days (Day local) in
  TimeClip
    (UTC (MakeDay y m (ToInteger (inject_Z d - n)) * msPerDay
          + local mod msPerDay)).

(** [d.toDateString()], up to the rendering: the local calendar day, or
    ["Invalid Date"]. *)
Definition toDateString (d : Date) : option Z :=
  option_map (fun t => Day (LocalTime t)) d.

(** [d.toISOString().split('T')[0]], up to the rendering: the UTC
    calendar day.  Throws on an invalid date. *)
Definition toISODate (d : Date) : completion Z :=
  match d with
  | Some t => Return (Day t)
  | None => Throw (RangeError "Invalid time value")
  end.

End WithHost.


(** *** Rendering

    The date part of [d.toISOString()] for a day number: [YYYY-MM-DD],
    the year with a sign and six digits outside 0..9999. *)
Definition decimal_digit (z : Z) : N := Z.to_N (48 + z mod 10).

Fixpoint pad (n : nat) (z : Z) : jsstring :=
  match n with
  | O => []
  | S n' => pad n' (z / 10) ++ [decimal_digit z]
  end.

Definition iso_date (day : Z) : jsstring :=
  let '(y, m, d) := civil_from_days day in
  (if ((0 <=? y) && (y <=? 9999))%Z then pad 4 y
   else (if (y <? 0)%Z then 45%N else 43%N) :: pad 6 (Z.abs y))
  ++ [45%N] ++ pad 2 (m + 1) ++ [45%N] ++ pad 2 d.

(** *** A concrete host: UTC, ISO 8601 date strings *)

Definition digit (c : N) : option Z :=
  if ((48 <=? c) && (c <=? 57))%N then Some (Z.of_N c - 48)%Z else None.

Fixpoint digits (n : nat) (s : jsstring) (acc : Z) : option (Z * jsstring) :=
  match n with
  | O => Some (acc, s)
  | S n' =>
      match s with
      | c :: s' =>
          match digit c with
          | Some v => digits n' s' (acc * 10 + v)%Z
          | None => None
          end
      | [] => None
      end
  end.

Definition expect (c : N) (s : jsstring) : option jsstring :=
  match s with
  | c' :: s' => if (c =? c')%N then Some s' else None
  | [] => None
  end.

Definition opt_bind {A B : Type} (o : option A) (k : A -> option B) : option B :=
  match o with Some a => k a | None => None end.

Definition days_in_month (y m : Z) : Z :=
  (MakeDay (if m =? 11 then y + 1 else y) (if m =? 11 then 0 else m + 1) 1
   - MakeDay y m 1)%Z.

(** [YYYY-MM-DD] (UTC midnight) and [YYYY-MM-DDTHH:mm:ss(.sss)Z]; any
    other string is an invalid date here. *)
Definition parse_iso (s : jsstring) : option Z :=
  opt_bind (digits 4 s 0) (fun '(y, s) =>
  opt_bind (expect 45 s) (fun s =>
  opt_bind (digits 2 s 0) (fun '(mo, s) =>
  opt_bind (expect 45 s) (fun s =>
  opt_bind (digits 2 s 0) (fun '(d, s) =>
  if negb ((1 <=? mo) && (mo <=? 12) && (1 <=? d)
           && (d <=? days_in_month y (mo - 1)))%Z then None
  else
    let day := MakeDay y (mo - 1) d in
    match s with
    | [] => Some (day * msPerDay)%Z
    | _ =>
        opt_bind (expect 84 s) (fun s =>
        opt_bind (digits 2 s 0) (fun '(hh, s) =>
        opt_bind (expect 58 s) (fun s =>
        opt_bind (digits 2 s 0) (fun '(mi, s) =>
        opt_bind (expect 58 s) (fun s =>
        opt_bind (digits 2 s 0) (fun '(ss, s) =>
        let frac :=
          match expect 46 s with
          | Some s' => digits 3 s' 0
          | None => Some (0%Z, s)
          end in
        opt_bind frac (fun '(ms, s) =>
        opt_bind (expect 90 s) (fun s =>
        match s with
        | [] =>
            if ((hh <=? 23) && (mi <=? 59) && (ss <=? 59))%Z
            then Some (day * msPerDay + hh * 3600000 + mi * 60000
                       + ss * 1000 + ms)%Z
            else None
        | _ => None
        end))))))))
    end))))).

(** Square root to 60 binary digits after the point, rounded down. *)
Definition sqrt60 (q : Q) : Q :=
  let s := (2 ^ 60)%Z in
  Qred (Z.sqrt (Qnum q * Zpos (Qden q) * s * s) # (Qden q * Z.to_pos s)).

Definition utc_host : Host := {|
  host_sqrt := sqrt60;
  Date_parse := parse_iso;
  localeCompare := Str.compare;
  tz_offset := 0
|}.

End JSDate.

(* ================================================================== *)
(** * ml.ts: forecasting and moving averages *)
(* ================================================================== *)

Module Forecasting.



Section WithHost.
Context {H : Host}.


End WithHost.



End Forecasting.

(* ================================================================== *)
(** * Objects used as maps *)
(* ================================================================== *)

(** A plain object used as a [Record<string, V>]: its own properties in
    insertion order.  Enumeration ([Object.values], [Object.entries])
    lists the array-index keys first, in ascending numeric order, then
    the other keys in insertion order.  [get] looks among the own
    properties only; what a lookup finds when it misses them is in
    [Proto] below. *)

Module Obj.

Definition t (V : Type) : Type := list (jsstring * V).

Definition empty {V : Type} : t V := [].

Fixpoint get {V : Type} (k : jsstring) (o : t V) : option V :=
  match o with
  | [] => None
  | (k', v) :: o' => if Str.eqb k' k then Some v else get k o'
  end.

Fixpoint set {V : Type} (k : jsstring) (v : V) (o : t V) : t V :=
  match o with
  | [] => [(k, v)]
  | (k', v') :: o' =>
      if Str.eqb k' k then (k', v) :: o' else (k', v') :: set k v o'
  end.

Fixpoint decimal (s : jsstring) (acc : N) : option N :=
  match s with
  | [] => Some acc
  | c :: s' =>
      if ((48 <=? c) && (c <=? 57))%N then decimal s' (acc * 10 + (c - 48))%N
      else None
  end.

(** The array index a key denotes, if any: a canonical decimal numeral
    up to 2^32 - 2. *)
Definition array_index (k : jsstring) : option N :=
  match k with
  | [] => None
  | [48%N] => Some 0%N
  | 48%N :: _ => None
  | _ =>
      match decimal k 0 with
      | Some n => if (n <=? 4294967294)%N then Some n else None
      | None => None
      end
  end.

Definition is_index {V : Type} (kv : jsstring * V) : bool :=
  match array_index (fst kv) with Some _ => true | None => false end.

Definition index_value {V : Type} (kv : jsstring * V) : Z :=
  match array_index (fst kv) with Some n => Z.of_N n | None => 0 end.

(** [Object.entries(o)] *)
Definition entries {V : Type} (o : t V) : list (jsstring * V) :=
  Arr.sort (fun a b => JS.of_Z (index_value a - index_value b))
    (filter is_index o)
  ++ filter (fun kv => negb (is_index kv)) o.

(** [Object.values(o)] *)
Definition values {V : Type} (o : t V) : list V := map snd (entries o).

End Obj.

(** An object keyed by a calendar day (the [YYYY-MM-DD] rendering of a
    day number is never an array index): insertion order. *)
Module DayMap.

Definition t (V : Type) : Type := list (Z * V).

Fixpoint get {V : Type} (k : Z) (o : t V) : option V :=
  match o with
  | [] => None
  | (k', v) :: o' => if (k' =? k)%Z then Some v else get k o'
  end.

Fixpoint set {V : Type} (k : Z) (v : V) (o : t V) : t V :=
  match o with
  | [] => [(k, v)]
  | (k', v') :: o' =>
      if (k' =? k)%Z then (k', v) :: o' else (k', v') :: set k v o'
  end.

Definition values {V : Type} (o : t V) : list V := map snd o.

End DayMap.

(** ** Members of [Object.prototype]

    A plain object inherits from [Object.prototype]: a key the object
    does not own is looked up there, and finds one of the members the
    language defines (ECMA-262 with its annex B).  Each is a method,
    but for the accessor [__proto__].  Converted to a string a built-in
    method gives its source text, [function name() { [native code] }];
    the method found under [constructor] is the global [Object]. *)

Module Proto.

Inductive Member : Type :=
| Method (text : jsstring)
| Accessor.

Definition methods : list jsstring :=
  [U "hasOwnProperty"; U "isPrototypeOf"; U "propertyIsEnumerable";
   U "toLocaleString"; U "toString"; U "valueOf";
   U "__defineGetter__"; U "__defineSetter__";
   U "__lookupGetter__"; U "__lookupSetter__"].

Definition native (name : jsstring) : jsstring :=
  U "function " ++ name ++ U "() { [native code] }".

Definition find (k : jsstring) : option Member :=
  if Str.eqb k (U "constructor") then Some (Method (native (U "Object")))
  else if Str.eqb k (U "__proto__") then Some Accessor
  else if existsb (Str.eqb k) methods then Some (Method (native k))
  else None.

(** [k] names a member of [Object.prototype]. *)
Definition member (k : jsstring) : bool :=
  match find k with Some _ => true | None => false end.

End Proto.

(** ** Tallies

    A plain object filled by [o[k] = (o[k] || 0) + 1].  The entry of a
    key is a number, unless the key names a method of
    [Object.prototype]: the first [o[k]] then finds the method, [+ 1]
    turns it into a string, and the entry is that string from then on,
    one character longer at every step.  Under [__proto__] the lookup
    finds the prototype itself and the assignment, of a string, is
    ignored by the accessor: no entry is made. *)

Module Tally.

Inductive count : Type :=
| Count (n : nat)
| Text (s : jsstring).

Definition t : Type := Obj.t count.

(** [(c || 0) + 1] *)
Definition succ (c : count) : count :=
  match c with
  | Count n => Count (S n)
  | Text [] => Count 1
  | Text s => Text (s ++ U "1")
  end.

(** [o[k] = (o[k] || 0) + 1] *)
Definition bump (k : jsstring) (o : t) : t :=
  match Obj.get k o with
  | Some c => Obj.set k (succ c) o
  | None =>
      match Proto.find k with
      | None => Obj.set k (Count 1) o
      | Some (Proto.Method text) => Obj.set k (Text (text ++ U "1")) o
      | Some Proto.Accessor => o
      end
  end.

(** The number an entry converts to: a text that holds the source of a
    function is no numeric literal. *)
Definition to_number (c : count) : num :=
  match c with
  | Count n => JS.of_nat n
  | Text [] => Fin 0
  | Text _ => NaN
  end.

(** [o[k] || 0] where a number is expected: an inherited member is
    not one. *)
Definition read (k : jsstring) (o : t) : num :=
  match Obj.get k o with
  | Some c => to_number c
  | None => if Proto.member k then NaN else Fin 0
  end.

(** Decimal numeral of a natural number *)
Fixpoint decimal (fuel n : nat) : jsstring :=
  match fuel with
  | O => []
  | S fuel' =>
      (if (n <? 10)%nat then [] else decimal fuel' (n / 10))
      ++ [N.of_nat (48 + n mod 10)]
  end.

Definition to_string (c : count) : jsstring :=
  match c with
  | Count n => decimal (S n) n
  | Text s => s
  end.

(** [a + b]: the sum of two numbers, the concatenation otherwise *)
Definition plus (a b : count) : count :=
  match a, b with
  | Count x, Count y => Count (x + y)
  | _, _ => Text (to_string a ++ to_string b)
  end.

(** [a > b]: numbers by value, strings by code units, and never when
    one side converts to NaN *)
Definition gt (a b : count) : bool :=
  match a, b with
  | Count x, Count y => (y <? x)%nat
  | Text x, Text y =>
      match Str.compare x y with Gt => true | _ => false end
  | _, _ => (to_number a >? to_number b)%js
  end.

(** [c < n] *)
Definition below (c : count) (n : nat) : bool :=
  match c with
  | Count x => (x <? n)%nat
  | Text _ => (to_number c <? JS.of_nat n)%js
  end.

End Tally.

(* ================================================================== *)
(** * types/index.ts *)
(* ================================================================== *)

(** The fields the engine reads.  Amounts and the other stored numbers
    are finite. *)

Definition UUID : Type := jsstring.

(** Truthiness of an optional string: [undefined] and the empty string
    are falsy. *)
Definition truthy (s : option jsstring) : bool :=
  match s with
  | Some (_ :: _) => true
  | _ => false
  end.

(** [a === b] on optional strings *)
Definition opt_eqb (a b : option jsstring) : bool :=
  match a, b with
  | None, None => true
  | Some x, Some y => Str.eqb x y
  | _, _ => false
  end.

Module Category.
Record t : Type := {
  id : UUID;
  name : jsstring;
  keywords : list jsstring
}.
End Category.

Inductive TransactionType : Type := income | expense | transfer.

Definition TransactionType_eqb (a b : TransactionType) : bool :=
  match a, b with
  | income, income | expense, expense | transfer, transfer => true
  | _, _ => false
  end.

Module Transaction.
Record t : Type := {
  id : UUID;
  category_id : option UUID;
  type : TransactionType;
  amount : Q;
  description : option jsstring;
  date : jsstring;
  is_credit : bool;
  category : option Category.t
}.
End Transaction.

Module Budget.
Record t : Type := {
  id : UUID;
  category_id : option UUID;
  name : jsstring;
  amount : Q;
  alert_threshold : Q;
  is_active : bool;
  category : option Category.t
}.
End Budget.

Module Goal.
Record t : Type := {
  target_amount : Q;
  current_amount : Q;
  deadline : option jsstring;
  is_completed : bool
}.
End Goal.

Module CategoryRule.
Record t : Type := {
  id : UUID;
  category_id : UUID;
  pattern : jsstring;
  priority : Q
}.
End CategoryRule.

Module HealthSnapshot.
Record t : Type := {
  snapshot_date : jsstring;
  overall_score : Q
}.
End HealthSnapshot.

Inductive Trend : Type := increasing | decreasing | stable.

Module HealthMetrics.
Record t : Type := {
  total_income : num;
  total_expense : num;
  net_savings : num;
  savings_rate : num;
  budgets_on_track : nat;
  budgets_exceeded : nat;
  budget_adherence_rate : num;
  avg_daily_expense : num;
  expense_volatility : num;
  largest_expense : num;
  credit_usage : num;
  credit_ratio : num;
  goals_progress : num;
  goals_on_track : nat;
  expense_trend : Trend;
  income_trend : Trend
}.
End HealthMetrics.

(* ================================================================== *)
(** * health.ts *)
(* ================================================================== *)

Module Health.

Import HealthMetrics.

Inductive Grade : Type := A | B | C | D | F.

Record HealthScore : Type := {
  overall : num;
  savings : num;
  budget : num;
  debt : num;
  stability : num;
  grade : Grade
}.

Inductive RecCategory : Type :=
  rc_savings | rc_budget | rc_debt | rc_stability | rc_general.
Inductive Priority : Type := high | medium | low.

(** The texts of a recommendation are fixed by its title apart from the
    figures quoted from the metrics; the title identifies the rule. *)
Record HealthRecommendation : Type := {
  category : RecCategory;
  priority : Priority;
  title : jsstring
}.

Record Trends : Type := {
  trend_income : ML.TrendAnalysis;
  trend_expense : ML.TrendAnalysis;
  trend_savings : ML.TrendAnalysis
}.

Record Comparison : Type := {
  vs_last_month : num;
  vs_last_quarter : num
}.

Record HealthAnalysis : Type := {
  score : HealthScore;
  metrics : HealthMetrics.t;
  recommendations : list HealthRecommendation;
  trends : Trends;
  comparison : Comparison
}.

(** ** Scoring weights and thresholds *)

Module WEIGHTS.
Definition savings : Q := 0.30.
Definition budget : Q := 0.25.
Definition debt : Q := 0.20.
Definition stability : Q := 0.25.
End WEIGHTS.

Record Thresholds : Type := {
  excellent : Q;
  good : Q;
  fair : Q;
  poor : Q
}.

Module THRESHOLDS.
Definition savings : Thresholds :=
  {| excellent := 0.20; good := 0.10; fair := 0.05; poor := 0 |}.
Definition budget : Thresholds :=
  {| excellent := 0.90; good := 0.70; fair := 0.50; poor := 0 |}.
Definition debt : Thresholds :=
  {| excellent := 0.10; good := 0.20; fair := 0.40; poor := 0.40 |}.
Definition stability : Thresholds :=
  {| excellent := 0.15; good := 0.25; fair := 0.40; poor := 0.40 |}.
End THRESHOLDS.

(** ** Individual scores *)

Definition calculateSavingsScore (metrics : HealthMetrics.t) : num :=
  let rate := savings_rate metrics in
  let T := THRESHOLDS.savings in
  if (rate >=? excellent T)%js then Fin 100
  else if (rate >=? good T)%js then
    (70 + 30 * (rate - good T) / (excellent T - good T))%js
  else if (rate >=? fair T)%js then
    (40 + 30 * (rate - fair T) / (good T - fair T))%js
  else if (rate >? 0)%js then
    (40 * rate / fair T)%js
  else
    JS.Math_max 0 (20 + rate * 100)%js.

Definition calculateBudgetScore (metrics : HealthMetrics.t) : num :=
  let rate := budget_adherence_rate metrics in
  let T := THRESHOLDS.budget in
  if (budgets_on_track metrics + budgets_exceeded metrics =? 0)%nat then Fin 70
  else if (rate >=? excellent T)%js then Fin 100
  else if (rate >=? good T)%js then
    (70 + 30 * (rate - good T) / (excellent T - good T))%js
  else if (rate >=? fair T)%js then
    (40 + 30 * (rate - fair T) / (good T - fair T))%js
  else
    (40 * rate / fair T)%js.

Definition calculateDebtScore (metrics : HealthMetrics.t) : num :=
  let ratio := credit_ratio metrics in
  let T := THRESHOLDS.debt in
  if (ratio === 0)%js then Fin 100
  else if (ratio <=? excellent T)%js then Fin 100
  else if (ratio <=? good T)%js then
    (70 + 30 * (good T - ratio) / (good T - excellent T))%js
  else if (ratio <=? fair T)%js then
    (40 + 30 * (fair T - ratio) / (fair T - good T))%js
  else
    JS.Math_max 0 (40 - (ratio - poor T) * 100)%js.

Definition calculateStabilityScore (metrics : HealthMetrics.t) : num :=
  let volatility := expense_volatility metrics in
  let T := THRESHOLDS.stability in
  let trendPenalty :=
    match expense_trend metrics with increasing => Fin 10 | _ => Fin 0 end in
  let trendPenalty :=
    match income_trend metrics with
    | decreasing => (trendPenalty + 10)%js
    | _ => trendPenalty
    end in
  let baseScore :=
    if (volatility <=? excellent T)%js then Fin 100
    else if (volatility <=? good T)%js then
      (70 + 30 * (good T - volatility) / (good T - excellent T))%js
    else if (volatility <=? fair T)%js then
      (40 + 30 * (fair T - volatility) / (fair T - good T))%js
    else
      JS.Math_max 0 (40 - (volatility - poor T) * 50)%js in
  JS.Math_max 0 (baseScore - trendPenalty)%js.

Definition getGradeInfo (score : num) : Grade :=
  if (score >=? 90)%js then A
  else if (score >=? 75)%js then B
  else if (score >=? 60)%js then C
  else if (score >=? 40)%js then D
  else F.

(** ** Recommendations *)

Definition priorityOrder (p : Priority) : num :=
  match p with high => Fin 0 | medium => Fin 1 | low => Fin 2 end.

Definition generateRecommendations (score : HealthScore)
  (metrics : HealthMetrics.t) : list HealthRecommendation :=
  let r_savings :=
    if (savings score <? 60)%js then
      if (savings_rate metrics <? 0)%js then
        [ {| category := rc_savings; priority := high;
             title := U "Расходы превышают доходы" |} ]
      else if (savings_rate metrics <? 0.05)%js then
        [ {| category := rc_savings; priority := medium;
             title := U "Низкий уровень сбережений" |} ]
      else []
    else [] in
  let r_budget :=
    if (budget score <? 60)%js then
      [ {| category := rc_budget;
           priority := if (2 <? budgets_exceeded metrics)%nat then high else medium;
           title := U "Превышение бюджетов" |} ]
    else [] in
  let r_debt :=
    if (debt score <? 60)%js then
      [ {| category := rc_debt;
           priority := if (credit_ratio metrics >? 0.3)%js then high else medium;
           title := U "Высокое использование кредита" |} ]
    else [] in
  let r_stability :=
    if (stability score <? 60)%js then
      (if (expense_volatility metrics >? 0.4)%js then
         [ {| category := rc_stability; priority := low;
              title := U "Нестабильные расходы" |} ]
       else [])
      ++
      (match expense_trend metrics with
       | increasing =>
           [ {| category := rc_stability; priority := medium;
                title := U "Расходы растут" |} ]
       | _ => []
       end)
    else [] in
  let recommendations := r_savings ++ r_budget ++ r_debt ++ r_stability in
  let recommendations :=
    match recommendations with
    | [] => [ {| category := rc_general; priority := low;
                 title := U "Продолжайте в том же духе! 🎉" |} ]
    | _ => recommendations
    end in
  Arr.sort
    (fun a b => (priorityOrder (priority a) - priorityOrder (priority b))%js)
    recommendations.

Section WithHost.
Context {H : Host}.

(** ** Helpers *)

Definition calculateDailyExpenses (transactions : list Transaction.t)
  : completion (list num) :=
  byDay <-
    fold_left
      (fun acc t =>
         byDay <- acc ;;
         day <- JSDate.toISODate (JSDate.of_string (Transaction.date t)) ;;
         Return
           (DayMap.set day
              (JS.or_default (DayMap.get day byDay) 0 + Transaction.amount t)%js
              byDay))
      transactions (Return []) ;;
  Return (DayMap.values byDay).

Definition calculateVolatility (values : list num) : num :=
  if (length values <? 2)%nat then Fin 0
  else
    let mean := (JS.sum values / JS.of_nat (length values))%js in
    if (mean === 0)%js then Fin 0
    else
      let squaredDiffs := map (fun v => JS.sq (v - mean)%js) values in
      let variance := (JS.sum squaredDiffs / JS.of_nat (length values))%js in
      let stdDev := JSMath.Math_sqrt variance in
      (stdDev / mean)%js.

Record MonthlyData : Type := {
  month : jsstring;
  m_income : num;
  m_expense : num
}.

(** A month that names a member of [Object.prototype] (a date that
    begins with [valueOf]) never becomes a key of [byMonth]: the lookup
    finds the inherited method, and the sums land on it. *)
Definition aggregateMonthly (transactions : list Transaction.t)
  : list MonthlyData :=
  let byMonth :=
    fold_left
      (fun byMonth t =>
         let month := Str.substring0 7 (Transaction.date t) in
         if Proto.member month then byMonth
         else
           let '(inc, exp) :=
             match Obj.get month byMonth with
             | Some d => d
             | None => (Fin 0, Fin 0)
             end in
           match Transaction.type t with
           | income =>
               Obj.set month ((inc + Transaction.amount t)%js, exp) byMonth
           | expense =>
               Obj.set month (inc, (exp + Transaction.amount t)%js) byMonth
           | transfer => Obj.set month (inc, exp) byMonth
           end)
      transactions Obj.empty in
  Arr.sort
    (fun a b => Arr.cmp_num (localeCompare (month a) (month b)))
    (map (fun '(month, (inc, exp)) =>
            {| month := month; m_income := inc; m_expense := exp |})
       (Obj.entries byMonth)).

Definition calculateComparison (currentScore : num)
  (snapshots : list HealthSnapshot.t) : Comparison :=
  match snapshots with
  | [] => {| vs_last_month := Fin 0; vs_last_quarter := Fin 0 |}
  | _ =>
      let sorted :=
        Arr.sort
          (fun a b =>
             Arr.cmp_num (localeCompare (HealthSnapshot.snapshot_date b)
                        (HealthSnapshot.snapshot_date a)))
          snapshots in
      let score_at (i : nat) : option num :=
        option_map (fun s => Fin (HealthSnapshot.overall_score s))
          (nth_error sorted i) in
      let lastMonth := JS.or_default (score_at 0%nat) currentScore in
      let lastQuarter := JS.or_default (score_at 2%nat) lastMonth in
      {| vs_last_month := (currentScore - lastMonth)%js;
         vs_last_quarter := (currentScore - lastQuarter)%js |}
  end.

Definition trend_of (d : ML.Direction) : Trend :=
  match d with
  | ML.up => increasing
  | ML.down => decreasing
  | ML.stable => stable
  end.

(** ** Metrics

    [now] is the reading of the wall clock ([new Date()]) taken by the
    call; it is not a parameter of the TypeScript function. *)

(** [spent] in the loop over the active budgets *)
Definition budgetSpent (expenseTransactions : list Transaction.t)
  (budget : Budget.t) : num :=
  fold_left (fun sum t => (sum + Transaction.amount t)%js)
    (filter
       (fun t => opt_eqb (Transaction.category_id t) (Budget.category_id budget))
       expenseTransactions)
    (Fin 0).

Definition calculateMetrics (now : Z) (transactions : list Transaction.t)
  (budgets : list Budget.t) (goals : list Goal.t)
  : completion HealthMetrics.t :=
  let monthStart :=
    JSDate.of_year_month (JSDate.getFullYear now) (JSDate.getMonth now) in
  let monthTransactions :=
    filter
      (fun t => JSDate.ge (JSDate.of_string (Transaction.date t)) monthStart)
      transactions in
  let incomeTransactions :=
    filter (fun t => TransactionType_eqb (Transaction.type t) income)
      monthTransactions in
  let expenseTransactions :=
    filter (fun t => TransactionType_eqb (Transaction.type t) expense)
      monthTransactions in
  let total_income :=
    fold_left (fun sum t => (sum + Transaction.amount t)%js)
      incomeTransactions (Fin 0) in
  let total_expense :=
    fold_left (fun sum t => (sum + Transaction.amount t)%js)
      expenseTransactions (Fin 0) in
  let net_savings := (total_income - total_expense)%js in
  let savings_rate :=
    if (total_income >? 0)%js then (net_savings / total_income)%js else Fin 0 in
  (* Budget analysis *)
  let activeBudgets := filter Budget.is_active budgets in
  let '(budgets_on_track, budgets_exceeded) :=
    fold_left
      (fun '(on_track, exceeded) budget =>
         let spent := budgetSpent expenseTransactions budget in
         if (spent <=? Budget.amount budget)%js
         then (S on_track, exceeded)
         else (on_track, S exceeded))
      activeBudgets (O, O) in
  let budget_adherence_rate :=
    if (0 <? length activeBudgets)%nat
    then (JS.of_nat budgets_on_track / JS.of_nat (length activeBudgets))%js
    else Fin 1 in
  (* Daily spending analysis *)
  dailyExpenses <- calculateDailyExpenses expenseTransactions ;;
  let avg_daily_expense :=
    if (0 <? length dailyExpenses)%nat
    then (JS.sum dailyExpenses / JS.of_nat (length dailyExpenses))%js
    else Fin 0 in
  let expense_volatility := calculateVolatility dailyExpenses in
  let largest_expense :=
    JS.Math_max_list
      (map (fun t => Fin (Transaction.amount t)) expenseTransactions ++ [Fin 0]) in
  (* Credit analysis *)
  let creditTransactions := filter Transaction.is_credit expenseTransactions in
  let credit_usage :=
    fold_left (fun sum t => (sum + Transaction.amount t)%js)
      creditTransactions (Fin 0) in
  let credit_ratio :=
    if (total_expense >? 0)%js then (credit_usage / total_expense)%js else Fin 0 in
  (* Goals analysis *)
  let activeGoals := filter (fun g => negb (Goal.is_completed g)) goals in
  let goals_progress :=
    if (0 <? length activeGoals)%nat then
      (fold_left
         (fun sum g =>
            let progress :=
              if (Goal.target_amount g >? 0)%js
              then (Goal.current_amount g / Goal.target_amount g)%js
              else Fin 0 in
            (sum + JS.Math_min 1 progress)%js)
         activeGoals (Fin 0)
       / JS.of_nat (length activeGoals))%js
    else Fin 1 in
  let goals_on_track :=
    fold_left
      (fun goals_on_track goal =>
         if negb (truthy (Goal.deadline goal)) then S goals_on_track
         else
           let remaining :=
             (Goal.target_amount goal - Goal.current_amount goal)%js in
           let deadline :=
             match Goal.deadline goal with
             | Some s => JSDate.of_string s
             | None => None
             end in
           let daysLeft :=
             JS.Math_max 1
               ((JSDate.getTime deadline - JS.of_Z now)
                / JS.of_Z JSDate.msPerDay)%js in
           let requiredDaily := (remaining / daysLeft)%js in
           let avgDailySavings :=
             (net_savings / JS.of_Z (JSDate.getDate now))%js in
           if (avgDailySavings >=? requiredDaily * 0.8)%js
           then S goals_on_track
           else goals_on_track)
      activeGoals O in
  (* Trends *)
  let monthlyData := aggregateMonthly transactions in
  expenseTrend <- ML.analyzeTrend (map m_expense monthlyData) ;;
  incomeTrend <- ML.analyzeTrend (map m_income monthlyData) ;;
  Return
    {| total_income := total_income;
       total_expense := total_expense;
       net_savings := net_savings;
       savings_rate := savings_rate;
       budgets_on_track := budgets_on_track;
       budgets_exceeded := budgets_exceeded;
       budget_adherence_rate := budget_adherence_rate;
       avg_daily_expense := JS.Math_round avg_daily_expense;
       expense_volatility := expense_volatility;
       largest_expense := largest_expense;
       credit_usage := credit_usage;
       credit_ratio := credit_ratio;
       goals_progress := goals_progress;
       goals_on_track := goals_on_track;
       expense_trend := trend_of (ML.direction expenseTrend);
       income_trend := trend_of (ML.direction incomeTrend) |}.

(** ** Main analysis *)

Definition analyzeFinancialHealth (now : Z) (transactions : list Transaction.t)
  (budgets : list Budget.t) (goals : list Goal.t)
  (previousSnapshots : list HealthSnapshot.t) : completion HealthAnalysis :=
  metrics <- calculateMetrics now transactions budgets goals ;;
  let savingsScore := calculateSavingsScore metrics in
  let budgetScore := calculateBudgetScore metrics in
  let debtScore := calculateDebtScore metrics in
  let stabilityScore := calculateStabilityScore metrics in
  let overall :=
    JS.Math_round
      (savingsScore * WEIGHTS.savings
       + budgetScore * WEIGHTS.budget
       + debtScore * WEIGHTS.debt
       + stabilityScore * WEIGHTS.stability)%js in
  let score :=
    {| overall := overall;
       savings := savingsScore;
       budget := budgetScore;
       debt := debtScore;
       stability := stabilityScore;
       grade := getGradeInfo overall |} in
  let recommendations := generateRecommendations score metrics in
  let monthlyData := aggregateMonthly transactions in
  t_income <- ML.analyzeTrend (map m_income monthlyData) ;;
  t_expense <- ML.analyzeTrend (map m_expense monthlyData) ;;
  t_savings <-
    ML.analyzeTrend
      (map (fun m => (m_income m - m_expense m)%js) monthlyData) ;;
  let comparison := calculateComparison overall previousSnapshots in
  Return
    {| score := score;
       metrics := metrics;
       recommendations := recommendations;
       trends := {| trend_income := t_income;
                    trend_expense := t_expense;
                    trend_savings := t_savings |};
       comparison := comparison |}.

End WithHost.

End Health.

(* ================================================================== *)
(** * health.ts in binary64 arithmetic *)
(* ================================================================== *)

(** ** Rounding to binary64

    [round64 q] is the binary64 number nearest to the rational [q],
    ties to the even significand: 53 significant bits, exponents down
    to that of the subnormal numbers (2^-1074), and an infinity once
    the rounded size reaches 2^1024.  The sign of zero is not
    modelled. *)

Module Binary64.

(** The floor of the binary logarithm of [n / d]. *)
Definition log2_floor (n d : positive) : Z :=
  let l := (Z.log2 (Zpos n) - Z.log2 (Zpos d))%Z in
  if Qle_bool (2 ^ l) (Zpos n # d) then l else (l - 1)%Z.

(** The integer nearest to a rational that is not negative, the even
    one of two that are equally near. *)
Definition nearest_even (q : Q) : Z :=
  let f := (Qnum q / Zpos (Qden q))%Z in
  let r := (Qnum q mod Zpos (Qden q))%Z in
  match (2 * r ?= Zpos (Qden q))%Z with
  | Lt => f
  | Gt => (f + 1)%Z
  | Eq => if Z.even f then f else (f + 1)%Z
  end.

Definition round64 (q : Q) : num :=
  match Qnum q with
  | Z0 => Fin 0
  | Zpos n | Zneg n =>
      let e := Z.max (log2_floor n (Qden q) - 52) (-1074) in
      let size := inject_Z (nearest_even (Qabs q / 2 ^ e)) * 2 ^ e in
      if Qle_bool (2 ^ 1024) size
      then if Qle_bool 0 q then PInf else NInf
      else Fin (Qred (if Qle_bool 0 q then size else - size))
  end.

(** The result of an arithmetic operation: the exact result, rounded. *)
Definition rnd (x : num) : num :=
  match x with
  | Fin q => round64 q
  | _ => x
  end.


End Binary64.

(** ** The health score, every operation rounded

    The functions of [Health], and those of [ML] they call, once more:
    each arithmetic operation, each literal that is not an integer and
    each number read from a record goes through [rnd].  With
    [Binary64.rnd] for it this is the arithmetic of the engine; with
    the identity it is the exact arithmetic of [Health].  Comparisons,
    [Math.max], [Math.min], [Math.abs] and [Math.round] are exact on
    binary64 numbers, and so are the whole numbers written below. *)

Declare Scope b64_scope.
Delimit Scope b64_scope with b64.

Module Rounded.

Import HealthMetrics Health.

Section Rounding.
Variable rnd : num -> num.
Context {H : Host}.

Definition lit (q : Q) : num := rnd (Fin q).
Definition add (x y : num) : num := rnd (JS.add x y).
Definition sub (x y : num) : num := rnd (JS.sub x y).
Definition mul (x y : num) : num := rnd (JS.mul x y).
Definition div (x y : num) : num := rnd (JS.div x y).
Definition sq (x : num) : num := mul x x.
Definition sum (xs : list num) : num := fold_left add xs (Fin 0).
Definition Math_sqrt (x : num) : num := rnd (JSMath.Math_sqrt x).

Local Infix "+" := add : b64_scope.
Local Infix "-" := sub : b64_scope.
Local Infix "*" := mul : b64_scope.
Local Infix "/" := div : b64_scope.
Local Infix "<?" := JS.lt (at level 70) : b64_scope.
Local Infix "<=?" := JS.le (at level 70) : b64_scope.
Local Infix ">?" := JS.gt (at level 70) : b64_scope.
Local Infix ">=?" := JS.ge (at level 70) : b64_scope.
Local Infix "===" := JS.eq (at level 70) : b64_scope.
Local Infix "!==" := JS.ne (at level 70) : b64_scope.

(** *** ml.ts *)

Definition linearRegression (xValues yValues : list num)
  : completion ML.LinearRegressionResult :=
  if negb (length xValues =? length yValues)%nat || (length xValues <? 2)%nat
  then Throw (Error "Arrays must have equal length and at least 2 points")
  else
    let n := JS.of_nat (length xValues) in
    let xMean := (sum xValues / n)%b64 in
    let yMean := (sum yValues / n)%b64 in
    let '(numerator, denominator) :=
      fold_left
        (fun '(numerator, denominator) '(x, y) =>
           ((numerator + (x - xMean) * (y - yMean))%b64,
            (denominator + sq (x - xMean))%b64))
        (combine xValues yValues) (Fin 0, Fin 0) in
    let slope :=
      if (denominator !== 0)%b64 then (numerator / denominator)%b64
      else Fin 0 in
    let intercept := (yMean - slope * xMean)%b64 in
    let yPredicted := map (fun x => (slope * x + intercept)%b64) xValues in
    let ssRes :=
      fold_left (fun sum '(y, yp) => (sum + sq (y - yp))%b64)
        (combine yValues yPredicted) (Fin 0) in
    let ssTot :=
      fold_left (fun sum y => (sum + sq (y - yMean))%b64) yValues (Fin 0) in
    let rSquared :=
      if (ssTot !== 0)%b64 then (1 - ssRes / ssTot)%b64 else Fin 0 in
    let prediction := (slope * n + intercept)%b64 in
    let confidence :=
      JS.Math_min (lit 0.95)
        (JS.Math_max (lit 0.1) (rSquared * (1 - 1 / n))%b64) in
    Return {| ML.slope := slope;
              ML.intercept := intercept;
              ML.r_squared := rSquared;
              ML.prediction := JS.Math_max 0 prediction;
              ML.confidence := confidence |}.

Definition calculateStdDev (values : list num) : num :=
  if (length values <? 2)%nat then Fin 0
  else
    let mean := (sum values / JS.of_nat (length values))%b64 in
    let squaredDiffs := map (fun v => sq (v - mean)%b64) values in
    let avgSquaredDiff :=
      (sum squaredDiffs / JS.of_nat (length values))%b64 in
    Math_sqrt avgSquaredDiff.

Definition analyzeTrend (values : list num) : completion ML.TrendAnalysis :=
  if (length values <? 2)%nat then
    Return {| ML.direction := ML.stable;
              ML.change_percent := Fin 0;
              ML.average := JS.or_default (hd_error values) 0;
              ML.min := JS.or_default (hd_error values) 0;
              ML.max := JS.or_default (hd_error values) 0;
              ML.volatility := Fin 0 |}
  else
    let xValues := ML.indices values in
    regression <- linearRegression xValues values ;;
    let average := (sum values / JS.of_nat (length values))%b64 in
    let min := JS.Math_min_list values in
    let max := JS.Math_max_list values in
    let volatility := (calculateStdDev values / average)%b64 in
    let half := Nat.div (length values) 2 in
    let firstHalfAvg :=
      (sum (Arr.slice 0 half values) / JS.of_nat half)%b64 in
    let secondHalfAvg :=
      (sum (skipn half values) / JS.of_nat (length values - half))%b64 in
    let changePercent :=
      if (firstHalfAvg !== 0)%b64
      then ((secondHalfAvg - firstHalfAvg) / firstHalfAvg * 100)%b64
      else Fin 0 in
    let slopeSignificance :=
      (JS.Math_abs (ML.slope regression) / average)%b64 in
    let direction :=
      if (slopeSignificance <? lit 0.02)%b64
         || (ML.r_squared regression <? lit 0.3)%b64
      then ML.stable
      else if (ML.slope regression >? 0)%b64 then ML.up
      else ML.down in
    Return {| ML.direction := direction;
              ML.change_percent :=
                (JS.Math_round (changePercent * 10) / 10)%b64;
              ML.average := JS.Math_round average;
              ML.min := min;
              ML.max := max;
              ML.volatility := (JS.Math_round (volatility * 100) / 100)%b64 |}.

(** *** health.ts: the four scores *)

Definition calculateSavingsScore (metrics : HealthMetrics.t) : num :=
  let rate := savings_rate metrics in
  let T := THRESHOLDS.savings in
  if (rate >=? lit (excellent T))%b64 then Fin 100
  else if (rate >=? lit (good T))%b64 then
    (70 + 30 * (rate - lit (good T)) / (lit (excellent T) - lit (good T)))%b64
  else if (rate >=? lit (fair T))%b64 then
    (40 + 30 * (rate - lit (fair T)) / (lit (good T) - lit (fair T)))%b64
  else if (rate >? 0)%b64 then
    (40 * rate / lit (fair T))%b64
  else
    JS.Math_max 0 (20 + rate * 100)%b64.

Definition calculateBudgetScore (metrics : HealthMetrics.t) : num :=
  let rate := budget_adherence_rate metrics in
  let T := THRESHOLDS.budget in
  if (budgets_on_track metrics + budgets_exceeded metrics =? 0)%nat then Fin 70
  else if (rate >=? lit (excellent T))%b64 then Fin 100
  else if (rate >=? lit (good T))%b64 then
    (70 + 30 * (rate - lit (good T)) / (lit (excellent T) - lit (good T)))%b64
  else if (rate >=? lit (fair T))%b64 then
    (40 + 30 * (rate - lit (fair T)) / (lit (good T) - lit (fair T)))%b64
  else
    (40 * rate / lit (fair T))%b64.

Definition calculateDebtScore (metrics : HealthMetrics.t) : num :=
  let ratio := credit_ratio metrics in
  let T := THRESHOLDS.debt in
  if (ratio === 0)%b64 then Fin 100
  else if (ratio <=? lit (excellent T))%b64 then Fin 100
  else if (ratio <=? lit (good T))%b64 then
    (70 + 30 * (lit (good T) - ratio) / (lit (good T) - lit (excellent T)))%b64
  else if (ratio <=? lit (fair T))%b64 then
    (40 + 30 * (lit (fair T) - ratio) / (lit (fair T) - lit (good T)))%b64
  else
    JS.Math_max 0 (40 - (ratio - lit (poor T)) * 100)%b64.

Definition calculateStabilityScore (metrics : HealthMetrics.t) : num :=
  let volatility := expense_volatility metrics in
  let T := THRESHOLDS.stability in
  let trendPenalty :=
    match expense_trend metrics with increasing => Fin 10 | _ => Fin 0 end in
  let trendPenalty :=
    match income_trend metrics with
    | decreasing => (trendPenalty + 10)%b64
    | _ => trendPenalty
    end in
  let baseScore :=
    if (volatility <=? lit (excellent T))%b64 then Fin 100
    else if (volatility <=? lit (good T))%b64 then
      (70 + 30 * (lit (good T) - volatility)
            / (lit (good T) - lit (excellent T)))%b64
    else if (volatility <=? lit (fair T))%b64 then
      (40 + 30 * (lit (fair T) - volatility)
            / (lit (fair T) - lit (good T)))%b64
    else
      JS.Math_max 0 (40 - (volatility - lit (poor T)) * 50)%b64 in
  JS.Math_max 0 (baseScore - trendPenalty)%b64.

(** *** health.ts: recommendations *)

Definition generateRecommendations (score : HealthScore)
  (metrics : HealthMetrics.t) : list HealthRecommendation :=
  let r_savings :=
    if (savings score <? 60)%b64 then
      if (savings_rate metrics <? 0)%b64 then
        [ {| category := rc_savings; priority := high;
             title := U "Расходы превышают доходы" |} ]
      else if (savings_rate metrics <? lit 0.05)%b64 then
        [ {| category := rc_savings; priority := medium;
             title := U "Низкий уровень сбережений" |} ]
      else []
    else [] in
  let r_budget :=
    if (budget score <? 60)%b64 then
      [ {| category := rc_budget;
           priority := if (2 <? budgets_exceeded metrics)%nat then high else medium;
           title := U "Превышение бюджетов" |} ]
    else [] in
  let r_debt :=
    if (debt score <? 60)%b64 then
      [ {| category := rc_debt;
           priority :=
             if (credit_ratio metrics >? lit 0.3)%b64 then high else medium;
           title := U "Высокое использование кредита" |} ]
    else [] in
  let r_stability :=
    if (stability score <? 60)%b64 then
      (if (expense_volatility metrics >? lit 0.4)%b64 then
         [ {| category := rc_stability; priority := low;
              title := U "Нестабильные расходы" |} ]
       else [])
      ++
      (match expense_trend metrics with
       | increasing =>
           [ {| category := rc_stability; priority := medium;
                title := U "Расходы растут" |} ]
       | _ => []
       end)
    else [] in
  let recommendations := r_savings ++ r_budget ++ r_debt ++ r_stability in
  let recommendations :=
    match recommendations with
    | [] => [ {| category := rc_general; priority := low;
                 title := U "Продолжайте в том же духе! 🎉" |} ]
    | _ => recommendations
    end in
  Arr.sort
    (fun a b => (priorityOrder (priority a) - priorityOrder (priority b))%b64)
    recommendations.

(** *** health.ts: helpers *)

Definition calculateDailyExpenses (transactions : list Transaction.t)
  : completion (list num) :=
  byDay <-
    fold_left
      (fun acc t =>
         byDay <- acc ;;
         day <- JSDate.toISODate (JSDate.of_string (Transaction.date t)) ;;
         Return
           (DayMap.set day
              (JS.or_default (DayMap.get day byDay) 0
               + lit (Transaction.amount t))%b64
              byDay))
      transactions (Return []) ;;
  Return (DayMap.values byDay).

Definition calculateVolatility (values : list num) : num :=
  if (length values <? 2)%nat then Fin 0
  else
    let mean := (sum values / JS.of_nat (length values))%b64 in
    if (mean === 0)%b64 then Fin 0
    else
      let squaredDiffs := map (fun v => sq (v - mean)%b64) values in
      let variance := (sum squaredDiffs / JS.of_nat (length values))%b64 in
      let stdDev := Math_sqrt variance in
      (stdDev / mean)%b64.

Definition aggregateMonthly (transactions : list Transaction.t)
  : list MonthlyData :=
  let byMonth :=
    fold_left
      (fun byMonth t =>
         let month := Str.substring0 7 (Transaction.date t) in
         if Proto.member month then byMonth
         else
           let '(inc, exp) :=
             match Obj.get month byMonth with
             | Some d => d
             | None => (Fin 0, Fin 0)
             end in
           match Transaction.type t with
           | income =>
               Obj.set month
                 ((inc + lit (Transaction.amount t))%b64, exp) byMonth
           | expense =>
               Obj.set month
                 (inc, (exp + lit (Transaction.amount t))%b64) byMonth
           | transfer => Obj.set month (inc, exp) byMonth
           end)
      transactions Obj.empty in
  Arr.sort
    (fun a b => Arr.cmp_num (localeCompare (month a) (month b)))
    (map (fun '(month, (inc, exp)) =>
            {| month := month; m_income := inc; m_expense := exp |})
       (Obj.entries byMonth)).

Definition calculateComparison (currentScore : num)
  (snapshots : list HealthSnapshot.t) : Comparison :=
  match snapshots with
  | [] => {| vs_last_month := Fin 0; vs_last_quarter := Fin 0 |}
  | _ =>
      let sorted :=
        Arr.sort
          (fun a b =>
             Arr.cmp_num (localeCompare (HealthSnapshot.snapshot_date b)
                        (HealthSnapshot.snapshot_date a)))
          snapshots in
      let score_at (i : nat) : option num :=
        option_map (fun s => lit (HealthSnapshot.overall_score s))
          (nth_error sorted i) in
      let lastMonth := JS.or_default (score_at 0%nat) currentScore in
      let lastQuarter := JS.or_default (score_at 2%nat) lastMonth in
      {| vs_last_month := (currentScore - lastMonth)%b64;
         vs_last_quarter := (currentScore - lastQuarter)%b64 |}
  end.

(** *** health.ts: metrics *)

Definition budgetSpent (expenseTransactions : list Transaction.t)
  (budget : Budget.t) : num :=
  fold_left (fun sum t => (sum + lit (Transaction.amount t))%b64)
    (filter
       (fun t => opt_eqb (Transaction.category_id t) (Budget.category_id budget))
       expenseTransactions)
    (Fin 0).

Definition calculateMetrics (now : Z) (transactions : list Transaction.t)
  (budgets : list Budget.t) (goals : list Goal.t)
  : completion HealthMetrics.t :=
  let monthStart :=
    JSDate.of_year_month (JSDate.getFullYear now) (JSDate.getMonth now) in
  let monthTransactions :=
    filter
      (fun t => JSDate.ge (JSDate.of_string (Transaction.date t)) monthStart)
      transactions in
  let incomeTransactions :=
    filter (fun t => TransactionType_eqb (Transaction.type t) income)
      monthTransactions in
  let expenseTransactions :=
    filter (fun t => TransactionType_eqb (Transaction.type t) expense)
      monthTransactions in
  let total_income :=
    fold_left (fun sum t => (sum + lit (Transaction.amount t))%b64)
      incomeTransactions (Fin 0) in
  let total_expense :=
    fold_left (fun sum t => (sum + lit (Transaction.amount t))%b64)
      expenseTransactions (Fin 0) in
  let net_savings := (total_income - total_expense)%b64 in
  let savings_rate :=
    if (total_income >? 0)%b64 then (net_savings / total_income)%b64
    else Fin 0 in
  (* Budget analysis *)
  let activeBudgets := filter Budget.is_active budgets in
  let '(budgets_on_track, budgets_exceeded) :=
    fold_left
      (fun '(on_track, exceeded) budget =>
         let spent := budgetSpent expenseTransactions budget in
         if (spent <=? lit (Budget.amount budget))%b64
         then (S on_track, exceeded)
         else (on_track, S exceeded))
      activeBudgets (O, O) in
  let budget_adherence_rate :=
    if (0 <? length activeBudgets)%nat
    then (JS.of_nat budgets_on_track / JS.of_nat (length activeBudgets))%b64
    else Fin 1 in
  (* Daily spending analysis *)
  dailyExpenses <- calculateDailyExpenses expenseTransactions ;;
  let avg_daily_expense :=
    if (0 <? length dailyExpenses)%nat
    then (sum dailyExpenses / JS.of_nat (length dailyExpenses))%b64
    else Fin 0 in
  let expense_volatility := calculateVolatility dailyExpenses in
  let largest_expense :=
    JS.Math_max_list
      (map (fun t => lit (Transaction.amount t)) expenseTransactions
       ++ [Fin 0]) in
  (* Credit analysis *)
  let creditTransactions := filter Transaction.is_credit expenseTransactions in
  let credit_usage :=
    fold_left (fun sum t => (sum + lit (Transaction.amount t))%b64)
      creditTransactions (Fin 0) in
  let credit_ratio :=
    if (total_expense >? 0)%b64 then (credit_usage / total_expense)%b64
    else Fin 0 in
  (* Goals analysis *)
  let activeGoals := filter (fun g => negb (Goal.is_completed g)) goals in
  let goals_progress :=
    if (0 <? length activeGoals)%nat then
      (fold_left
         (fun sum g =>
            let progress :=
              if (lit (Goal.target_amount g) >? 0)%b64
              then (lit (Goal.current_amount g) / lit (Goal.target_amount g))%b64
              else Fin 0 in
            (sum + JS.Math_min 1 progress)%b64)
         activeGoals (Fin 0)
       / JS.of_nat (length activeGoals))%b64
    else Fin 1 in
  let goals_on_track :=
    fold_left
      (fun goals_on_track goal =>
         if negb (truthy (Goal.deadline goal)) then S goals_on_track
         else
           let remaining :=
             (lit (Goal.target_amount goal)
              - lit (Goal.current_amount goal))%b64 in
           let deadline :=
             match Goal.deadline goal with
             | Some s => JSDate.of_string s
             | None => None
             end in
           let daysLeft :=
             JS.Math_max 1
               ((JSDate.getTime deadline - JS.of_Z now)
                / JS.of_Z JSDate.msPerDay)%b64 in
           let requiredDaily := (remaining / daysLeft)%b64 in
           let avgDailySavings :=
             (net_savings / JS.of_Z (JSDate.getDate now))%b64 in
           if (avgDailySavings >=? requiredDaily * lit 0.8)%b64
           then S goals_on_track
           else goals_on_track)
      activeGoals O in
  (* Trends *)
  let monthlyData := aggregateMonthly transactions in
  expenseTrend <- analyzeTrend (map m_expense monthlyData) ;;
  incomeTrend <- analyzeTrend (map m_income monthlyData) ;;
  Return
    {| total_income := total_income;
       total_expense := total_expense;
       net_savings := net_savings;
       savings_rate := savings_rate;
       budgets_on_track := budgets_on_track;
       budgets_exceeded := budgets_exceeded;
       budget_adherence_rate := budget_adherence_rate;
       avg_daily_expense := JS.Math_round avg_daily_expense;
       expense_volatility := expense_volatility;
       largest_expense := largest_expense;
       credit_usage := credit_usage;
       credit_ratio := credit_ratio;
       goals_progress := goals_progress;
       goals_on_track := goals_on_track;
       expense_trend := trend_of (ML.direction expenseTrend);
       income_trend := trend_of (ML.direction incomeTrend) |}.

(** *** health.ts: main analysis *)

Definition analyzeFinancialHealth (now : Z) (transactions : list Transaction.t)
  (budgets : list Budget.t) (goals : list Goal.t)
  (previousSnapshots : list HealthSnapshot.t) : completion HealthAnalysis :=
  metrics <- calculateMetrics now transactions budgets goals ;;
  let savingsScore := calculateSavingsScore metrics in
  let budgetScore := calculateBudgetScore metrics in
  let debtScore := calculateDebtScore metrics in
  let stabilityScore := calculateStabilityScore metrics in
  let overall :=
    JS.Math_round
      (savingsScore * lit WEIGHTS.savings
       + budgetScore * lit WEIGHTS.budget
       + debtScore * lit WEIGHTS.debt
       + stabilityScore * lit WEIGHTS.stability)%b64 in
  let score :=
    {| overall := overall;
       savings := savingsScore;
       budget := budgetScore;
       debt := debtScore;
       stability := stabilityScore;
       grade := getGradeInfo overall |} in
  let recommendations := generateRecommendations score metrics in
  let monthlyData := aggregateMonthly transactions in
  t_income <- analyzeTrend (map m_income monthlyData) ;;
  t_expense <- analyzeTrend (map m_expense monthlyData) ;;
  t_savings <-
    analyzeTrend
      (map (fun m => (m_income m - m_expense m)%b64) monthlyData) ;;
  let comparison := calculateComparison overall previousSnapshots in
  Return
    {| score := score;
       metrics := metrics;
       recommendations := recommendations;
       trends := {| trend_income := t_income;
                    trend_expense := t_expense;
                    trend_savings := t_savings |};
       comparison := comparison |}.

End Rounding.

End Rounded.

(* ================================================================== *)
(** * analytics.ts: budget alerts *)
(* ================================================================== *)

Module Analytics.

Record BudgetAlert : Type := {
  budget_id : UUID;
  budget_name : jsstring;
  category_name : option jsstring;
  spent : num;
  limit : num;
  percentage : num
}.

Definition getBudgetAlerts (budgets : list Budget.t)
  (expenses : list Transaction.t) : list BudgetAlert :=
  let alerts :=
    flat_map
      (fun budget =>
         let categoryExpenses :=
           filter
             (fun e =>
                opt_eqb (Transaction.category_id e) (Budget.category_id budget))
             expenses in
         let spent :=
           JS.sum (map (fun e => Fin (Transaction.amount e)) categoryExpenses) in
         let percentage :=
           JS.Math_round (spent / Budget.amount budget * 100)%js in
         if (percentage >=? Budget.alert_threshold budget)%js then
           [ {| budget_id := Budget.id budget;
                budget_name := Budget.name budget;
                category_name := option_map Category.name (Budget.category budget);
                spent := spent;
                limit := Fin (Budget.amount budget);
                percentage := percentage |} ]
         else [])
      (filter Budget.is_active budgets) in
  Arr.sort (fun a b => (percentage b - percentage a)%js) alerts.

(** ** Debts between the members of a family *)

Record Member : Type := {
  user_id : UUID;
  nickname : jsstring
}.







End Analytics.

(* ================================================================== *)
(** * anomaly.ts *)
(* ================================================================== *)

Module Anomaly.

Inductive AnomalyType : Type :=
  high_amount | unusual_category | frequency | new_merchant.
Inductive AnomalySeverity : Type := info | warning | alert.

Record AnomalyDetectionConfig : Type := {
  amount_threshold : Q;
  lookback_days : Q;
  min_transactions : Q;
  iqr_multiplier : Q
}.

(** [Partial<AnomalyDetectionConfig>] *)
Record PartialConfig : Type := {
  p_amount_threshold : option Q;
  p_lookback_days : option Q;
  p_min_transactions : option Q;
  p_iqr_multiplier : option Q
}.

Definition no_config : PartialConfig :=
  {| p_amount_threshold := None; p_lookback_days := None;
     p_min_transactions := None; p_iqr_multiplier := None |}.

Definition DEFAULT_CONFIG : AnomalyDetectionConfig :=
  {| amount_threshold := 2.5;
     lookback_days := 90;
     min_transactions := 5;
     iqr_multiplier := 1.5 |}.

(** [{ ...DEFAULT_CONFIG, ...config }] *)
Definition merge (config : PartialConfig) : AnomalyDetectionConfig :=
  let pick (o : option Q) (d : Q) := match o with Some v => v | None => d end in
  {| amount_threshold :=
       pick (p_amount_threshold config) (amount_threshold DEFAULT_CONFIG);
     lookback_days :=
       pick (p_lookback_days config) (lookback_days DEFAULT_CONFIG);
     min_transactions :=
       pick (p_min_transactions config) (min_transactions DEFAULT_CONFIG);
     iqr_multiplier :=
       pick (p_iqr_multiplier config) (iqr_multiplier DEFAULT_CONFIG) |}.

Record Details : Type := {
  transaction_id : option UUID;
  expected_value : option num;
  actual_value : option num;
  z_score : option num;
  category : option jsstring;
  historical_average : option num;
  deviation_percent : option num
}.

Definition no_details : Details :=
  {| transaction_id := None; expected_value := None; actual_value := None;
     z_score := None; category := None; historical_average := None;
     deviation_percent := None |}.

(** The message of an anomaly is rendered from its type and details and
    is not kept. *)
Record DetectedAnomaly : Type := {
  type : AnomalyType;
  severity : AnomalySeverity;
  details : Details
}.

Section WithHost.
Context {H : Host}.

(** ** Specific detectors *)

Definition detectHighAmount (transaction : Transaction.t)
  (history : list Transaction.t) (config : AnomalyDetectionConfig)
  : option DetectedAnomaly :=
  let amounts := map (fun t => Fin (Transaction.amount t)) history in
  if (JS.of_nat (length amounts) <? min_transactions config)%js then None
  else
    let result :=
      ML.isAnomaly (Transaction.amount transaction) amounts
        (amount_threshold config) in
    if negb (ML.isAnomaly_ result) then None
    else
      let avg := (JS.sum amounts / JS.of_nat (length amounts))%js in
      let deviationPercent :=
        ((Transaction.amount transaction - avg) / avg * 100)%js in
      let severity :=
        if (JS.Math_abs (ML.zScore result) >? 4)%js then alert
        else if (JS.Math_abs (ML.zScore result) >? 3)%js then warning
        else info in
      Some
        {| type := high_amount;
           severity := severity;
           details :=
             {| transaction_id := Some (Transaction.id transaction);
                expected_value := Some (JS.Math_round avg);
                actual_value := Some (Fin (Transaction.amount transaction));
                z_score := Some (ML.zScore result);
                category := None;
                historical_average := Some (JS.Math_round avg);
                deviation_percent := Some (JS.Math_round deviationPercent) |} |}.

Definition detectCategoryAnomaly (transaction : Transaction.t)
  (history : list Transaction.t) (config : AnomalyDetectionConfig)
  : option DetectedAnomaly :=
  let categoryHistory :=
    filter
      (fun t =>
         opt_eqb (Transaction.category_id t) (Transaction.category_id transaction))
      history in
  if (JS.of_nat (length categoryHistory) <? min_transactions config)%js then None
  else
    let amounts := map (fun t => Fin (Transaction.amount t)) categoryHistory in
    let iqrResult :=
      ML.detectAnomaliesIQR (Transaction.amount transaction) amounts
        (iqr_multiplier config) in
    if negb (ML.iqr_isAnomaly iqrResult) then None
    else
      let avg := (JS.sum amounts / JS.of_nat (length amounts))%js in
      let category :=
        match Transaction.category transaction with
        | Some c =>
            match Category.name c with
            | [] => U "категории"
            | n => n
            end
        | None => U "категории"
        end in
      Some
        {| type := unusual_category;
           severity :=
             match ML.severity iqrResult with
             | ML.extreme => alert
             | _ => warning
             end;
           details :=
             {| transaction_id := Some (Transaction.id transaction);
                expected_value := Some (JS.Math_round avg);
                actual_value := Some (Fin (Transaction.amount transaction));
                z_score := None;
                category := Some category;
                historical_average := Some (JS.Math_round avg);
                deviation_percent := None |} |}.

Definition detectUnusualCategory (transaction : Transaction.t)
  (history : list Transaction.t) (categories : list Category.t)
  (config : AnomalyDetectionConfig) : option DetectedAnomaly :=
  match Transaction.category_id transaction with
  | None | Some [] => None
  | Some category_id =>
      let categoryCounts :=
        fold_left
          (fun counts t =>
             match Transaction.category_id t with
             | Some (c :: cs) => Tally.bump (c :: cs) counts
             | _ => counts
             end)
          history Obj.empty in
      let thisCount := Tally.read category_id categoryCounts in
      let totalTransactions := length history in
      if (20 <? totalTransactions)%nat
         && (thisCount / JS.of_nat totalTransactions <? 0.02)%js
      then
        let category :=
          Arr.find (fun c => Str.eqb (Category.id c) category_id) categories in
        Some
          {| type := new_merchant;
             severity := info;
             details :=
               {| transaction_id := Some (Transaction.id transaction);
                  expected_value := None;
                  actual_value := None;
                  z_score := None;
                  category := option_map Category.name category;
                  historical_average := None;
                  deviation_percent := None |} |}
      else None
  end.

(** The same-week count of the source is computed and never read; it
    is left out. *)
Definition detectFrequencyAnomaly (transaction : Transaction.t)
  (history : list Transaction.t) (config : AnomalyDetectionConfig)
  : option DetectedAnomaly :=
  let transactionDate := JSDate.of_string (Transaction.date transaction) in
  let sameDay :=
    filter
      (fun t =>
         let d := JSDate.of_string (Transaction.date t) in
         match JSDate.toDateString d, JSDate.toDateString transactionDate with
         | Some a, Some b => (a =? b)%Z
         | None, None => true
         | _, _ => false
         end)
      history in
  let daysCovered := lookback_days config in
  let avgDailyTransactions := (JS.of_nat (length history) / daysCovered)%js in
  if (10 <? length sameDay)%nat
     && (JS.of_nat (length sameDay) >? avgDailyTransactions * 3)%js
  then
    Some
      {| type := frequency;
         severity := warning;
         details :=
           {| transaction_id := None;
              expected_value := None;
              actual_value := Some (JS.of_nat (length sameDay) + 1)%js;
              z_score := None;
              category := None;
              historical_average := Some (JS.Math_round avgDailyTransactions);
              deviation_percent := None |} |}
  else None.

(** ** Main detection function

    [now] is the reading of the wall clock ([new Date()]) taken by the
    call; it is not a parameter of the TypeScript function. *)

Definition to_list {A : Type} (o : option A) : list A :=
  match o with Some a => [a] | None => [] end.

(** The history the first three checks receive. *)
Definition relevantHistory (now : Z) (transaction : Transaction.t)
  (historicalTransactions : list Transaction.t) (cfg : AnomalyDetectionConfig)
  : list Transaction.t :=
  let cutoffDate := JSDate.minus_days now (lookback_days cfg) in
  filter
    (fun t =>
       TransactionType_eqb (Transaction.type t) expense
       && JSDate.ge (JSDate.of_string (Transaction.date t)) cutoffDate
       && negb (Str.eqb (Transaction.id t) (Transaction.id transaction)))
    historicalTransactions.

Definition detectTransactionAnomalies (now : Z) (transaction : Transaction.t)
  (historicalTransactions : list Transaction.t) (categories : list Category.t)
  (config : PartialConfig) : list DetectedAnomaly :=
  let cfg := merge config in
  match Transaction.type transaction with
  | expense =>
      let relevantHistory :=
        relevantHistory now transaction historicalTransactions cfg in
      (* 1. High amount anomaly (overall) *)
      let highAmountAnomaly :=
        detectHighAmount transaction relevantHistory cfg in
      (* 2. Category-specific anomaly *)
      let categoryAnomaly :=
        if truthy (Transaction.category_id transaction)
        then detectCategoryAnomaly transaction relevantHistory cfg
        else None in
      (* 3. Unusual category usage *)
      let unusualCategoryAnomaly :=
        detectUnusualCategory transaction relevantHistory categories cfg in
      (* 4. Frequency anomaly *)
      let frequencyAnomaly :=
        detectFrequencyAnomaly transaction historicalTransactions cfg in
      to_list highAmountAnomaly ++ to_list categoryAnomaly
      ++ to_list unusualCategoryAnomaly ++ to_list frequencyAnomaly
  | _ => []
  end.

(** ** Helpers of the period analysis *)

(** Under a key that names a member of [Object.prototype] no group is
    made: [acc[key]] finds the inherited member, which has no [push],
    and the call of it throws. *)
Definition groupByCategory (transactions : list Transaction.t)
  : completion (Obj.t (list Transaction.t)) :=
  fold_left
    (fun acc t =>
       acc <- acc ;;
       let key :=
         match Transaction.category_id t with
         | Some (c :: cs) => c :: cs
         | _ => U "uncategorized"
         end in
       let acc :=
         match Obj.get key acc with
         | None => if Proto.member key then acc else Obj.set key [] acc
         | Some _ => acc
         end in
       match Obj.get key acc with
       | Some group => Return (Obj.set key (group ++ [t]) acc)
       | None => Throw (TypeError "acc[key].push is not a function")
       end)
    transactions (Return Obj.empty).

(** The days are kept as day numbers while the amounts are added up and
    rendered for the final sort. *)
Definition aggregateByDay (transactions : list Transaction.t)
  : completion (list (jsstring * num)) :=
  byDay <-
    fold_left
      (fun acc t =>
         byDay <- acc ;;
         day <- JSDate.toISODate (JSDate.of_string (Transaction.date t)) ;;
         Return
           (DayMap.set day
              (JS.or_default (DayMap.get day byDay) 0 + Transaction.amount t)%js
              byDay))
      transactions (Return []) ;;
  Return
    (Arr.sort
       (fun a b => Arr.cmp_num (localeCompare (fst a) (fst b)))
       (map (fun '(day, amount) => (JSDate.iso_date day, amount)) byDay)).

(** ** Analysis of a period *)

Record SpendingPatterns : Type := {
  categoryAnomalies : list DetectedAnomaly;
  trendAnomalies : list DetectedAnomaly;
  overallAssessment : jsstring
}.

Definition analyzeSpendingPatterns (transactions : list Transaction.t)
  (config : PartialConfig) : completion SpendingPatterns :=
  let cfg := merge config in
  let expenses :=
    filter (fun t => TransactionType_eqb (Transaction.type t) expense)
      transactions in
  if (JS.of_nat (length expenses) <? min_transactions cfg)%js then
    Return {| categoryAnomalies := [];
              trendAnomalies := [];
              overallAssessment := U "Недостаточно данных для анализа" |}
  else
    (* Group by category *)
    byCategory <- groupByCategory expenses ;;
    (* Analyze each category *)
    categoryAnomalies <-
      fold_left
        (fun acc '(categoryId, categoryTransactions) =>
           categoryAnomalies <- acc ;;
           let amounts :=
             map (fun t => Fin (Transaction.amount t)) categoryTransactions in
           trend <- ML.analyzeTrend amounts ;;
           match ML.direction trend with
           | ML.up =>
               if (ML.change_percent trend >? 30)%js then
                 Return
                   (categoryAnomalies ++
                    [ {| type := unusual_category;
                         severity :=
                           if (ML.change_percent trend >? 50)%js
                           then alert else warning;
                         details :=
                           {| transaction_id := None;
                              expected_value := None;
                              actual_value := None;
                              z_score := None;
                              category := Some categoryId;
                              historical_average := Some (ML.average trend);
                              deviation_percent :=
                                Some (ML.change_percent trend) |} |} ])
               else Return categoryAnomalies
           | _ => Return categoryAnomalies
           end)
        (Obj.entries byCategory) (Return []) ;;
    (* Overall spending trend *)
    dailyExpenses <- aggregateByDay expenses ;;
    overallTrend <- ML.analyzeTrend (map snd dailyExpenses) ;;
    let rising :=
      match ML.direction overallTrend with
      | ML.up =>
          if (ML.change_percent overallTrend >? 20)%js then
            [ {| type := frequency;
                 severity := warning;
                 details :=
                   {| transaction_id := None;
                      expected_value := None;
                      actual_value := None;
                      z_score := None;
                      category := None;
                      historical_average := Some (ML.average overallTrend);
                      deviation_percent :=
                        Some (ML.change_percent overallTrend) |} |} ]
          else []
      | _ => []
      end in
    (* High volatility *)
    let volatile :=
      if (ML.volatility overallTrend >? 0.5)%js then
        [ {| type := frequency;
             severity := info;
             details :=
               {| transaction_id := None;
                  expected_value := None;
                  actual_value := None;
                  z_score := None;
                  category := None;
                  historical_average := None;
                  deviation_percent :=
                    Some (JS.Math_round (ML.volatility overallTrend * 100)%js) |} |} ]
      else [] in
    let trendAnomalies := rising ++ volatile in
    (* Overall assessment *)
    let totalAnomalies :=
      (length categoryAnomalies + length trendAnomalies)%nat in
    let overallAssessment :=
      if (totalAnomalies =? 0)%nat then U "Расходы в норме ✓"
      else if (totalAnomalies <=? 2)%nat then U "Есть незначительные отклонения"
      else U "Требует внимания: обнаружены аномалии" in
    Return {| categoryAnomalies := categoryAnomalies;
              trendAnomalies := trendAnomalies;
              overallAssessment := overallAssessment |}.

End WithHost.

End Anomaly.

(* ================================================================== *)
(** * autocategory.ts *)
(* ================================================================== *)

Module AutoCategory.

Inductive MatchType : Type := mt_keyword | mt_pattern | mt_history | mt_fuzzy.

Record MatchResult : Type := {
  categoryId : UUID;
  categoryName : jsstring;
  confidence : num;
  matchedKeyword : option jsstring;
  matchType : MatchType
}.

Record Alternative : Type := {
  alt_category_id : UUID;
  alt_category_name : jsstring;
  alt_confidence : num
}.

Record CategoryPrediction : Type := {
  category_id : UUID;
  category_name : jsstring;
  prediction_confidence : num;
  alternative : option Alternative
}.

(** ** Default keywords (Russian)

    [Object.entries(DEFAULT_KEYWORDS)]: no key is an array index, so the
    entries come in the order written. *)

Definition DEFAULT_KEYWORDS : list (jsstring * list jsstring) :=
  [ (U "продукты",
     [ U "магнит"; U "пятёрочка"; U "пятерочка"; U "перекрёсток";
      U "перекресток"; U "ашан"; U "лента"; U "дикси"; U "вкусвилл";
      U "азбука вкуса"; U "metro"; U "окей"; U "карусель"; U "супермаркет";
      U "продукты"; U "гипермаркет"; U "spar"; U "билла"; U "billa";
      U "fixprice"; U "фикспрайс" ]);
    (U "транспорт",
     [ U "яндекс такси"; U "uber"; U "gett"; U "ситимобил"; U "такси";
      U "метро"; U "бензин"; U "азс"; U "лукойл"; U "газпром";
      U "роснефть"; U "shell"; U "bp"; U "парковка"; U "мойка";
      U "автомойка"; U "шиномонтаж"; U "автосервис"; U "ржд"; U "аэрофлот";
      U "s7"; U "победа"; U "билет"; U "каршеринг"; U "яндекс драйв";
      U "делимобиль"; U "belka"; U "трансп" ]);
    (U "рестораны",
     [ U "кафе"; U "ресторан"; U "бар"; U "пиццерия"; U "суши"; U "бургер";
      U "макдоналдс"; U "mcdonalds"; U "kfc"; U "бургер кинг";
      U "burger king"; U "subway"; U "pizza"; U "пицца"; U "coffee";
      U "кофе"; U "starbucks"; U "якитория"; U "тануки"; U "delivery club";
      U "яндекс еда"; U "самокат"; U "сбермаркет"; U "доставка еды" ]);
    (U "развлечения",
     [ U "кино"; U "cinema"; U "театр"; U "концерт"; U "музей";
      U "выставка"; U "netflix"; U "spotify"; U "youtube"; U "apple music";
      U "подписка"; U "steam"; U "playstation"; U "xbox"; U "игра";
      U "game"; U "кинопоиск"; U "иви"; U "okko"; U "premier"; U "more.tv";
      U "билет" ]);
    (U "одежда",
     [ U "zara"; U "h&m"; U "hm"; U "uniqlo"; U "reserved";
      U "massimo dutti"; U "bershka"; U "pull&bear"; U "mango"; U "одежда";
      U "обувь"; U "adidas"; U "nike"; U "puma"; U "reebok";
      U "спортмастер"; U "декатлон"; U "rendez-vous"; U "ecco"; U "kari";
      U "respect"; U "wildberries"; U "lamoda"; U "wb" ]);
    (U "здоровье",
     [ U "аптека"; U "pharmacy"; U "лекарство"; U "витамины"; U "клиника";
      U "поликлиника"; U "врач"; U "доктор"; U "анализы"; U "стоматолог";
      U "госртолог"; U "окулист"; U "медицинский"; U "здоровье"; U "медси";
      U "инвитро"; U "гемотест"; U "лаборатория" ]);
    (U "коммуналка",
     [ U "жкх"; U "квартплата"; U "электричество"; U "газ"; U "вода";
      U "отопление"; U "интернет"; U "телефон"; U "мобильная связь";
      U "мтс"; U "билайн"; U "мегафон"; U "теле2"; U "tele2";
      U "ростелеком"; U "аренда"; U "rent" ]);
    (U "образование",
     [ U "курс"; U "обучение"; U "школа"; U "университет"; U "книга";
      U "учебник"; U "skillbox"; U "geekbrains"; U "нетология";
      U "coursera"; U "udemy"; U "литрес"; U "книжный"; U "библиотека" ]);
    (U "красота",
     [ U "салон"; U "парикмахерская"; U "барбершоп"; U "маникюр";
      U "педикюр"; U "spa"; U "спа"; U "массаж"; U "косметика";
      U "л'этуаль"; U "letual"; U "рив гош"; U "иль де ботэ";
      U "золотое яблоко"; U "sephora" ]);
    (U "зарплата",
     [ U "зарплата"; U "зп"; U "аванс"; U "оклад"; U "премия"; U "бонус";
      U "salary" ]);
    (U "фриланс",
     [ U "фриланс"; U "freelance"; U "проект"; U "заказ"; U "контракт";
      U "гонорар" ]);
    (U "кэшбэк",
     [ U "кэшбэк"; U "cashback"; U "возврат"; U "refund"; U "бонусы" ]) ].

(** ** Helper functions *)

(** [toLowerCase], code unit by code unit, on Basic Latin and Cyrillic;
    the Kelvin sign and the dotted capital I are the only other
    characters whose lower case reaches the alphabet [normalizeText]
    keeps.  Every other code unit is left as it is: its lower case, like
    itself, is blanked by [normalizeText]. *)
Definition toLowerCase_unit (c : N) : list N :=
  if ((65 <=? c) && (c <=? 90))%N then [(c + 32)%N]
  else if ((1040 <=? c) && (c <=? 1071))%N then [(c + 32)%N]
  else if ((1024 <=? c) && (c <=? 1039))%N then [(c + 80)%N]
  else if (c =? 8490)%N then [107%N]
  else if (c =? 304)%N then [105%N; 775%N]
  else [c].

Definition toLowerCase (s : jsstring) : jsstring := flat_map toLowerCase_unit s.

(** [[a-zа-я0-9\s]] *)
Definition kept (c : N) : bool :=
  ((97 <=? c) && (c <=? 122) || (1072 <=? c) && (c <=? 1103)
   || (48 <=? c) && (c <=? 57))%N
  || Str.is_space c.

(** [replace(/\s+/g, ' ')] *)
Fixpoint collapse (in_space : bool) (s : jsstring) : jsstring :=
  match s with
  | [] => []
  | c :: s' =>
      if Str.is_space c
      then if in_space then collapse true s' else 32%N :: collapse true s'
      else c :: collapse false s'
  end.

Definition normalizeText (text : jsstring) : jsstring :=
  Str.trim
    (collapse false
       (map (fun c => if kept c then c else 32%N)
          (map (fun c => if (c =? 1105)%N then 1077%N else c)
             (toLowerCase text)))).

(** The regular expression [matchesPattern] builds from a pattern: every
    character is escaped, then [*] stands for [.*] and [?] for [.].  The
    expression is always well formed, so the substring fallback of the
    source is never taken. *)
Inductive token : Type := Star | AnyChar | Lit (c : N).

Definition tokenize (pattern : jsstring) : list token :=
  map (fun c => if (c =? 42)%N then Star
                else if (c =? 63)%N then AnyChar
                else Lit c)
    pattern.

(** Case folding of the [i] flag, on the characters that can equal a
    character kept by [normalizeText]. *)
Definition canonicalize (c : N) : N :=
  if ((97 <=? c) && (c <=? 122))%N then (c - 32)%N
  else if ((1072 <=? c) && (c <=? 1103))%N then (c - 32)%N
  else if ((1104 <=? c) && (c <=? 1119))%N then (c - 80)%N
  else if (c =? 7296)%N then 1042%N
  else if (c =? 7297)%N then 1044%N
  else if (c =? 7298)%N then 1054%N
  else if (c =? 7299)%N then 1057%N
  else if (c =? 7300)%N then 1058%N
  else if (c =? 7301)%N then 1058%N
  else if (c =? 7302)%N then 1066%N
  else c.

(** [.] matches anything but a line terminator. *)
Definition line_terminator (c : N) : bool :=
  ((c =? 10) || (c =? 13) || (c =? 8232) || (c =? 8233))%N.

(** Does the token list match a prefix of the text? *)
Fixpoint match_here (toks : list token) (text : jsstring) : bool :=
  match toks with
  | [] => true
  | Star :: toks' =>
      (fix star (text : jsstring) : bool :=
         match_here toks' text ||
         match text with
         | c :: text' => negb (line_terminator c) && star text'
         | [] => false
         end) text
  | AnyChar :: toks' =>
      match text with
      | c :: text' => negb (line_terminator c) && match_here toks' text'
      | [] => false
      end
  | Lit p :: toks' =>
      match text with
      | c :: text' =>
          (canonicalize c =? canonicalize p)%N && match_here toks' text'
      | [] => false
      end
  end.

(** [regex.test(text)]: a match starting anywhere *)
Fixpoint search (toks : list token) (text : jsstring) : bool :=
  match_here toks text ||
  match text with
  | _ :: text' => search toks text'
  | [] => false
  end.

Definition matchesPattern (text pattern : jsstring) : bool :=
  search (tokenize pattern) text.

(** A [Set] of bigrams, in insertion order. *)
Definition bigram : Type := (N * N)%type.

Definition bigram_eqb (x y : bigram) : bool :=
  ((fst x =? fst y) && (snd x =? snd y))%N.

Definition set_has (s : list bigram) (x : bigram) : bool :=
  existsb (bigram_eqb x) s.

Definition set_add (s : list bigram) (x : bigram) : list bigram :=
  if set_has s x then s else s ++ [x].

Fixpoint bigrams_from (acc : list bigram) (a : jsstring) : list bigram :=
  match a with
  | x :: ((y :: _) as a') => bigrams_from (set_add acc (x, y)) a'
  | _ => acc
  end.

Definition bigrams (a : jsstring) : list bigram := bigrams_from [] a.

(** Sørensen–Dice coefficient of the bigram sets *)
Definition calculateSimilarity (a b : jsstring) : num :=
  if Str.eqb a b then Fin 1
  else if (length a =? 0)%nat || (length b =? 0)%nat then Fin 0
  else
    let bigramsA := bigrams a in
    let bigramsB := bigrams b in
    let intersection := length (filter (set_has bigramsB) bigramsA) in
    (JS.of_nat (2 * intersection)
     / JS.of_nat (length bigramsA + length bigramsB))%js.

Definition areSimilar (a b : jsstring) (threshold : num) : bool :=
  if Str.includes a b || Str.includes b a then true
  else (calculateSimilarity a b >=? threshold)%js.

Definition findCategory (id : UUID) (categories : list Category.t)
  : option Category.t :=
  Arr.find (fun c => Str.eqb (Category.id c) id) categories.

(** ** Learning from history *)

(** [descriptionCounts] holds a tally for each normalized description.
    A description that normalizes to the name of a member of
    [Object.prototype] ([constructor] is the one that can) never becomes
    a key: the lookup finds the inherited member, the global [Object],
    and the count is written to a property of it.  That write and what
    may follow from it in the program are left out here: the row is
    passed over.  [writesObject] tells when a call makes such a
    write. *)
Definition findHistoricalMatch (description : jsstring)
  (transactions : list Transaction.t) (categories : list Category.t)
  : option MatchResult :=
  let descriptionCounts : Obj.t Tally.t :=
    fold_left
      (fun descriptionCounts tx =>
         match Transaction.description tx, Transaction.category_id tx with
         | Some (d :: ds), Some (c :: cs) =>
             let normalized := normalizeText (d :: ds) in
             if areSimilar description normalized 0.7 then
               match Obj.get normalized descriptionCounts with
               | Some counts =>
                   Obj.set normalized (Tally.bump (c :: cs) counts)
                     descriptionCounts
               | None =>
                   if Proto.member normalized then descriptionCounts
                   else
                     Obj.set normalized (Tally.bump (c :: cs) Obj.empty)
                       descriptionCounts
               end
             else descriptionCounts
         | _, _ => descriptionCounts
         end)
      transactions Obj.empty in
  let '(bestMatch, totalCount) :=
    fold_left
      (fun '(bestMatch, totalCount) '(categoryId, count) =>
         let totalCount := Tally.plus totalCount count in
         match bestMatch with
         | None => (Some (categoryId, count), totalCount)
         | Some (_, best) =>
             if Tally.gt count best
             then (Some (categoryId, count), totalCount)
             else (bestMatch, totalCount)
         end)
      (flat_map (fun counts => Obj.entries counts)
         (Obj.values descriptionCounts))
      (None, Tally.Count 0) in
  match bestMatch with
  | None => None
  | Some (bestId, bestCount) =>
      if Tally.below bestCount 2 then None
      else
        match findCategory bestId categories with
        | None => None
        | Some category =>
            let confidence :=
              JS.Math_min 0.9
                (0.5 + (Tally.to_number bestCount
                        / Tally.to_number totalCount) * 0.4)%js in
            Some {| categoryId := Category.id category;
                    categoryName := Category.name category;
                    confidence := confidence;
                    matchedKeyword := None;
                    matchType := mt_history |}
        end
  end.

(** A call of [findHistoricalMatch] writes a property of the global
    [Object]: some row with a description and a category has a
    description that is similar to the one given and normalizes to the
    name of a member of [Object.prototype]. *)
Definition writesObject (description : jsstring)
  (transactions : list Transaction.t) : bool :=
  existsb
    (fun tx =>
       match Transaction.description tx, Transaction.category_id tx with
       | Some (d :: ds), Some (_ :: _) =>
           areSimilar description (normalizeText (d :: ds)) 0.7
           && Proto.member (normalizeText (d :: ds))
       | _, _ => false
       end)
    transactions.

(** ** Fuzzy matching *)

Definition fuzzyMatchCategory (description : jsstring)
  (categories : list Category.t) : option MatchResult :=
  let bestMatch :=
    fold_left
      (fun (bestMatch : option (Category.t * num)) category =>
         let score :=
           calculateSimilarity description
             (normalizeText (Category.name category)) in
         if (score >? 0.6)%js
            && match bestMatch with
               | None => true
               | Some (_, best) => (score >? best)%js
               end
         then Some (category, score)
         else bestMatch)
      categories None in
  match bestMatch with
  | None => None
  | Some (category, score) =>
      Some {| categoryId := Category.id category;
              categoryName := Category.name category;
              confidence := (score * 0.6)%js;
              matchedKeyword := None;
              matchType := mt_fuzzy |}
  end.

(** ** Main categorization function *)

(** 1. Custom rules, already sorted: the first rule that matches and
    whose category exists ends the scan. *)
Fixpoint ruleMatches (normalizedDesc : jsstring) (categories : list Category.t)
  (rules : list CategoryRule.t) : list MatchResult :=
  match rules with
  | [] => []
  | rule :: rules' =>
      if matchesPattern normalizedDesc (CategoryRule.pattern rule) then
        match findCategory (CategoryRule.category_id rule) categories with
        | Some category =>
            [ {| categoryId := Category.id category;
                 categoryName := Category.name category;
                 confidence := Fin 0.95;
                 matchedKeyword := Some (CategoryRule.pattern rule);
                 matchType := mt_pattern |} ]
        | None => ruleMatches normalizedDesc categories rules'
        end
      else ruleMatches normalizedDesc categories rules'
  end.

(** 2. Category keywords: at most one match per category. *)
Definition keywordMatches (normalizedDesc : jsstring)
  (categories : list Category.t) : list MatchResult :=
  flat_map
    (fun category =>
       match
         Arr.find
           (fun keyword => Str.includes normalizedDesc (normalizeText keyword))
           (Category.keywords category)
       with
       | Some keyword =>
           [ {| categoryId := Category.id category;
                categoryName := Category.name category;
                confidence := Fin 0.85;
                matchedKeyword := Some keyword;
                matchType := mt_keyword |} ]
       | None => []
       end)
    categories.

(** 3. Default keywords: the first keyword of an entry found in the
    description decides for that entry. *)
Definition defaultMatches (normalizedDesc : jsstring)
  (categories : list Category.t) (matches : list MatchResult)
  : list MatchResult :=
  fold_left
    (fun matches '(categoryName, keywords) =>
       match
         Arr.find
           (fun keyword => Str.includes normalizedDesc (normalizeText keyword))
           keywords
       with
       | Some keyword =>
           match
             Arr.find
               (fun c =>
                  Str.eqb (normalizeText (Category.name c))
                    (normalizeText categoryName))
               categories
           with
           | Some category =>
               if existsb
                    (fun m => Str.eqb (categoryId m) (Category.id category))
                    matches
               then matches
               else
                 matches ++
                 [ {| categoryId := Category.id category;
                      categoryName := Category.name category;
                      confidence := Fin 0.75;
                      matchedKeyword := Some keyword;
                      matchType := mt_keyword |} ]
           | None => matches
           end
       | None => matches
       end)
    DEFAULT_KEYWORDS matches.

Definition to_alternative (m : MatchResult) : Alternative :=
  {| alt_category_id := categoryId m;
     alt_category_name := categoryName m;
     alt_confidence := confidence m |}.

(** [customRules.sort(...)] sorts the caller's array in place; only the
    returned prediction is modelled. *)
Definition predictCategory (description : jsstring)
  (categories : list Category.t) (historicalTransactions : list Transaction.t)
  (customRules : list CategoryRule.t) : option CategoryPrediction :=
  if (length (Str.trim description) =? 0)%nat then None
  else
    let normalizedDesc := normalizeText description in
    (* 1. Check custom rules first (highest priority) *)
    let matches :=
      ruleMatches normalizedDesc categories
        (Arr.sort
           (fun a b => (CategoryRule.priority b - CategoryRule.priority a)%js)
           customRules) in
    (* 2. Check category keywords *)
    let matches := matches ++ keywordMatches normalizedDesc categories in
    (* 3. Check default keywords *)
    let matches := defaultMatches normalizedDesc categories matches in
    (* 4. Learn from historical data *)
    let matches :=
      match
        findHistoricalMatch normalizedDesc historicalTransactions categories
      with
      | Some historicalMatch => matches ++ [historicalMatch]
      | None => matches
      end in
    (* 5. Fuzzy matching as fallback *)
    let matches :=
      match matches with
      | [] =>
          match fuzzyMatchCategory normalizedDesc categories with
          | Some fuzzyMatch => [fuzzyMatch]
          | None => []
          end
      | _ => matches
      end in
    (* Sort by confidence and return best match *)
    match Arr.sort (fun a b => (confidence b - confidence a)%js) matches with
    | [] => None
    | best :: rest =>
        Some {| category_id := categoryId best;
                category_name := categoryName best;
                prediction_confidence := confidence best;
                alternative := option_map to_alternative (hd_error rest) |}
    end.

(** The caller's [customRules] array after a call of [predictCategory]:
    sorted in place, unless the description was blank and the call
    returned before the sort. *)
Definition rulesAfter (description : jsstring)
  (customRules : list CategoryRule.t) : list CategoryRule.t :=
  if (length (Str.trim description) =? 0)%nat then customRules
  else
    Arr.sort
      (fun a b => (CategoryRule.priority b - CategoryRule.priority a)%js)
      customRules.

(** ** Batch categorization

    The result is a [Map]: its entries in insertion order, a repeated
    key keeping its place.  Every call of [predictCategory] receives
    the one [customRules] array, as the calls before it left it.  The
    calls share the global [Object] too: once a call has written a
    property of it, the calls that follow run against a changed
    [Object], which is not modelled, and the result is [None]. *)
Definition batchCategorize (transactions : list (jsstring * jsstring))
  (categories : list Category.t) (historicalTransactions : list Transaction.t)
  (customRules : list CategoryRule.t) : option (Obj.t CategoryPrediction) :=
  option_map fst
    (fold_left
       (fun state '(id, description) =>
          match state with
          | None => None
          | Some (results, customRules) =>
              if negb (length (Str.trim description) =? 0)%nat
                 && writesObject (normalizeText description)
                      historicalTransactions
              then None
              else
                let prediction :=
                  predictCategory description categories
                    historicalTransactions customRules in
                let customRules := rulesAfter description customRules in
                match prediction with
                | Some prediction =>
                    Some (Obj.set id prediction results, customRules)
                | None => Some (results, customRules)
                end
          end)
       transactions (Some (Obj.empty, customRules))).

(** ** Learning patterns *)

Record LearningData : Type := {
  ld_description : jsstring;
  ld_categoryId : UUID;
  ld_count : nat
}.

(** [s.split(/\s+/)]: [cur] is the piece being read, reversed, and
    [in_sep] tells that the last character was white space. *)
Fixpoint split_from (cur : jsstring) (in_sep : bool) (s : jsstring)
  : list jsstring :=
  match s with
  | [] => [rev cur]
  | c :: s' =>
      if Str.is_space c then
        if in_sep then split_from cur true s'
        else rev cur :: split_from [] true s'
      else split_from (c :: cur) false s'
  end.

Definition split_spaces (s : jsstring) : list jsstring := split_from [] false s.

(** One pattern of [extractLearningPatterns] is counted: created for the
    category when the key is new, incremented when the key belongs to
    the category.  The key ["constructor"] is never created: the lookup
    finds the inherited [Object.prototype.constructor], which has no
    [categoryId]. *)
Definition countPattern (key : jsstring) (categoryId : UUID)
  (patterns : Obj.t (UUID * nat)) : Obj.t (UUID * nat) :=
  if Str.eqb key (U "constructor") then patterns
  else
    let patterns :=
      match Obj.get key patterns with
      | None => Obj.set key (categoryId, O) patterns
      | Some _ => patterns
      end in
    match Obj.get key patterns with
    | Some (c, count) =>
        if Str.eqb c categoryId then Obj.set key (c, S count) patterns
        else patterns
    | None => patterns
    end.

(** The loop over [words]: at each position the single word, when it
    has four characters or more, then the word and its successor. *)
Fixpoint countWords (categoryId : UUID) (words : list jsstring)
  (patterns : Obj.t (UUID * nat)) : Obj.t (UUID * nat) :=
  match words with
  | [] => patterns
  | w :: words' =>
      let patterns :=
        if (4 <=? length w)%nat then countPattern w categoryId patterns
        else patterns in
      let patterns :=
        match words' with
        | w' :: _ => countPattern (w ++ [32%N] ++ w') categoryId patterns
        | [] => patterns
        end in
      countWords categoryId words' patterns
  end.

Definition extractLearningPatterns (transactions : list Transaction.t)
  : list LearningData :=
  let patterns :=
    fold_left
      (fun patterns tx =>
         match Transaction.description tx, Transaction.category_id tx with
         | Some (d :: ds), Some (c :: cs) =>
             let normalized := normalizeText (d :: ds) in
             let words :=
               filter (fun w => (2 <? length w)%nat) (split_spaces normalized) in
             countWords (c :: cs) words patterns
         | _, _ => patterns
         end)
      transactions Obj.empty in
  Arr.sort
    (fun a b => (JS.of_nat (ld_count b) - JS.of_nat (ld_count a))%js)
    (map
       (fun '(description, (categoryId, count)) =>
          {| ld_description := description;
             ld_categoryId := categoryId;
             ld_count := count |})
       (filter (fun '(_, (_, count)) => (3 <=? count)%nat)
          (Obj.entries patterns))).

(** ** Rule management *)

Record NewCategoryRule : Type := {
  new_family_id : UUID;
  new_category_id : UUID;
  new_pattern : jsstring;
  new_priority : Q;
  new_match_count : nat
}.

Definition createRule (familyId categoryId : UUID) (pattern : jsstring)
  (priority : Q) : NewCategoryRule :=
  {| new_family_id := familyId;
     new_category_id := categoryId;
     new_pattern := normalizeText pattern;
     new_priority := priority;
     new_match_count := O |}.

End AutoCategory.

(* ================================================================== *)
(** * Vocabulary of the statements *)
(* ================================================================== *)

Open Scope Q_scope.

(** ** Completions and finite numbers *)

Definition throws {A : Type} (c : completion A) : Prop :=
  exists message, c = Throw (Error message).

Definition returns {A : Type} (c : completion A) : Prop :=
  exists a, c = Return a.

Definition finite (x : num) : Prop := exists q, x = Fin q.

Definition finite_in (lo hi : Q) (x : num) : Prop :=
  exists q, x = Fin q /\ lo <= q <= hi.

(** ** Sorting in descending order of a numeric key *)

(** The comparator [(a, b) => key(b) - key(a)]. *)
Definition desc {A : Type} (key : A -> num) (a b : A) : num :=
  (key b - key a)%js.

Definition keyed {A : Type} (key : A -> num) (x : A) : Prop :=
  exists q, key x = Fin q.

(** [ge_key key a b]: both keys are finite and [key a >= key b]. *)
Definition ge_key {A : Type} (key : A -> num) (a b : A) : Prop :=
  exists qa qb, key a = Fin qa /\ key b = Fin qb /\ qb <= qa.

(** ** Clock readings *)

Definition valid_date {H : Host} (t : Transaction.t) : Prop :=
  JSDate.of_string (Transaction.date t) <> None.

(** ** The categorizer, step by step *)

Definition conf_in (lo hi : Q) (m : AutoCategory.MatchResult) : Prop :=
  exists q, AutoCategory.confidence m = Fin q /\ lo <= q <= hi.

Definition at_most (q : Q) (m : AutoCategory.MatchResult) : Prop :=
  exists b, AutoCategory.confidence m = Fin b /\ b <= q.

Definition by_priority (a b : CategoryRule.t) : num :=
  (CategoryRule.priority b - CategoryRule.priority a)%js.

Definition by_confidence (a b : AutoCategory.MatchResult) : num :=
  (AutoCategory.confidence b - AutoCategory.confidence a)%js.

Definition priority_key (r : CategoryRule.t) : num :=
  Fin (CategoryRule.priority r).

(** The last step of [predictCategory]: the candidate matches are sorted
    and cut to the best two. *)
Definition select (matches : list AutoCategory.MatchResult)
  : option AutoCategory.CategoryPrediction :=
  match Arr.sort by_confidence matches with
  | [] => None
  | best :: rest =>
      Some {| AutoCategory.category_id := AutoCategory.categoryId best;
              AutoCategory.category_name := AutoCategory.categoryName best;
              AutoCategory.prediction_confidence := AutoCategory.confidence best;
              AutoCategory.alternative :=
                option_map AutoCategory.to_alternative (hd_error rest) |}
  end.

(** The candidates [predictCategory] collects for a description that is
    not blank (steps 1 to 5). *)
Definition candidates (description : jsstring) (cats : list Category.t)
  (hist : list Transaction.t) (rules : list CategoryRule.t)
  : list AutoCategory.MatchResult :=
  let nd := AutoCategory.normalizeText description in
  let matches :=
    AutoCategory.defaultMatches nd cats
      (AutoCategory.ruleMatches nd cats (Arr.sort by_priority rules)
       ++ AutoCategory.keywordMatches nd cats) in
  let matches :=
    match AutoCategory.findHistoricalMatch nd hist cats with
    | Some historicalMatch => matches ++ [historicalMatch]
    | None => matches
    end in
  match matches with
  | [] =>
      match AutoCategory.fuzzyMatchCategory nd cats with
      | Some fuzzyMatch => [fuzzyMatch]
      | None => []
      end
  | _ => matches
  end.

(** A rule applies to a normalized description when its pattern matches
    and its category exists. *)
Definition rule_applies (nd : jsstring) (cats : list Category.t)
  (r : CategoryRule.t) : bool :=
  AutoCategory.matchesPattern nd (CategoryRule.pattern r)
  && match AutoCategory.findCategory (CategoryRule.category_id r) cats with
     | Some _ => true
     | None => false
     end.

(** A category has a keyword whose normalized form occurs in the
    normalized description. *)
Definition has_keyword (nd : jsstring) (c : Category.t) : bool :=
  existsb
    (fun keyword => Str.includes nd (AutoCategory.normalizeText keyword))
    (Category.keywords c).

(** ** Keys that meet [Object.prototype] *)

(** The category of a row, if it has one, names no member of
    [Object.prototype]. *)
Definition own_category (tx : Transaction.t) : Prop :=
  match Transaction.category_id tx with
  | Some id => Proto.member id = false
  | None => True
  end.

(** The description of a row, if it has one, does not normalize to the
    name of a member of [Object.prototype]. *)
Definition own_description (tx : Transaction.t) : Prop :=
  match Transaction.description tx with
  | Some d => Proto.member (AutoCategory.normalizeText d) = false
  | None => True
  end.

(** A row of a history that stays clear of [Object.prototype]. *)
Definition ordinary (tx : Transaction.t) : Prop :=
  own_category tx /\ own_description tx.

(** A tally whose entries are all numbers. *)
Definition numeric (o : Tally.t) : Prop :=
  Forall (fun kv => exists n, snd kv = Tally.Count n) o.

(** ** Numbers within bounds *)




(** ** Sorting in ascending order of a rank *)

Definition rank_le {A : Type} (rank : A -> Q) (a b : A) : Prop :=
  rank a <= rank b.

(** The value of a finite number; the rank of the ascending numeric
    sort. *)
Definition value_of (x : num) : Q :=
  match x with Fin q => q | _ => 0 end.

(** ** Health score *)

Definition grade_rank (g : Health.Grade) : nat :=
  match g with
  | Health.F => 0
  | Health.D => 1
  | Health.C => 2
  | Health.B => 3
  | Health.A => 4
  end.

Definition priority_rank (r : Health.HealthRecommendation) : Q :=
  match Health.priority r with
  | Health.high => 0
  | Health.medium => 1
  | Health.low => 2
  end.

(** ** Anomalies *)

(** The severities each type of anomaly of [detectTransactionAnomalies]
    can carry. *)
Definition severity_allowed (a : Anomaly.DetectedAnomaly) : Prop :=
  match Anomaly.type a with
  | Anomaly.high_amount => True
  | Anomaly.unusual_category => Anomaly.severity a <> Anomaly.info
  | Anomaly.new_merchant => Anomaly.severity a = Anomaly.info
  | Anomaly.frequency => Anomaly.severity a = Anomaly.warning
  end.

(** ** Forecasts *)


(** ** Budget alerts and debts *)




(** ** Normalized text *)

(** The characters of a normalized text other than the space. *)
Definition letter_or_digit (c : N) : bool :=
  ((97 <=? c) && (c <=? 122) || (1072 <=? c) && (c <=? 1103)
   || (48 <=? c) && (c <=? 57))%N.

Definition normal_unit (c : N) : Prop := letter_or_digit c = true \/ c = 32%N.

(** No white space but single spaces; [prev] tells that the character
    before was a space. *)
Fixpoint single_spaced (prev : bool) (s : jsstring) : bool :=
  match s with
  | [] => true
  | c :: s' =>
      if Str.is_space c then (c =? 32)%N && negb prev && single_spaced true s'
      else single_spaced false s'
  end.

Definition no_lead (s : jsstring) : Prop :=
  match s with
  | c :: _ => Str.is_space c = false
  | [] => True
  end.

(** [s] without its trailing white space. *)
Fixpoint trim_end (s : jsstring) : jsstring :=
  match s with
  | [] => []
  | c :: s' =>
      match trim_end s' with
      | [] => if Str.is_space c then [] else [c]
      | r => c :: r
      end
  end.

(** ** Predictions and learned patterns *)

(** A match that carries the id and the name of one of the categories. *)
Definition names_category (cats : list Category.t)
  (m : AutoCategory.MatchResult) : Prop :=
  exists c, In c cats /\ AutoCategory.categoryId m = Category.id c
            /\ AutoCategory.categoryName m = Category.name c.

(** The prediction of the last transaction with this id that got one. *)
Definition last_prediction (id : jsstring)
  (transactions : list (jsstring * jsstring)) (categories : list Category.t)
  (historicalTransactions : list Transaction.t)
  (customRules : list CategoryRule.t) : option AutoCategory.CategoryPrediction :=
  fold_left
    (fun found '(id', description) =>
       if Str.eqb id' id then
         match
           AutoCategory.predictCategory description categories
             historicalTransactions customRules
         with
         | Some prediction => Some prediction
         | None => found
         end
       else found)
    transactions None.

Definition pattern_key (k : jsstring) : Prop := (4 <= length k)%nat.

(** The keys of the patterns object are distinct and have four
    characters or more. *)
Definition patterns_ok (patterns : Obj.t (UUID * nat)) : Prop :=
  NoDup (map fst patterns) /\ Forall pattern_key (map fst patterns).

(** ** Sample data

    The host of the samples is [JSDate.utc_host]. *)

Module Sample.

Local Open Scope string_scope.

Definition tx (id : string) (type : TransactionType) (amount : Q)
  (category_id : option string) (date : string) : Transaction.t :=
  {| Transaction.id := U id;
     Transaction.category_id := option_map U category_id;
     Transaction.type := type;
     Transaction.amount := amount;
     Transaction.description := None;
     Transaction.date := U date;
     Transaction.is_credit := false;
     Transaction.category := None |}.

Definition category (id name : string) (keywords : list string) : Category.t :=
  {| Category.id := U id;
     Category.name := U name;
     Category.keywords := map U keywords |}.

Definition rule (id category_id pattern : string) (priority : Q)
  : CategoryRule.t :=
  {| CategoryRule.id := U id;
     CategoryRule.category_id := U category_id;
     CategoryRule.pattern := U pattern;
     CategoryRule.priority := priority |}.

(** 2024-03-15T12:00:00Z, one day later, and one year later *)
Definition noon_15_march : Z := 1710504000000.
(** 2024-03-31T22:00:00Z: the evening of 31 March in UTC, the small
    hours of 1 April three hours east of it *)
Definition evening_31_march : Z := 1711922400000.

(** The host of the samples three hours east of UTC. *)
Definition utc_plus_3 : Host := {|
  host_sqrt := JSDate.sqrt60;
  Date_parse := JSDate.parse_iso;
  localeCompare := Str.compare;
  tz_offset := 10800000
|}.

(** *** A budget for all categories and a categorized expense *)

Definition all_categories_budget : Budget.t :=
  {| Budget.id := U "budget-1";
     Budget.category_id := None;
     Budget.name := U "Monthly";
     Budget.amount := 10000;
     Budget.alert_threshold := 80;
     Budget.is_active := true;
     Budget.category := None |}.

Definition groceries_expense : Transaction.t :=
  tx "tx-1" expense 15000 (Some "cat-1") "2024-03-10".

(** *** Eleven incomes on the day of a purchase *)

Definition purchase : Transaction.t := tx "tx-0" expense 100 None "2024-03-15".

Definition incomes : list Transaction.t :=
  map (fun id => tx id income 100 None "2024-03-15")
    ["i1"; "i2"; "i3"; "i4"; "i5"; "i6"; "i7"; "i8"; "i9"; "i10";
     "i11"].

(** *** Five equal expenses, then a large one *)



Definition march_month : list Transaction.t :=
  [ tx "m1" income 100000 None "2024-03-05";
    tx "m2" expense 50000 None "2024-03-10" ].

(** *** Two incomes of 2^1023, the largest power of two in binary64 *)


(** *** Categories and rules *)

Definition transport : Category.t :=
  category "cat-transport" "Транспорт" ["метро"; "такси"].
Definition restaurants : Category.t :=
  category "cat-restaurants" "Рестораны" ["кафе"; "ресторан"].
Definition groceries : Category.t :=
  category "cat-groceries" "Продукты" ["магнит"; "ашан"].
Definition misc : Category.t :=
  category "cat-misc" "Разное" ["-"].

Definition categories : list Category.t := [transport; restaurants; groceries].

(** *** Histories of described expenses *)

Definition described (id description category_id : string) : Transaction.t :=
  {| Transaction.id := U id;
     Transaction.category_id := Some (U category_id);
     Transaction.type := expense;
     Transaction.amount := 100;
     Transaction.description := Some (U description);
     Transaction.date := U "2024-03-01";
     Transaction.is_credit := false;
     Transaction.category := None |}.

(** Two visits to a restaurant, filed under restaurants. *)
Definition restaurant_history : list Transaction.t :=
  [described "h1" "Ресторан Метрополь" "cat-restaurants";
   described "h2" "ресторан метрополь" "cat-restaurants"].

(** Two visits to a café, filed under groceries. *)
Definition cafe_history : list Transaction.t :=
  [described "h1" "Кафе Пушкин" "cat-groceries";
   described "h2" "кафе пушкин" "cat-groceries"].

(** A category whose id is the name of a member of [Object.prototype],
    and one expense filed under it. *)
Definition builtin : Category.t := category "constructor" "Misc" [].
Definition builtin_history : list Transaction.t :=
  [described "h1" "qwerty" "constructor"].

Definition rule_low : CategoryRule.t :=
  rule "rule-1" "cat-transport" "кафе" 1.
Definition rule_high : CategoryRule.t :=
  rule "rule-2" "cat-restaurants" "кафе" 2.
Definition rule_any : CategoryRule.t :=
  rule "rule-3" "cat-misc" "*" 0.

(** *** Metrics with the four rates a score reads *)

Definition metrics (savings_rate budget_adherence_rate credit_ratio
  expense_volatility : Q) : HealthMetrics.t :=
  {| HealthMetrics.total_income := Fin 100000;
     HealthMetrics.total_expense := Fin 50000;
     HealthMetrics.net_savings := Fin 50000;
     HealthMetrics.savings_rate := Fin savings_rate;
     HealthMetrics.budgets_on_track := 1;
     HealthMetrics.budgets_exceeded := 1;
     HealthMetrics.budget_adherence_rate := Fin budget_adherence_rate;
     HealthMetrics.avg_daily_expense := Fin 5000;
     HealthMetrics.expense_volatility := Fin expense_volatility;
     HealthMetrics.largest_expense := Fin 50000;
     HealthMetrics.credit_usage := Fin 0;
     HealthMetrics.credit_ratio := Fin credit_ratio;
     HealthMetrics.goals_progress := Fin 1;
     HealthMetrics.goals_on_track := 0;
     HealthMetrics.expense_trend := stable;
     HealthMetrics.income_trend := stable |}.

(** *** Twenty-one expenses in one category, then one in another *)

Definition usual_category_history : list Transaction.t :=
  map (fun id => tx id expense 100 (Some "cat-1") "2024-03-01")
    ["h1"; "h2"; "h3"; "h4"; "h5"; "h6"; "h7"; "h8"; "h9"; "h10"; "h11";
     "h12"; "h13"; "h14"; "h15"; "h16"; "h17"; "h18"; "h19"; "h20"; "h21"].

Definition rare_category_purchase : Transaction.t :=
  tx "tx-0" expense 100 (Some "cat-2") "2024-03-15".

(** A purchase in a category whose id is [constructor]. *)
Definition builtin_purchase : Transaction.t :=
  tx "tx-0" expense 100 (Some "constructor") "2024-03-15".

Definition builtin_expenses : list Transaction.t :=
  builtin_purchase :: usual_category_history.

(** *** A budget for one category *)


(** *** Two budgets and an expense over the limit of each *)




(** *** Two members of a family, one of whom has paid 100 *)



(** *** Three months of expenses: 2024-01-15, 2024-02-15, 2024-03-15 *)


End Sample.

(* ================================================================== *)
(** * Properties *)
(* ================================================================== *)

(** ** Arithmetic *)

Lemma Qle_bool_false (a b : Q) : Qle_bool a b = false -> b < a.
Proof.
  intros E. apply Qnot_le_lt. intros L. apply Qle_bool_iff in L. congruence.
Qed.

Lemma Qsquare_nonneg (x : Q) : 0 <= x * x.
Proof.
  unfold Qle, Qmult. cbn. rewrite Z.mul_1_r. apply Z.square_nonneg.
Qed.



Ltac q_const :=
  repeat match goal with
  | |- context [Qeq_bool ?a ?b] =>
      let v := eval vm_compute in (Qeq_bool a b) in
      match v with
      | true => change (Qeq_bool a b) with true
      | false => change (Qeq_bool a b) with false
      end; cbv iota
  end.



Ltac score_unfold :=
  cbv zeta;
  unfold Health.THRESHOLDS.savings, Health.THRESHOLDS.budget,
    Health.THRESHOLDS.debt, Health.THRESHOLDS.stability;
  cbn [Health.excellent Health.good Health.fair Health.poor];
  unfold JS.ge, JS.gt;
  cbn [JS.le JS.lt JS.eq negb JS.add JS.sub JS.mul JS.neg JS.div];
  q_const.


Lemma fold_add_map_Fin (qs : list Q) (a : Q) :
  fold_left JS.add (map Fin qs) (Fin a) = Fin (fold_left Qplus qs a).
Proof.
  revert a. induction qs as [| q qs IH]; intros a; [reflexivity |].
  cbn [map fold_left JS.add]. apply IH.
Qed.

Lemma sum_map_Fin (qs : list Q) :
  JS.sum (map Fin qs) = Fin (fold_left Qplus qs 0).
Proof.
  apply fold_add_map_Fin.
Qed.

Lemma fold_Qplus_nonneg (qs : list Q) (a : Q) :
  0 <= a -> Forall (fun q => 0 <= q) qs -> 0 <= fold_left Qplus qs a.
Proof.
  intros Ha Hqs. revert a Ha.
  induction Hqs as [| q qs Hq _ IH]; intros a Ha; [exact Ha |].
  cbn [fold_left]. apply IH. lra.
Qed.

Lemma of_nat_nonzero (n : nat) :
  n <> O -> Qeq_bool (inject_Z (Z.of_nat n)) 0 = false.
Proof.
  intros Hn. destruct (Qeq_bool _ 0) eqn:E; [| reflexivity].
  apply Qeq_bool_iff in E. unfold Qeq in E. cbn in E. lia.
Qed.

Lemma of_nat_pos (n : nat) : n <> O -> 0 < inject_Z (Z.of_nat n).
Proof.
  intros Hn. unfold Qlt. cbn. lia.
Qed.

Lemma of_nat_nonneg (n : nat) : 0 <= inject_Z (Z.of_nat n).
Proof.
  unfold Qle. cbn. lia.
Qed.

Lemma div_of_nat_finite (a : Q) (n : nat) :
  n <> O ->
  (Fin a / JS.of_nat n)%js = Fin (a / inject_Z (Z.of_nat n)).
Proof.
  intros Hn. unfold JS.of_nat, JS.of_Z. cbn [JS.div].
  rewrite (of_nat_nonzero Hn). reflexivity.
Qed.

Lemma div_of_nat_of_nat (a n : nat) :
  n <> O ->
  (JS.of_nat a / JS.of_nat n)%js
  = Fin (inject_Z (Z.of_nat a) / inject_Z (Z.of_nat n)).
Proof.
  intros Hn. unfold JS.of_nat at 1. unfold JS.of_Z.
  apply div_of_nat_finite, Hn.
Qed.




Lemma Forall_finite_map (l : list num) :
  Forall finite l -> exists qs, l = map Fin qs.
Proof.
  induction 1 as [| x l [q Hq] _ [qs Hqs]].
  - exists []. reflexivity.
  - exists (q :: qs). cbn [map]. congruence.
Qed.

(** ** Regression and outlier primitives *)

Lemma linearRegression_guard (xValues yValues : list num) :
  negb (length xValues =? length yValues)%nat || (length xValues <? 2)%nat = true
  <-> length xValues <> length yValues \/ (length xValues < 2)%nat.
Proof.
  rewrite orb_true_iff, negb_true_iff, Nat.eqb_neq, Nat.ltb_lt. tauto.
Qed.

(** C9.  [linearRegression] throws exactly when the two arrays differ in
    length or hold fewer than two points, and returns a result exactly
    when they have the same length and at least two points. *)
Theorem linearRegression_throws_iff (xValues yValues : list num) :
  (throws (ML.linearRegression xValues yValues)
   <-> length xValues <> length yValues \/ (length xValues < 2)%nat)
  /\ (returns (ML.linearRegression xValues yValues)
      <-> length xValues = length yValues /\ (2 <= length xValues)%nat).
Proof.
  pose proof (linearRegression_guard xValues yValues) as G.
  unfold throws, returns, ML.linearRegression.
  destruct (negb (length xValues =? length yValues)%nat
            || (length xValues <? 2)%nat).
  - split; split.
    + intros _. apply G. reflexivity.
    + intros _. eexists. reflexivity.
    + intros [a Ha]. discriminate Ha.
    + intros [Hlen Hge]. destruct (proj1 G eq_refl) as [Hne | Hlt].
      * contradiction.
      * lia.
  - assert (Hok : length xValues = length yValues /\ (2 <= length xValues)%nat).
    { destruct (Nat.eq_dec (length xValues) (length yValues)) as [e | n].
      - split; [exact e |].
        destruct (le_lt_dec 2 (length xValues)) as [l | l]; [exact l |].
        assert (false = true) by (apply G; right; exact l). discriminate.
      - assert (false = true) by (apply G; left; exact n). discriminate. }
    destruct (fold_left _ (combine xValues yValues) _) as [numerator denominator].
    split; split.
    + intros [message Hm]. discriminate Hm.
    + intros [Hne | Hlt]; [destruct Hok; contradiction | lia].
    + intros _. exact Hok.
    + intros _. eexists. reflexivity.
Qed.

Lemma linearRegression_returns (xValues yValues : list num) :
  length xValues = length yValues -> (2 <= length xValues)%nat ->
  returns (ML.linearRegression xValues yValues).
Proof.
  intros Hlen Hge. unfold returns, ML.linearRegression.
  rewrite <- Hlen, Nat.eqb_refl. cbn [negb orb].
  destruct (Nat.ltb_spec (length xValues) 2) as [Hlt | _]; [lia |].
  destruct (fold_left _ (combine xValues yValues) _) as [numerator denominator].
  eexists. reflexivity.
Qed.

(** C8.  With the default multiplier, the history
    [10, 12, 11, 13, 12, 10, 11, 14] puts 100 beyond the outer fences
    and 13 inside the inner ones. *)
Theorem detectAnomaliesIQR_example :
  let history := map Fin [10; 12; 11; 13; 12; 10; 11; 14] in
  ML.detectAnomaliesIQR 100 history 1.5
  = {| ML.iqr_isAnomaly := true; ML.severity := ML.extreme |}
  /\ ML.detectAnomaliesIQR 13 history 1.5
     = {| ML.iqr_isAnomaly := false; ML.severity := ML.none |}.
Proof.
  split; vm_compute; reflexivity.
Qed.

Section Trend.
Context {H : Host}.

Lemma analyzeTrend_returns (values : list num) :
  returns (ML.analyzeTrend values).
Proof.
  unfold returns, ML.analyzeTrend.
  destruct (Nat.ltb_spec (length values) 2) as [Hlt | Hge];
    [eexists; reflexivity |].
  destruct (@linearRegression_returns (ML.indices values) values)
    as [regression Hr].
  - unfold ML.indices. rewrite length_map, length_seq. reflexivity.
  - unfold ML.indices. rewrite length_map, length_seq. exact Hge.
  - rewrite Hr. cbn [bind]. eexists. reflexivity.
Qed.

End Trend.

(** C2.  On a series of mean 0 the coefficient of variation is a
    quotient by zero: [analyzeTrend([0, 0])] returns a [volatility] that
    is not a finite number on every host, and NaN where
    [Math.sqrt(0)] is 0. *)
Theorem analyzeTrend_zero_mean_not_finite :
  (forall H : Host,
      exists t, ML.analyzeTrend [Fin 0; Fin 0] = Return t
                /\ JS.is_finite (ML.volatility t) = false)
  /\ (exists t, @ML.analyzeTrend JSDate.utc_host [Fin 0; Fin 0] = Return t
                /\ ML.direction t = ML.stable
                /\ ML.volatility t = NaN).
Proof.
  split.
  - intros H. eexists. split.
    + unfold ML.analyzeTrend.
      cbn -[JS.div ML.calculateStdDev JS.Math_round]. reflexivity.
    + cbn [ML.volatility]. unfold ML.calculateStdDev. cbn.
      destruct (host_sqrt _) as [n d]. cbn. destruct n; reflexivity.
  - eexists. split; [vm_compute; reflexivity |]. split; reflexivity.
Qed.

(** ** Health score: ranges of the four partial scores *)






(** ** Health score: the metrics are finite *)

Section HealthFacts.
Context {H : Host}.


Lemma DayMap_get_finite (k : Z) (o : DayMap.t num) :
  Forall (fun kv => finite (snd kv)) o ->
  finite (JS.or_default (DayMap.get k o) 0).
Proof.
  induction 1 as [| [k' v] o Hv _ IH]; cbn [DayMap.get].
  - eexists. reflexivity.
  - destruct (k' =? k)%Z; [| exact IH].
    destruct Hv as [q Hq]. cbn in Hq. subst v. cbn [JS.or_default].
    destruct (Qeq_bool q 0); eexists; reflexivity.
Qed.

Lemma DayMap_set_finite (k : Z) (v : num) (o : DayMap.t num) :
  finite v -> Forall (fun kv => finite (snd kv)) o ->
  Forall (fun kv => finite (snd kv)) (DayMap.set k v o).
Proof.
  intros Hv. induction 1 as [| [k' v'] o Hv' Ho IH]; cbn [DayMap.set].
  - constructor; [exact Hv | constructor].
  - destruct (k' =? k)%Z; constructor; assumption.
Qed.

Lemma calculateDailyExpenses_returns (transactions : list Transaction.t) :
  Forall valid_date transactions ->
  exists qs, Health.calculateDailyExpenses transactions = Return (map Fin qs).
Proof.
  intros Hvalid. unfold Health.calculateDailyExpenses.
  match goal with |- context [fold_left ?f _ _] => set (step := f) end.
  assert (Hfold : forall byDay,
             Forall (fun kv => finite (snd kv)) byDay ->
             exists byDay',
               fold_left step transactions (Return byDay) = Return byDay'
               /\ Forall (fun kv => finite (snd kv)) byDay').
  { induction Hvalid as [| t ts Ht _ IH]; intros byDay Hfin.
    - exists byDay. split; [reflexivity | exact Hfin].
    - cbn [fold_left]. unfold step at 2. cbn [bind].
      unfold valid_date in Ht.
      destruct (JSDate.of_string (Transaction.date t)) as [z |] eqn:Ez;
        [| congruence].
      cbn [JSDate.toISODate bind].
      apply IH. apply DayMap_set_finite; [| exact Hfin].
      destruct (DayMap_get_finite (JSDate.Day z) Hfin) as [q Hq].
      rewrite Hq. eexists. reflexivity. }
  destruct (Hfold [] (Forall_nil _)) as [byDay' [Hr Hfin]].
  rewrite Hr. cbn [bind]. unfold DayMap.values.
  destruct (@Forall_finite_map (map snd byDay')) as [qs Hqs].
  - apply Forall_forall. intros x Hx. apply in_map_iff in Hx.
    destruct Hx as [kv [<- Hkv]].
    exact (proj1 (Forall_forall _ _) Hfin kv Hkv).
  - exists qs. rewrite Hqs. reflexivity.
Qed.

Lemma ge_valid_date (t : Transaction.t) (d : JSDate.Date) :
  JSDate.ge (JSDate.of_string (Transaction.date t)) d = true -> valid_date t.
Proof.
  unfold valid_date, JSDate.ge. intros Hge Hnone. rewrite Hnone in Hge.
  cbn in Hge. destruct (JSDate.getTime d); discriminate.
Qed.





End HealthFacts.

(** ** Health score: exact and rounded arithmetic *)

(** With no rounding, the rounded reading of [analyzeFinancialHealth]
    is the exact one. *)
Lemma analyzeFinancialHealth_without_rounding (H : Host) (now : Z)
  (transactions : list Transaction.t) (budgets : list Budget.t)
  (goals : list Goal.t) (previousSnapshots : list HealthSnapshot.t) :
  Rounded.analyzeFinancialHealth (fun x => x) now transactions budgets goals
    previousSnapshots
  = Health.analyzeFinancialHealth now transactions budgets goals
      previousSnapshots.
Proof. reflexivity. Qed.




(** ** Budgets without a category *)

(** C4.  A budget without [category_id] is compared with the
    transactions that have no [category_id] either: an expense of 15000
    in category [cat-1] leaves a 10000 budget for all categories at 0
    spent, on track and without alert. *)
Theorem budget_without_category_skips_categorized_expenses :
  Health.budgetSpent [Sample.groceries_expense] Sample.all_categories_budget
  = Fin 0
  /\ (exists m,
         Health.calculateMetrics (H := JSDate.utc_host) Sample.noon_15_march
           [Sample.groceries_expense] [Sample.all_categories_budget] []
         = Return m
         /\ HealthMetrics.total_expense m = Fin 15000
         /\ HealthMetrics.budgets_on_track m = 1%nat
         /\ HealthMetrics.budgets_exceeded m = 0%nat)
  /\ Analytics.getBudgetAlerts [Sample.all_categories_budget]
       [Sample.groceries_expense] = [].
Proof.
  split; [vm_compute; reflexivity |]. split; [| vm_compute; reflexivity].
  eexists. split; [vm_compute; reflexivity |].
  repeat split; reflexivity.
Qed.

(** ** Anomaly checks and their history *)

(** C5.  The frequency check receives the unfiltered history: eleven
    incomes dated on the day of an expense leave no relevant history,
    yet the expense is flagged for frequency with a count of 12, which
    the check does not report on the relevant history. *)
Theorem frequency_check_reads_unfiltered_history :
  Anomaly.relevantHistory (H := JSDate.utc_host) Sample.noon_15_march
    Sample.purchase Sample.incomes Anomaly.DEFAULT_CONFIG = []
  /\ Anomaly.detectFrequencyAnomaly (H := JSDate.utc_host) Sample.purchase []
       Anomaly.DEFAULT_CONFIG = None
  /\ exists anomaly,
       Anomaly.detectTransactionAnomalies (H := JSDate.utc_host)
         Sample.noon_15_march Sample.purchase Sample.incomes []
         Anomaly.no_config = [anomaly]
       /\ Anomaly.type anomaly = Anomaly.frequency
       /\ Anomaly.actual_value (Anomaly.details anomaly) = Some (Fin 12).
Proof.
  split; [vm_compute; reflexivity |]. split; [vm_compute; reflexivity |].
  eexists. split; [vm_compute; reflexivity |]. split; reflexivity.
Qed.

(** ** The wall clock *)


(** The time zone of the host is read as the clock is: at one and the
    same instant the month of March scores 93 on a host in UTC, where
    the month is still March, and 69 three hours east of it, where
    April has begun. *)
Lemma same_arguments_other_time_zone :
  exists utc east,
    Health.analyzeFinancialHealth (H := JSDate.utc_host)
      Sample.evening_31_march Sample.march_month [] [] [] = Return utc
    /\ Health.analyzeFinancialHealth (H := Sample.utc_plus_3)
         Sample.evening_31_march Sample.march_month [] [] [] = Return east
    /\ Health.overall (Health.score utc) = Fin 93
    /\ Health.overall (Health.score east) = Fin 69.
Proof.
  eexists. eexists. split; [vm_compute; reflexivity |].
  split; [vm_compute; reflexivity |]. split; reflexivity.
Qed.

(** The hypotheses below carry date arithmetic; implicit arguments are
    declared by hand here. *)
Unset Implicit Arguments.

Section Clock.
Context {H : Host}.



End Clock.



Set Implicit Arguments.

(** ** Folds, rationals and lists *)

Lemma fold_left_invariant {A B : Type} (I : B -> Prop) (P : A -> Prop)
  (f : B -> A -> B) (l : list A) (b : B) :
  (forall b x, P x -> I b -> I (f b x)) -> Forall P l -> I b ->
  I (fold_left f l b).
Proof.
  intros Hstep Hl. revert b.
  induction Hl as [| x l Hx _ IH]; intros b Hb; [exact Hb |].
  cbn [fold_left]. apply IH, Hstep; assumption.
Qed.


Lemma Forall_finite_Fin (qs : list Q) : Forall finite (map Fin qs).
Proof.
  apply Forall_forall. intros y Hy. apply in_map_iff in Hy.
  destruct Hy as [q [<- _]]. eexists; reflexivity.
Qed.




Lemma StronglySorted_weaken {A : Type} (R R' : A -> A -> Prop) (l : list A) :
  (forall a b, R a b -> R' a b) -> StronglySorted R l -> StronglySorted R' l.
Proof.
  intros HR. induction 1 as [| x l Hs IH Hx]; constructor; [exact IH |].
  eapply Forall_impl; [| exact Hx]. intros b. apply HR.
Qed.

Lemma NoDup_map_filter {A B : Type} (g : A -> B) (f : A -> bool) (l : list A) :
  NoDup (map g l) -> NoDup (map g (filter f l)).
Proof.
  induction l as [| x l IH]; cbn [map filter]; [tauto |].
  intros Hn. inversion Hn as [| ? ? Hx Hl]; subst.
  destruct (f x); cbn [map]; [| exact (IH Hl)].
  constructor; [| exact (IH Hl)].
  intros Hin. apply Hx. apply in_map_iff in Hin. destruct Hin as [y [Ey Hy]].
  apply filter_In in Hy. apply in_map_iff. exists y. split; [exact Ey | apply Hy].
Qed.

Lemma filter_partition_Permutation {A : Type} (f : A -> bool) (l : list A) :
  Permutation (filter f l ++ filter (fun x => negb (f x)) l) l.
Proof.
  induction l as [| x l IH]; cbn [filter]; [reflexivity |].
  destruct (f x); cbn [negb app].
  - constructor. exact IH.
  - rewrite <- Permutation_middle. constructor. exact IH.
Qed.

(** ** Sorting

    [Arr.sort] permutes its argument, whatever the comparator. *)

Section SortAny.
Variable A : Type.
Variable cmp : A -> A -> num.

Lemma insert_Permutation (x : A) (l : list A) :
  Permutation (Arr.insert cmp x l) (x :: l).
Proof.
  induction l as [| y l IH]; cbn [Arr.insert]; [reflexivity |].
  destruct (cmp x y >? 0)%js; [| reflexivity].
  rewrite IH. apply perm_swap.
Qed.

Lemma sort_Permutation (l : list A) : Permutation (Arr.sort cmp l) l.
Proof.
  unfold Arr.sort. induction l as [| x l IH]; cbn [fold_right]; [reflexivity |].
  rewrite insert_Permutation, IH. reflexivity.
Qed.

Lemma sort_In_any (x : A) (l : list A) : In x (Arr.sort cmp l) <-> In x l.
Proof.
  split; apply Permutation_in;
    [apply sort_Permutation | symmetry; apply sort_Permutation].
Qed.

Lemma sort_length_any (l : list A) : length (Arr.sort cmp l) = length l.
Proof.
  apply Permutation_length, sort_Permutation.
Qed.

Lemma sort_Forall_any (P : A -> Prop) (l : list A) :
  Forall P l -> Forall P (Arr.sort cmp l).
Proof.
  rewrite !Forall_forall. intros Hl x Hx. apply Hl, sort_In_any, Hx.
Qed.

(** The comparator orders the elements that satisfy [P] by [rank]:
    [x] goes after [y] exactly when its rank is greater. *)
Variable P : A -> Prop.
Variable rank : A -> Q.
Hypothesis Hcmp :
  forall x y, P x -> P y ->
    (cmp x y >? 0)%js = negb (Qle_bool (rank x) (rank y)).

Lemma insert_sorted_by (x : A) (l : list A) :
  P x -> Forall P l -> StronglySorted (rank_le rank) l ->
  StronglySorted (rank_le rank) (Arr.insert cmp x l).
Proof.
  intros Hx Hl Hs. induction Hs as [| y l Hs IH Hy]; cbn [Arr.insert].
  - constructor; constructor.
  - inversion Hl as [| ? ? Py Hl']; subst.
    rewrite (Hcmp Hx Py).
    destruct (Qle_bool (rank x) (rank y)) eqn:E; cbn [negb].
    + apply Qle_bool_iff in E.
      constructor; [constructor; assumption |].
      constructor; [exact E |].
      eapply Forall_impl; [| exact Hy]. unfold rank_le. intros w Hw. lra.
    + apply Qle_bool_false in E.
      constructor; [apply IH; exact Hl' |].
      apply Forall_forall. intros w Hw.
      apply (Permutation_in _ (insert_Permutation x l)) in Hw.
      destruct Hw as [<- | Hw].
      * unfold rank_le. lra.
      * exact (proj1 (Forall_forall _ _) Hy w Hw).
Qed.

Lemma sort_sorted_by (l : list A) :
  Forall P l -> StronglySorted (rank_le rank) (Arr.sort cmp l).
Proof.
  unfold Arr.sort. induction 1 as [| x l Hx Hl IH]; cbn [fold_right].
  - constructor.
  - apply insert_sorted_by; [exact Hx | | exact IH].
    apply sort_Forall_any, Hl.
Qed.

(** Sorting a sorted array leaves it as it is. *)
Lemma sort_sorted_fixed (l : list A) :
  Forall P l -> StronglySorted (rank_le rank) l -> Arr.sort cmp l = l.
Proof.
  intros Hl Hs. unfold Arr.sort.
  induction Hs as [| x l Hs IH Hx]; cbn [fold_right]; [reflexivity |].
  inversion Hl as [| ? ? Px Hl']; subst.
  rewrite (IH Hl'). destruct l as [| y l]; [reflexivity |].
  cbn [Arr.insert]. inversion Hl' as [| ? ? Py _]; subst.
  rewrite (Hcmp Px Py).
  inversion Hx as [| ? ? Hxy _]; subst. unfold rank_le in Hxy.
  apply Qle_bool_iff in Hxy. rewrite Hxy. reflexivity.
Qed.

Lemma sort_idempotent (l : list A) :
  Forall P l -> Arr.sort cmp (Arr.sort cmp l) = Arr.sort cmp l.
Proof.
  intros Hl. apply sort_sorted_fixed.
  - apply sort_Forall_any, Hl.
  - apply sort_sorted_by, Hl.
Qed.

End SortAny.

(** ** Strings and objects *)

Lemma Str_eqb_eq (a b : jsstring) : Str.eqb a b = true <-> a = b.
Proof.
  revert b. induction a as [| x a IH]; intros [| y b]; cbn [Str.eqb];
    try (split; [discriminate | discriminate]); [tauto |].
  rewrite andb_true_iff, N.eqb_eq, IH. split.
  - intros [-> ->]. reflexivity.
  - intros E. injection E as -> ->. split; reflexivity.
Qed.

Lemma Str_eqb_refl (a : jsstring) : Str.eqb a a = true.
Proof.
  apply Str_eqb_eq. reflexivity.
Qed.

Lemma Str_eqb_sym (a b : jsstring) : Str.eqb a b = Str.eqb b a.
Proof.
  destruct (Str.eqb a b) eqn:E1, (Str.eqb b a) eqn:E2; try reflexivity.
  - apply Str_eqb_eq in E1. subst b. rewrite Str_eqb_refl in E2. discriminate.
  - apply Str_eqb_eq in E2. subst b. rewrite Str_eqb_refl in E1. discriminate.
Qed.

Lemma Obj_get_set {V : Type} (k k' : jsstring) (v : V) (o : Obj.t V) :
  Obj.get k (Obj.set k' v o) = if Str.eqb k' k then Some v else Obj.get k o.
Proof.
  induction o as [| [k1 v1] o IH]; cbn [Obj.set Obj.get]; [reflexivity |].
  destruct (Str.eqb k1 k') eqn:E1; cbn [Obj.get].
  - apply Str_eqb_eq in E1. subst k1.
    destruct (Str.eqb k' k); reflexivity.
  - rewrite IH. destruct (Str.eqb k1 k) eqn:E2; [| reflexivity].
    apply Str_eqb_eq in E2. subst k1.
    destruct (Str.eqb k' k) eqn:E3; [| reflexivity].
    apply Str_eqb_eq in E3. subst k'. rewrite Str_eqb_refl in E1. discriminate.
Qed.

Lemma Obj_set_keys {V : Type} (k : jsstring) (v : V) (o : Obj.t V) :
  map fst (Obj.set k v o)
  = if existsb (fun k' => Str.eqb k' k) (map fst o) then map fst o
    else map fst o ++ [k].
Proof.
  induction o as [| [k1 v1] o IH]; cbn [Obj.set map existsb fst]; [reflexivity |].
  destruct (Str.eqb k1 k) eqn:E; cbn [orb map fst]; [reflexivity |].
  rewrite IH. destruct (existsb _ (map fst o)); reflexivity.
Qed.

Lemma Obj_set_keys_NoDup {V : Type} (k : jsstring) (v : V) (o : Obj.t V) :
  NoDup (map fst o) -> NoDup (map fst (Obj.set k v o)).
Proof.
  intros Ho. rewrite Obj_set_keys.
  destruct (existsb _ (map fst o)) eqn:E; [exact Ho |].
  apply NoDup_app; [exact Ho | constructor; [intros [] | constructor] |].
  intros x Hx [<- | []].
  assert (Ht : existsb (fun k' => Str.eqb k' k) (map fst o) = true).
  { apply existsb_exists. exists k. split; [exact Hx | apply Str_eqb_refl]. }
  congruence.
Qed.

Lemma Obj_set_keys_Forall {V : Type} (P : jsstring -> Prop) (k : jsstring)
  (v : V) (o : Obj.t V) :
  P k -> Forall P (map fst o) -> Forall P (map fst (Obj.set k v o)).
Proof.
  intros Hk Ho. rewrite Obj_set_keys.
  destruct (existsb _ (map fst o)); [exact Ho |].
  apply Forall_app. split; [exact Ho | constructor; [exact Hk | constructor]].
Qed.

Lemma Obj_entries_Permutation {V : Type} (o : Obj.t V) :
  Permutation (Obj.entries o) o.
Proof.
  unfold Obj.entries. rewrite sort_Permutation.
  apply filter_partition_Permutation.
Qed.

Lemma Obj_get_In {V : Type} (k : jsstring) (v : V) (o : Obj.t V) :
  Obj.get k o = Some v -> exists k', In (k', v) o.
Proof.
  induction o as [| [k1 v1] o IH]; cbn [Obj.get]; [discriminate |].
  destruct (Str.eqb k1 k).
  - intros E. injection E as ->. exists k1. left. reflexivity.
  - intros E. destruct (IH E) as [k' Hin]. exists k'. right. exact Hin.
Qed.

Lemma Obj_set_values {V : Type} (P : V -> Prop) (k : jsstring) (v : V)
  (o : Obj.t V) :
  P v -> Forall (fun kv => P (snd kv)) o ->
  Forall (fun kv => P (snd kv)) (Obj.set k v o).
Proof.
  intros Hv. induction 1 as [| [k1 v1] o H1 Ho IH]; cbn [Obj.set].
  - constructor; [exact Hv | constructor].
  - destruct (Str.eqb k1 k); constructor; assumption.
Qed.

Lemma Obj_get_values {V : Type} (P : V -> Prop) (k : jsstring) (v : V)
  (o : Obj.t V) :
  Forall (fun kv => P (snd kv)) o -> Obj.get k o = Some v -> P v.
Proof.
  intros Ho E. destruct (Obj_get_In _ _ E) as [k' Hin].
  exact (proj1 (Forall_forall _ _) Ho _ Hin).
Qed.

Lemma Obj_entries_In {V : Type} (x : jsstring * V) (o : Obj.t V) :
  In x (Obj.entries o) <-> In x o.
Proof.
  split; apply Permutation_in;
    [apply Obj_entries_Permutation | symmetry; apply Obj_entries_Permutation].
Qed.

(** A tally of keys that name no member of [Object.prototype] holds
    numbers only. *)
Lemma bump_numeric (k : jsstring) (o : Tally.t) :
  Proto.member k = false -> numeric o -> numeric (Tally.bump k o).
Proof.
  intros Hk Ho. unfold Tally.bump.
  destruct (Obj.get k o) as [c |] eqn:E.
  - destruct (@Obj_get_values _ (fun c => exists n, c = Tally.Count n)
                k c o Ho E) as [n ->].
    apply (@Obj_set_values _ (fun c => exists n, c = Tally.Count n));
      [eexists; reflexivity | exact Ho].
  - unfold Proto.member in Hk.
    destruct (Proto.find k) as [m |]; [discriminate |].
    apply (@Obj_set_values _ (fun c => exists n, c = Tally.Count n));
      [eexists; reflexivity | exact Ho].
Qed.

(** ** Sorting in descending order of a numeric key *)

Section SortDesc.
Variable A : Type.
Variable key : A -> num.

Lemma desc_gt (x y : A) (a b : Q) :
  key x = Fin a -> key y = Fin b ->
  ((desc key) x y >? 0)%js = negb (Qle_bool b a).
Proof.
  intros Hx Hy. unfold desc, JS.gt. rewrite Hx, Hy. cbn [JS.sub JS.neg JS.add JS.lt].
  destruct (Qle_bool b a) eqn:E1, (Qle_bool (b + - a) 0) eqn:E2; try reflexivity.
  - apply Qle_bool_iff in E1. apply Qle_bool_false in E2. lra.
  - apply Qle_bool_iff in E2. apply Qle_bool_false in E1. lra.
Qed.

Lemma insert_In (x y : A) (l : list A) :
  In y (Arr.insert (desc key) x l) <-> y = x \/ In y l.
Proof.
  induction l as [| z l IH]; cbn [Arr.insert].
  - cbn. intuition.
  - destruct ((desc key) x z >? 0)%js; cbn [In]; [rewrite IH |]; intuition.
Qed.

Lemma sort_In (y : A) (l : list A) :
  In y (Arr.sort (desc key) l) <-> In y l.
Proof.
  unfold Arr.sort. induction l as [| x l IH]; cbn [fold_right]; [reflexivity |].
  rewrite insert_In, IH. cbn [In]. intuition.
Qed.

Lemma sort_Forall (P : A -> Prop) (l : list A) :
  Forall P l -> Forall P (Arr.sort (desc key) l).
Proof.
  rewrite !Forall_forall. intros Hl y Hy. apply Hl, sort_In, Hy.
Qed.

Lemma ge_key_trans (a b c : A) : (ge_key key) a b -> (ge_key key) b c -> (ge_key key) a c.
Proof.
  intros [qa [qb [Ha [Hb Hab]]]] [qb' [qc [Hb' [Hc Hbc]]]].
  rewrite Hb in Hb'. injection Hb' as <-.
  exists qa, qc. repeat split; try assumption. lra.
Qed.

Lemma insert_sorted (x : A) (l : list A) :
  (keyed key) x -> Forall (keyed key) l ->
  StronglySorted (ge_key key) l -> StronglySorted (ge_key key) (Arr.insert (desc key) x l).
Proof.
  intros [a Ha] Hk Hs. induction Hs as [| z l Hs IH Hz]; cbn [Arr.insert].
  - constructor; constructor.
  - inversion Hk as [| ? ? [b Hb] Hk']; subst.
    rewrite (desc_gt Ha Hb).
    destruct (Qle_bool b a) eqn:E; cbn [negb].
    + apply Qle_bool_iff in E.
      assert (Hxz : (ge_key key) x z) by (exists a, b; auto).
      constructor; [constructor; assumption |].
      constructor; [exact Hxz |].
      eapply Forall_impl; [| exact Hz]. intros w Hw.
      eapply ge_key_trans; eassumption.
    + apply Qle_bool_false in E.
      constructor; [apply IH; exact Hk' |].
      apply Forall_forall. intros w Hw. apply insert_In in Hw.
      destruct Hw as [-> | Hw].
      * exists b, a. repeat split; try assumption. lra.
      * exact (proj1 (Forall_forall _ _) Hz w Hw).
Qed.

Lemma sort_sorted (l : list A) :
  Forall (keyed key) l -> StronglySorted (ge_key key) (Arr.sort (desc key) l).
Proof.
  unfold Arr.sort. induction 1 as [| x l Hx Hl IH]; cbn [fold_right].
  - constructor.
  - apply insert_sorted; [exact Hx | | exact IH].
    apply (sort_Forall Hl).
Qed.

(** A first element whose key is at least every other key stays first. *)
Lemma sort_head (m : A) (rest : list A) (q : Q) :
  key m = Fin q ->
  Forall (fun x => exists b, key x = Fin b /\ b <= q) rest ->
  Arr.sort (desc key) (m :: rest) = m :: Arr.sort (desc key) rest.
Proof.
  intros Hm Hrest. unfold Arr.sort at 1. cbn [fold_right].
  fold (Arr.sort (desc key) rest).
  pose proof (sort_Forall Hrest) as Hs.
  destruct (Arr.sort (desc key) rest) as [| y s]; [reflexivity |].
  cbn [Arr.insert]. inversion Hs as [| ? ? [b [Hb Hle]] _]; subst.
  rewrite (desc_gt Hm Hb).
  apply Qle_bool_iff in Hle. rewrite Hle. reflexivity.
Qed.

End SortDesc.

(** ** Categorizer: confidence of every candidate match *)

Section Categorizer.
Import AutoCategory.

Lemma ruleMatches_conf (nd : jsstring) (cats : list Category.t)
  (rules : list CategoryRule.t) :
  Forall (fun m => confidence m = Fin 0.95) (ruleMatches nd cats rules).
Proof.
  induction rules as [| rule rules IH]; cbn [ruleMatches]; [constructor |].
  destruct (matchesPattern nd (CategoryRule.pattern rule)); [| exact IH].
  destruct (findCategory (CategoryRule.category_id rule) cats); [| exact IH].
  constructor; [reflexivity | constructor].
Qed.

Lemma keywordMatches_conf (nd : jsstring) (cats : list Category.t) :
  Forall (fun m => confidence m = Fin 0.85) (keywordMatches nd cats).
Proof.
  unfold keywordMatches. induction cats as [| c cats IH]; cbn [flat_map];
    [constructor |].
  apply Forall_app. split; [| exact IH].
  destruct (Arr.find _ (Category.keywords c)); constructor;
    [reflexivity | constructor].
Qed.

Lemma defaultMatches_app (nd : jsstring) (cats : list Category.t)
  (matches : list MatchResult) :
  exists extra,
    defaultMatches nd cats matches = matches ++ extra
    /\ Forall (fun m => confidence m = Fin 0.75) extra.
Proof.
  unfold defaultMatches. generalize DEFAULT_KEYWORDS. intros table.
  revert matches. induction table as [| [categoryName keywords] table IH];
    intros matches; cbn [fold_left].
  - exists []. rewrite app_nil_r. split; [reflexivity | constructor].
  - match goal with
    | |- context [fold_left ?f table ?m] => set (m0 := m)
    end.
    destruct (IH m0) as [extra [He Hc]]. rewrite He.
    assert (Hm : m0 = matches
                 \/ exists m, m0 = matches ++ [m] /\ confidence m = Fin 0.75).
    { subst m0.
      destruct (Arr.find _ keywords); [| left; reflexivity].
      destruct (Arr.find _ cats); [| left; reflexivity].
      destruct (existsb _ matches); [left; reflexivity |].
      right. eexists. split; reflexivity. }
    destruct Hm as [Hm | [m [Hm Hcm]]]; rewrite Hm.
    + exists extra. split; [reflexivity | exact Hc].
    + exists (m :: extra). rewrite <- app_assoc.
      split; [reflexivity | constructor; assumption].
Qed.

Lemma history_ratio_conf (bestCount totalCount : nat) :
  (2 <= bestCount)%nat ->
  exists q,
    JS.Math_min 0.9
      (0.5 + (JS.of_nat bestCount / JS.of_nat totalCount) * 0.4)%js = Fin q
    /\ 0.5 <= q <= 0.9.
Proof.
  intros Hb. unfold JS.of_nat, JS.of_Z. cbn [JS.div].
  destruct (Qeq_bool (inject_Z (Z.of_nat totalCount)) 0) eqn:Et.
  - assert (Hs : JS.sign (Fin (inject_Z (Z.of_nat bestCount))) = 1%Z).
    { cbn. destruct bestCount; [lia | reflexivity]. }
    rewrite Hs. cbn. eexists. split; [reflexivity | lra].
  - assert (Ht : 0 < inject_Z (Z.of_nat totalCount)).
    { destruct totalCount; [discriminate Et | apply of_nat_pos; lia]. }
    assert (Hr : 0 <= inject_Z (Z.of_nat bestCount) / inject_Z (Z.of_nat totalCount)).
    { apply Qle_shift_div_l; [exact Ht |]. rewrite Qmult_0_l. apply of_nat_nonneg. }
    cbn [JS.mul JS.add]. unfold JS.Math_min. cbn [JS.lt].
    destruct (Qle_bool 0.9 _) eqn:E; cbn [negb].
    + eexists. split; [reflexivity | lra].
    + apply Qle_bool_false in E. eexists. split; [reflexivity |]. lra.
Qed.

(** The tallies of a history whose categories name no member of
    [Object.prototype] hold numbers only, and so do the best count and
    the total drawn from them. *)
Lemma descriptionCounts_numeric (description : jsstring)
  (transactions : list Transaction.t) (init : Obj.t Tally.t) :
  Forall own_category transactions ->
  Forall (fun kv => numeric (snd kv)) init ->
  Forall (fun kv => numeric (snd kv))
    (fold_left
       (fun descriptionCounts tx =>
          match Transaction.description tx, Transaction.category_id tx with
          | Some (d :: ds), Some (c :: cs) =>
              let normalized := normalizeText (d :: ds) in
              if areSimilar description normalized 0.7 then
                match Obj.get normalized descriptionCounts with
                | Some counts =>
                    Obj.set normalized (Tally.bump (c :: cs) counts)
                      descriptionCounts
                | None =>
                    if Proto.member normalized then descriptionCounts
                    else
                      Obj.set normalized (Tally.bump (c :: cs) Obj.empty)
                        descriptionCounts
                end
              else descriptionCounts
          | _, _ => descriptionCounts
          end)
       transactions init).
Proof.
  intros Hown. apply fold_left_invariant with (P := own_category);
    [| exact Hown].
  intros dc tx Htx Hdc. unfold own_category in Htx.
  destruct (Transaction.description tx) as [[| d ds] |]; try exact Hdc.
  destruct (Transaction.category_id tx) as [[| c cs] |]; try exact Hdc.
  cbv zeta. destruct (areSimilar _ _ _); [| exact Hdc].
  destruct (Obj.get _ dc) as [counts |] eqn:E.
  - apply (@Obj_set_values _ numeric); [| exact Hdc].
    apply bump_numeric; [exact Htx |].
    exact (@Obj_get_values _ numeric _ _ _ Hdc E).
  - destruct (Proto.member (normalizeText (d :: ds))); [exact Hdc |].
    apply (@Obj_set_values _ numeric); [| exact Hdc].
    apply bump_numeric; [exact Htx | constructor].
Qed.

Lemma best_of_numbers (entries : list (jsstring * Tally.count)) :
  Forall (fun kv => exists n, snd kv = Tally.Count n) entries ->
  exists bestMatch total,
    fold_left
      (fun '(bestMatch, totalCount) '(categoryId, count) =>
         let totalCount := Tally.plus totalCount count in
         match bestMatch with
         | None => (Some (categoryId, count), totalCount)
         | Some (_, best) =>
             if Tally.gt count best
             then (Some (categoryId, count), totalCount)
             else (bestMatch, totalCount)
         end)
      entries (None, Tally.Count 0)
    = (option_map (fun '(id, n) => (id, Tally.Count n)) bestMatch,
       Tally.Count total).
Proof.
  intros He.
  change (@None (jsstring * Tally.count))
    with (option_map (fun '(id, n) => (id : jsstring, Tally.Count n))
            (@None (jsstring * nat))).
  generalize (@None (jsstring * nat)) as best, O as total.
  induction He as [| [k c] entries [n Hn] _ IH]; intros best total;
    cbn [fold_left].
  - exists best, total. reflexivity.
  - cbn [snd] in Hn. subst c. cbv zeta. cbn [Tally.plus].
    destruct best as [[id b] |]; cbn [option_map].
    + cbn [Tally.gt]. destruct (b <? n)%nat.
      * apply (IH (Some (k, n))).
      * apply (IH (Some (id, b))).
    + apply (IH (Some (k, n))).
Qed.

Lemma findHistoricalMatch_conf (description : jsstring)
  (transactions : list Transaction.t) (cats : list Category.t)
  (m : MatchResult) :
  Forall own_category transactions ->
  findHistoricalMatch description transactions cats = Some m ->
  conf_in 0.5 0.9 m.
Proof.
  intros Hown. unfold findHistoricalMatch.
  pose proof (descriptionCounts_numeric description Hown
                (init := Obj.empty) (Forall_nil _)) as Hdc.
  match type of Hdc with Forall _ ?x => set (dc := x) in * end.
  assert (He : Forall (fun kv => exists n, snd kv = Tally.Count n)
                 (flat_map (fun counts => Obj.entries counts)
                    (Obj.values dc))).
  { apply Forall_forall. intros x Hx. apply in_flat_map in Hx.
    destruct Hx as [counts [Hc Hx]].
    apply (proj1 (Obj_entries_In _ _)) in Hx.
    unfold Obj.values in Hc. apply in_map_iff in Hc.
    destruct Hc as [kv [<- Hkv]].
    apply (proj1 (Obj_entries_In _ _)) in Hkv.
    exact (proj1 (Forall_forall _ _)
             (proj1 (Forall_forall _ _) Hdc kv Hkv) x Hx). }
  destruct (best_of_numbers He) as [bestMatch [total Ef]].
  match goal with
  | |- context [fold_left ?f (flat_map ?g ?l) ?i] =>
      assert (Ef' : fold_left f (flat_map g l) i
                    = (option_map
                         (fun '(id, n) => (id : jsstring, Tally.Count n))
                         bestMatch, Tally.Count total)) by exact Ef;
      rewrite Ef'
  end.
  destruct bestMatch as [[bestId bestCount] |]; cbn [option_map];
    [| discriminate].
  cbn [Tally.below Tally.to_number].
  destruct (Nat.ltb_spec bestCount 2) as [| Hb]; [discriminate |].
  destruct (findCategory bestId cats); [| discriminate].
  intros Hm. injection Hm as <-. cbn [confidence].
  exact (history_ratio_conf total Hb).
Qed.

Lemma bigram_eqb_eq (x y : bigram) : bigram_eqb x y = true <-> x = y.
Proof.
  destruct x as [x1 x2], y as [y1 y2]. unfold bigram_eqb. cbn [fst snd].
  rewrite andb_true_iff, !N.eqb_eq. split.
  - intros [-> ->]. reflexivity.
  - intros E. injection E as -> ->. split; reflexivity.
Qed.

Lemma set_has_In (s : list bigram) (x : bigram) :
  set_has s x = true <-> In x s.
Proof.
  unfold set_has. rewrite existsb_exists. split.
  - intros [y [Hy E]]. apply bigram_eqb_eq in E. subst y. exact Hy.
  - intros Hx. exists x. split; [exact Hx | apply bigram_eqb_eq; reflexivity].
Qed.

Lemma set_add_NoDup (s : list bigram) (x : bigram) :
  NoDup s -> NoDup (set_add s x).
Proof.
  intros Hs. unfold set_add. destruct (set_has s x) eqn:E; [exact Hs |].
  apply NoDup_app; [exact Hs | constructor; [intros [] | constructor] |].
  intros y Hy [<- | []]. apply set_has_In in Hy. congruence.
Qed.

Lemma bigrams_from_NoDup (a : jsstring) (acc : list bigram) :
  NoDup acc -> NoDup (bigrams_from acc a).
Proof.
  revert acc. induction a as [| x a IH]; intros acc Hacc; [exact Hacc |].
  destruct a as [| y a']; [exact Hacc |].
  change (NoDup (bigrams_from (set_add acc (x, y)) (y :: a'))).
  apply IH, set_add_NoDup, Hacc.
Qed.

Lemma intersection_le (bigramsA bigramsB : list bigram) :
  NoDup bigramsA ->
  (2 * length (filter (set_has bigramsB) bigramsA)
   <= length bigramsA + length bigramsB)%nat.
Proof.
  intros HA.
  assert (H1 : (length (filter (set_has bigramsB) bigramsA)
                <= length bigramsA)%nat) by apply filter_length_le.
  assert (H2 : (length (filter (set_has bigramsB) bigramsA)
                <= length bigramsB)%nat).
  { apply NoDup_incl_length; [apply NoDup_filter, HA |].
    intros x Hx. apply filter_In in Hx. apply set_has_In, Hx. }
  lia.
Qed.

Lemma calculateSimilarity_range (a b : jsstring) :
  calculateSimilarity a b = NaN
  \/ exists q, calculateSimilarity a b = Fin q /\ 0 <= q <= 1.
Proof.
  unfold calculateSimilarity.
  destruct (Str.eqb a b); [right; eexists; split; [reflexivity | lra] |].
  destruct ((length a =? 0)%nat || (length b =? 0)%nat);
    [right; eexists; split; [reflexivity | lra] |].
  pose proof (@intersection_le (bigrams a) (bigrams b)
                (bigrams_from_NoDup a (NoDup_nil _))) as Hle.
  set (i := length (filter (set_has (bigrams b)) (bigrams a))) in *.
  set (n := (length (bigrams a) + length (bigrams b))%nat) in *.
  destruct n as [| n'] eqn:En.
  - left. assert (i = O) by lia. subst i. rewrite H. reflexivity.
  - right. rewrite div_of_nat_of_nat by lia.
    eexists. split; [reflexivity |]. split.
    + apply Qle_shift_div_l; [apply of_nat_pos; lia |].
      rewrite Qmult_0_l. apply of_nat_nonneg.
    + apply Qle_shift_div_r; [apply of_nat_pos; lia |].
      rewrite Qmult_1_l. rewrite <- Zle_Qle. lia.
Qed.

Lemma fuzzyMatchCategory_conf (description : jsstring)
  (cats : list Category.t) (m : MatchResult) :
  fuzzyMatchCategory description cats = Some m -> conf_in 0 0.6 m.
Proof.
  unfold fuzzyMatchCategory.
  match goal with |- context [fold_left ?f cats None] => set (step := f) end.
  assert (Hinv : forall cs acc,
             match acc with
             | Some (_, s) => exists q, s = Fin q /\ 0.6 < q <= 1
             | None => True
             end ->
             match fold_left step cs acc with
             | Some (_, s) => exists q, s = Fin q /\ 0.6 < q <= 1
             | None => True
             end).
  { induction cs as [| c cs IH]; intros acc Hacc; [exact Hacc |].
    cbn [fold_left]. apply IH. unfold step at 1.
    destruct (calculateSimilarity_range description
                (normalizeText (Category.name c))) as [E | [q [E Hq]]];
      rewrite E.
    - cbn. exact Hacc.
    - unfold JS.gt at 1. cbn [JS.lt].
      destruct (Qle_bool q 0.6) eqn:E6; cbn [negb andb]; [exact Hacc |].
      apply Qle_bool_false in E6.
      destruct (match acc with
                | Some (_, best) => (Fin q >? best)%js
                | None => true
                end); [| exact Hacc].
      exists q. split; [reflexivity | lra]. }
  specialize (Hinv cats None I).
  destruct (fold_left step cats None) as [[category score] |]; [| discriminate].
  destruct Hinv as [q [-> Hq]].
  intros Hm. injection Hm as <-. cbn [confidence JS.mul].
  eexists. split; [reflexivity |]. lra.
Qed.

(** ** Categorizer: the returned prediction *)

Lemma conf_in_weaken (lo hi lo' hi' : Q) (m : MatchResult) :
  lo' <= lo -> hi <= hi' -> conf_in lo hi m -> conf_in lo' hi' m.
Proof.
  intros Hlo Hhi [q [Hq Hr]]. exists q. split; [exact Hq | lra].
Qed.

Lemma conf_eq_in (q lo hi : Q) (l : list MatchResult) :
  lo <= q <= hi ->
  Forall (fun m => confidence m = Fin q) l -> Forall (conf_in lo hi) l.
Proof.
  intros Hq. apply Forall_impl. intros m Hm. exists q. split; assumption.
Qed.

Lemma select_range (matches : list MatchResult) (p : CategoryPrediction) :
  Forall (conf_in 0 1) matches ->
  select matches = Some p ->
  (exists q, prediction_confidence p = Fin q /\ 0 <= q <= 1)
  /\ match alternative p with
     | Some alt =>
         exists q qa,
           prediction_confidence p = Fin q /\ alt_confidence alt = Fin qa
           /\ 0 <= qa <= 1 /\ qa <= q
     | None => True
     end.
Proof.
  intros Hm. unfold select.
  change by_confidence with (desc confidence).
  assert (Hk : Forall (keyed confidence) matches).
  { eapply Forall_impl; [| exact Hm]. intros m [q [Hq _]]. exists q. exact Hq. }
  pose proof (sort_sorted Hk) as Hs.
  pose proof (sort_Forall confidence Hm) as Hf.
  destruct (Arr.sort (desc confidence) matches) as [| best rest];
    [discriminate |].
  intros Hp. injection Hp as <-.
  cbn [prediction_confidence alternative].
  inversion Hf as [| ? ? Hbest Hrest]; subst.
  split; [exact Hbest |].
  destruct rest as [| second rest']; [exact I |].
  cbn [hd_error option_map to_alternative alt_confidence].
  inversion Hs as [| ? ? _ Hge]; subst.
  inversion Hge as [| ? ? [qa [qb [Ha [Hb Hle]]]] _]; subst.
  inversion Hrest as [| ? ? [q2 [Hq2 Hr2]] _]; subst.
  rewrite Hb in Hq2. injection Hq2 as <-.
  exists qa, qb. repeat split; try assumption; apply Hr2.
Qed.

Lemma select_head (m : MatchResult) (rest : list MatchResult) (q : Q) :
  confidence m = Fin q ->
  Forall (fun x => exists b, confidence x = Fin b /\ b <= q) rest ->
  exists p,
    select (m :: rest) = Some p
    /\ category_id p = categoryId m
    /\ category_name p = categoryName m
    /\ prediction_confidence p = Fin q.
Proof.
  intros Hm Hrest. unfold select.
  change by_confidence with (desc confidence).
  rewrite (sort_head confidence m Hm Hrest).
  eexists. split; [reflexivity |].
  cbn [category_id category_name prediction_confidence].
  repeat split. exact Hm.
Qed.

Lemma predictCategory_select (description : jsstring) (cats : list Category.t)
  (hist : list Transaction.t) (rules : list CategoryRule.t) :
  predictCategory description cats hist rules
  = if (length (Str.trim description) =? 0)%nat then None
    else select (candidates description cats hist rules).
Proof.
  unfold predictCategory, select, candidates, by_confidence, by_priority.
  cbv zeta.
  reflexivity.
Qed.

Lemma candidates_conf (description : jsstring) (cats : list Category.t)
  (hist : list Transaction.t) (rules : list CategoryRule.t) :
  Forall own_category hist ->
  Forall (conf_in 0 1) (candidates description cats hist rules).
Proof.
  intros Hown. unfold candidates. cbv zeta.
  set (nd := normalizeText description).
  destruct (defaultMatches_app nd cats
              (ruleMatches nd cats (Arr.sort by_priority rules)
               ++ keywordMatches nd cats)) as [extra [He Hx]].
  rewrite He.
  assert (Hbase : Forall (conf_in 0 1)
            ((ruleMatches nd cats (Arr.sort by_priority rules)
              ++ keywordMatches nd cats) ++ extra)).
  { apply Forall_app. split; [apply Forall_app; split |].
    - apply (@conf_eq_in 0.95); [lra | apply ruleMatches_conf].
    - apply (@conf_eq_in 0.85); [lra | apply keywordMatches_conf].
    - apply (@conf_eq_in 0.75); [lra | exact Hx]. }
  set (base := (ruleMatches nd cats (Arr.sort by_priority rules)
                ++ keywordMatches nd cats) ++ extra) in *.
  assert (Hhist : Forall (conf_in 0 1)
            match findHistoricalMatch nd hist cats with
            | Some historicalMatch => base ++ [historicalMatch]
            | None => base
            end).
  { destruct (findHistoricalMatch nd hist cats) as [h |] eqn:Eh;
      [| exact Hbase].
    apply Forall_app. split; [exact Hbase |].
    constructor; [| constructor].
    apply (@findHistoricalMatch_conf _ _ _ _ Hown) in Eh.
    apply (@conf_in_weaken 0.5 0.9); [lra | lra | exact Eh]. }
  destruct (match findHistoricalMatch nd hist cats with
            | Some historicalMatch => base ++ [historicalMatch]
            | None => base
            end) as [| m ms]; [| exact Hhist].
  destruct (fuzzyMatchCategory nd cats) as [f |] eqn:Ef; [| constructor].
  constructor; [| constructor].
  apply fuzzyMatchCategory_conf in Ef.
  apply (@conf_in_weaken 0 0.6); [lra | lra | exact Ef].
Qed.

(** C10, counterexample.  A category whose id is [constructor] and one
    expense filed under it: the tally finds the inherited method, the
    count becomes a string, and the prediction from history carries a
    confidence that is not a number. *)
Lemma history_confidence_not_a_number :
  exists p,
    predictCategory (U "qwerty") [Sample.builtin] Sample.builtin_history []
    = Some p
    /\ category_id p = U "constructor"
    /\ prediction_confidence p = NaN
    /\ ~ (exists q, prediction_confidence p = Fin q /\ 0 <= q <= 1).
Proof.
  eexists. split; [vm_compute; reflexivity |].
  split; [reflexivity |]. split; [reflexivity |].
  intros [q [E _]]. discriminate E.
Qed.

(** C10 (amended).  When no expense of the history is filed under the
    name of a member of [Object.prototype], the confidence of every
    prediction is a finite number in [0, 1], and so is the confidence
    of the alternative, which does not exceed that of the
    prediction. *)
Theorem predictCategory_confidence_order (description : jsstring)
  (categories : list Category.t) (historicalTransactions : list Transaction.t)
  (customRules : list CategoryRule.t) (p : CategoryPrediction) :
  Forall own_category historicalTransactions ->
  predictCategory description categories historicalTransactions customRules
  = Some p ->
  (exists q, prediction_confidence p = Fin q /\ 0 <= q <= 1)
  /\ match alternative p with
     | Some alt =>
         exists q qa,
           prediction_confidence p = Fin q /\ alt_confidence alt = Fin qa
           /\ 0 <= qa <= 1 /\ qa <= q
     | None => True
     end.
Proof.
  intros Hown. rewrite predictCategory_select.
  destruct (length (Str.trim description) =? 0)%nat; [discriminate |].
  apply select_range, candidates_conf, Hown.
Qed.

(** C10, instance: a description with a keyword match, seen twice in
    the history. *)
Lemma predictCategory_confidence_order_witness :
  exists p,
    predictCategory (U "ресторан метрополь") Sample.categories
      Sample.restaurant_history [] = Some p
    /\ (exists q, prediction_confidence p = Fin q /\ 0 <= q <= 1)
    /\ match alternative p with
       | Some alt =>
           exists q qa,
             prediction_confidence p = Fin q /\ alt_confidence alt = Fin qa
             /\ 0 <= qa <= 1 /\ qa <= q
       | None => True
       end.
Proof.
  eexists. split; [vm_compute; reflexivity |].
  apply (@predictCategory_confidence_order (U "ресторан метрополь")
           Sample.categories Sample.restaurant_history []).
  - repeat constructor.
  - vm_compute. reflexivity.
Defined.

(** ** Categorizer: custom rules *)

Lemma findCategory_id (id : UUID) (cats : list Category.t) (c : Category.t) :
  findCategory id cats = Some c -> In c cats /\ Category.id c = id.
Proof.
  unfold findCategory, Arr.find. intros Hf. apply find_some in Hf.
  destruct Hf as [Hin He]. apply Str_eqb_eq in He. split; assumption.
Qed.

Lemma find_split {A : Type} (f : A -> bool) (l : list A) (x : A) :
  find f l = Some x ->
  exists l1 l2, l = l1 ++ x :: l2 /\ Forall (fun y => f y = false) l1
                /\ f x = true.
Proof.
  induction l as [| y l IH]; cbn [find]; [discriminate |].
  destruct (f y) eqn:Ey.
  - intros E. injection E as ->. exists [], l. repeat split; [constructor | exact Ey].
  - intros E. destruct (IH E) as [l1 [l2 [-> [H1 Hx]]]].
    exists (y :: l1), l2. repeat split; [constructor; assumption | exact Hx].
Qed.

Lemma find_exists {A : Type} (f : A -> bool) (l : list A) (x : A) :
  In x l -> f x = true -> exists y, find f l = Some y.
Proof.
  intros Hin Hx. destruct (find f l) as [y |] eqn:E; [exists y; reflexivity |].
  pose proof (find_none f l E x Hin). congruence.
Qed.

Lemma StronglySorted_app_r {A : Type} (R : A -> A -> Prop) (l1 l2 : list A) :
  StronglySorted R (l1 ++ l2) -> StronglySorted R l2.
Proof.
  induction l1 as [| x l1 IH]; cbn [app]; [tauto |].
  intros Hs. inversion Hs; subst. apply IH. assumption.
Qed.

Lemma ruleMatches_find (nd : jsstring) (cats : list Category.t)
  (rules : list CategoryRule.t) (r : CategoryRule.t) :
  find (rule_applies nd cats) rules = Some r ->
  exists c,
    findCategory (CategoryRule.category_id r) cats = Some c
    /\ ruleMatches nd cats rules
       = [ {| categoryId := Category.id c;
              categoryName := Category.name c;
              confidence := Fin 0.95;
              matchedKeyword := Some (CategoryRule.pattern r);
              matchType := mt_pattern |} ].
Proof.
  induction rules as [| rule rules IH]; cbn [find ruleMatches]; [discriminate |].
  unfold rule_applies at 1.
  destruct (matchesPattern nd (CategoryRule.pattern rule)); cbn [andb];
    [| exact IH].
  destruct (findCategory (CategoryRule.category_id rule) cats) as [c |] eqn:Ec;
    [| exact IH].
  intros E. injection E as <-. exists c. split; [exact Ec | reflexivity].
Qed.

Lemma sorted_rules_first (nd : jsstring) (cats : list Category.t)
  (rules : list CategoryRule.t) (r : CategoryRule.t) :
  find (rule_applies nd cats) (Arr.sort by_priority rules) = Some r ->
  In r rules
  /\ forall r', In r' rules -> rule_applies nd cats r' = true ->
                CategoryRule.priority r' <= CategoryRule.priority r.
Proof.
  change by_priority with (desc priority_key). intros Hf.
  assert (Hs : StronglySorted (ge_key priority_key)
                 (Arr.sort (desc priority_key) rules)).
  { apply sort_sorted. apply Forall_forall. intros x _.
    exists (CategoryRule.priority x). reflexivity. }
  destruct (find_split _ _ Hf) as [l1 [l2 [El [H1 Hr]]]].
  split.
  - apply (sort_In priority_key). rewrite El. apply in_or_app. right. left.
    reflexivity.
  - intros r' Hin Happ. apply (sort_In priority_key) in Hin.
    rewrite El in Hin, Hs. apply in_app_or in Hin. destruct Hin as [Hin | Hin].
    + pose proof (proj1 (Forall_forall _ _) H1 r' Hin). congruence.
    + destruct Hin as [<- | Hin]; [apply Qle_refl |].
      apply StronglySorted_app_r in Hs. inversion Hs as [| ? ? _ Hge]; subst.
      destruct (proj1 (Forall_forall _ _) Hge r' Hin)
        as [qa [qb [Ha [Hb Hle]]]].
      unfold priority_key in Ha, Hb. injection Ha as <-. injection Hb as <-.
      exact Hle.
Qed.

Lemma conf_eq_at_most (q b : Q) (l : list MatchResult) :
  b <= q -> Forall (fun m => confidence m = Fin b) l -> Forall (at_most q) l.
Proof.
  intros Hq. apply Forall_impl. intros m Hm. exists b. split; assumption.
Qed.

Lemma candidates_head (description : jsstring) (cats : list Category.t)
  (hist : list Transaction.t) (rules : list CategoryRule.t)
  (m : MatchResult) (ms : list MatchResult) (q : Q) :
  ruleMatches (normalizeText description) cats (Arr.sort by_priority rules)
  ++ keywordMatches (normalizeText description) cats = m :: ms ->
  0.75 <= q -> Forall (at_most q) ms ->
  (forall h,
      findHistoricalMatch (normalizeText description) hist cats = Some h ->
      at_most q h) ->
  exists rest,
    candidates description cats hist rules = m :: rest
    /\ Forall (at_most q) rest.
Proof.
  intros Hbase Hq Hms Hhist. unfold candidates. cbv zeta.
  set (nd := normalizeText description) in *.
  rewrite Hbase.
  destruct (defaultMatches_app nd cats (m :: ms)) as [extra [He Hx]].
  rewrite He. cbn [app].
  assert (Hrest : Forall (at_most q) (ms ++ extra)).
  { apply Forall_app. split; [exact Hms |].
    exact (conf_eq_at_most Hq Hx). }
  destruct (findHistoricalMatch nd hist cats) as [h |] eqn:Eh.
  - cbn [app]. exists ((ms ++ extra) ++ [h]). split; [reflexivity |].
    apply Forall_app. split; [exact Hrest |].
    constructor; [apply Hhist; reflexivity | constructor].
  - exists (ms ++ extra). split; [reflexivity | exact Hrest].
Qed.

Lemma ordinary_own_category (hist : list Transaction.t) :
  Forall ordinary hist -> Forall own_category hist.
Proof.
  apply Forall_impl. intros tx [Hc _]. exact Hc.
Qed.

Lemma own_description_no_write (description : jsstring)
  (hist : list Transaction.t) :
  Forall own_description hist -> writesObject description hist = false.
Proof.
  unfold writesObject. induction 1 as [| tx hist Htx _ IH]; [reflexivity |].
  cbn [existsb]. rewrite IH, orb_false_r. unfold own_description in Htx.
  destruct (Transaction.description tx) as [[| d ds] |]; try reflexivity.
  destruct (Transaction.category_id tx) as [[| c cs] |]; try reflexivity.
  rewrite Htx. apply andb_false_r.
Qed.

Lemma ordinary_no_write (description : jsstring) (hist : list Transaction.t) :
  Forall ordinary hist -> writesObject description hist = false.
Proof.
  intros Hord. apply own_description_no_write.
  eapply Forall_impl; [| exact Hord]. intros tx [_ Hd]. exact Hd.
Qed.

Lemma not_blank (description : jsstring) :
  Str.trim description <> [] ->
  (length (Str.trim description) =? 0)%nat = false.
Proof.
  intros Hd. destruct (Str.trim description); [congruence | reflexivity].
Qed.

(** C6, counterexample.  Two rules match ["кафе пушкин"], and so does a
    keyword; the prediction carries the category of the rule of higher
    priority, not that of the other matching rule.  A blank description
    is matched by the rule [*] and by a keyword that normalizes to the
    empty string, and gets no prediction. *)
Lemma matching_rule_not_returned :
  (rule_applies (normalizeText (U "кафе пушкин")) Sample.categories
     Sample.rule_low = true
   /\ has_keyword (normalizeText (U "кафе пушкин")) Sample.restaurants = true
   /\ exists p,
        predictCategory (U "кафе пушкин") Sample.categories []
          [Sample.rule_low; Sample.rule_high] = Some p
        /\ category_id p = U "cat-restaurants"
        /\ category_id p <> CategoryRule.category_id Sample.rule_low)
  /\ (rule_applies (normalizeText (U " ")) [Sample.misc] Sample.rule_any = true
      /\ has_keyword (normalizeText (U " ")) Sample.misc = true
      /\ predictCategory (U " ") [Sample.misc] [] [Sample.rule_any] = None).
Proof.
  split.
  - split; [vm_compute; reflexivity |]. split; [vm_compute; reflexivity |].
    eexists. split; [vm_compute; reflexivity |].
    split; [vm_compute; reflexivity | vm_compute; discriminate].
  - repeat split; vm_compute; reflexivity.
Qed.

(** C6 (amended).  For a description that is not blank and a history
    that stays clear of [Object.prototype], as soon as some custom rule
    matches the normalized description and names an existing category,
    the call writes nothing to the global [Object] and returns a
    prediction that has confidence 0.95 and carries the category of
    the winning rule: the first rule, in descending order of priority,
    that matches and whose category exists.  No keyword, default
    keyword or history match displaces it. *)
Theorem predictCategory_rule_precedence (description : jsstring)
  (categories : list Category.t) (historicalTransactions : list Transaction.t)
  (customRules : list CategoryRule.t) :
  Str.trim description <> [] ->
  Forall ordinary historicalTransactions ->
  (exists rule,
      In rule customRules
      /\ rule_applies (normalizeText description) categories rule = true) ->
  exists rule category p,
    find (rule_applies (normalizeText description) categories)
      (Arr.sort by_priority customRules) = Some rule
    /\ In rule customRules
    /\ (forall rule',
           In rule' customRules ->
           rule_applies (normalizeText description) categories rule' = true ->
           CategoryRule.priority rule' <= CategoryRule.priority rule)
    /\ findCategory (CategoryRule.category_id rule) categories = Some category
    /\ writesObject (normalizeText description) historicalTransactions
       = false
    /\ predictCategory description categories historicalTransactions
         customRules = Some p
    /\ category_id p = CategoryRule.category_id rule
    /\ category_name p = Category.name category
    /\ prediction_confidence p = Fin 0.95.
Proof.
  intros Hd Hord [rule0 [Hin0 Happ0]].
  pose proof (ordinary_no_write (normalizeText description) Hord) as Hw.
  set (nd := normalizeText description) in *.
  destruct (@find_exists _ (rule_applies nd categories)
              (Arr.sort by_priority customRules) rule0) as [rule Hf].
  { apply (sort_In priority_key). exact Hin0. }
  { exact Happ0. }
  destruct (sorted_rules_first _ _ _ Hf) as [Hin Hmax].
  destruct (ruleMatches_find _ _ _ Hf) as [category [Hc Hm]].
  match type of Hm with _ = [?x] => set (m := x) in * end.
  destruct (@candidates_head description categories historicalTransactions
              customRules m (keywordMatches nd categories) 0.95)
    as [rest [Hcand Hrest]].
  - fold nd. rewrite Hm. reflexivity.
  - lra.
  - apply (@conf_eq_at_most 0.95 0.85); [lra | apply keywordMatches_conf].
  - intros h Hh.
    apply (@findHistoricalMatch_conf _ _ _ _
             (ordinary_own_category Hord)) in Hh.
    destruct Hh as [b [Hb Hr]]. exists b. split; [exact Hb | lra].
  - destruct (@select_head m rest 0.95 eq_refl Hrest) as [p [Hp [Hid [Hn Hq]]]].
    exists rule, category, p.
    rewrite predictCategory_select, (not_blank _ Hd), Hcand.
    subst m. cbn [categoryId categoryName] in Hid, Hn.
    destruct (findCategory_id _ _ Hc) as [_ Hcid].
    repeat split; try assumption. congruence.
Qed.

(** C6, instance: two rules and a keyword match the description, which
    the history files twice under a third category. *)
Lemma predictCategory_rule_precedence_witness :
  exists p,
    predictCategory (U "кафе пушкин") Sample.categories
      Sample.cafe_history [Sample.rule_low; Sample.rule_high] = Some p
    /\ category_id p = CategoryRule.category_id Sample.rule_high
    /\ prediction_confidence p = Fin 0.95.
Proof.
  destruct (@predictCategory_rule_precedence (U "кафе пушкин")
              Sample.categories Sample.cafe_history
              [Sample.rule_low; Sample.rule_high])
    as [rule [category [p [Hf [_ [_ [_ [_ [Hp [Hid [_ Hq]]]]]]]]]]].
  - vm_compute. discriminate.
  - repeat constructor.
  - exists Sample.rule_high. split; [right; left; reflexivity |].
    vm_compute. reflexivity.
  - exists p. split; [exact Hp |]. split; [| exact Hq].
    rewrite Hid. f_equal.
    assert (E : find (rule_applies (normalizeText (U "кафе пушкин"))
                        Sample.categories)
                  (Arr.sort by_priority [Sample.rule_low; Sample.rule_high])
                = Some Sample.rule_high) by (vm_compute; reflexivity).
    rewrite E in Hf. injection Hf as <-. reflexivity.
Defined.

(** ** Categorizer: category keywords *)

Lemma find_existsb {A : Type} (f : A -> bool) (l : list A) :
  match find f l with Some _ => true | None => false end = existsb f l.
Proof.
  induction l as [| x l IH]; cbn [find existsb]; [reflexivity |].
  destruct (f x); [reflexivity | exact IH].
Qed.

(** C7, counterexample.  Three categories have a keyword in
    ["кафе метро магнит"]; the prediction carries the first of them and
    the alternative the second, so the third is not returned.  The
    empty description contains the keyword that normalizes to the empty
    string, and gets no prediction. *)
Lemma keyword_category_not_returned :
  (normalizeText (U "кафе метро магнит") = U "кафе метро магнит"
   /\ In Sample.groceries Sample.categories
   /\ has_keyword (U "кафе метро магнит") Sample.groceries = true
   /\ exists p alt,
        predictCategory (U "кафе метро магнит") Sample.categories [] []
        = Some p
        /\ alternative p = Some alt
        /\ category_id p = Category.id Sample.transport
        /\ alt_category_id alt = Category.id Sample.restaurants
        /\ category_id p <> Category.id Sample.groceries
        /\ alt_category_id alt <> Category.id Sample.groceries)
  /\ (normalizeText [] = []
      /\ has_keyword [] Sample.misc = true
      /\ predictCategory [] [Sample.misc] [] [] = None).
Proof.
  split.
  - split; [vm_compute; reflexivity |].
    split; [right; right; left; reflexivity |].
    split; [vm_compute; reflexivity |].
    eexists. eexists. split; [vm_compute; reflexivity |].
    split; [reflexivity |].
    split; [vm_compute; reflexivity |].
    split; [vm_compute; reflexivity |].
    split; vm_compute; discriminate.
  - repeat split; vm_compute; reflexivity.
Qed.

(** The keyword matches are those of the categories that have a keyword
    in the description, in the order of the list. *)
Lemma keywordMatches_filter (nd : jsstring) (cats : list Category.t) :
  Forall2
    (fun c m =>
       categoryId m = Category.id c /\ categoryName m = Category.name c
       /\ confidence m = Fin 0.85)
    (filter (has_keyword nd) cats) (keywordMatches nd cats).
Proof.
  unfold keywordMatches.
  induction cats as [| c cats IH]; cbn [filter flat_map]; [constructor |].
  unfold has_keyword at 1. rewrite <- find_existsb. unfold Arr.find.
  destruct (find _ (Category.keywords c)) as [keyword |]; [| exact IH].
  cbn [app]. constructor; [| exact IH].
  cbn [categoryId categoryName confidence]. repeat split.
Qed.

(** Without rules and history the candidates are the keyword matches
    followed by default keyword matches. *)
Lemma candidates_keywords (description : jsstring) (cats : list Category.t)
  (m : MatchResult) (ms : list MatchResult) :
  keywordMatches (normalizeText description) cats = m :: ms ->
  exists extra,
    candidates description cats [] [] = m :: ms ++ extra
    /\ Forall (fun x => confidence x = Fin 0.75) extra.
Proof.
  intros Hm. unfold candidates. cbv zeta.
  set (nd := normalizeText description) in *.
  cbn [Arr.sort fold_right ruleMatches app]. rewrite Hm.
  destruct (defaultMatches_app nd cats (m :: ms)) as [extra [He Hx]].
  rewrite He. exists extra. split; [reflexivity | exact Hx].
Qed.

(** C7 (amended).  For a description that is not blank, with no history
    and no rules, as soon as the normalized description contains a
    normalized keyword of some category, the prediction carries the
    first category of the list that has such a keyword, with confidence
    0.85, which is at least 0.75.  The second such category is the
    alternative, with confidence 0.85, and no further one is returned;
    when there is no second one, the alternative, if any, comes from a
    default keyword and has confidence 0.75. *)
Theorem predictCategory_keyword (description : jsstring)
  (categories : list Category.t) :
  Str.trim description <> [] ->
  (exists category,
      In category categories
      /\ has_keyword (normalizeText description) category = true) ->
  exists first others p,
    filter (has_keyword (normalizeText description)) categories
    = first :: others
    /\ predictCategory description categories [] [] = Some p
    /\ category_id p = Category.id first
    /\ category_name p = Category.name first
    /\ prediction_confidence p = Fin 0.85
    /\ (prediction_confidence p >=? 0.75)%js = true
    /\ match others with
       | second :: _ =>
           alternative p
           = Some {| alt_category_id := Category.id second;
                     alt_category_name := Category.name second;
                     alt_confidence := Fin 0.85 |}
       | [] =>
           match alternative p with
           | Some alt => alt_confidence alt = Fin 0.75
           | None => True
           end
       end.
Proof.
  intros Hd [category [Hin Hk]].
  set (nd := normalizeText description) in *.
  pose proof (keywordMatches_filter nd categories) as Hall.
  destruct (filter (has_keyword nd) categories) as [| first others] eqn:Ef.
  { assert (Hc : In category (filter (has_keyword nd) categories))
      by (apply filter_In; split; assumption).
    rewrite Ef in Hc. destruct Hc. }
  inversion Hall as [| ? m ? ms [Hid [Hn Hq]] Hrest Ec Em]; subst.
  symmetry in Em.
  destruct (candidates_keywords description categories Em)
    as [extra [Hcand Hx]].
  assert (Hms : Forall (fun x => confidence x = Fin 0.85) ms).
  { clear - Hrest. induction Hrest as [| c x cs xs [_ [_ Hc]] _ IH];
      constructor; assumption. }
  assert (Hle : forall l, Forall (fun x => confidence x = Fin 0.85) l ->
                  Forall (fun x => exists b, confidence x = Fin b /\ b <= 0.85)
                    (l ++ extra)).
  { intros l Hl. apply Forall_app. split.
    - eapply Forall_impl; [| exact Hl]. intros x Hc. exists 0.85.
      split; [exact Hc | lra].
    - eapply Forall_impl; [| exact Hx]. intros x Hc. exists 0.75.
      split; [exact Hc | lra]. }
  exists first, others.
  rewrite predictCategory_select, (not_blank _ Hd), Hcand.
  unfold select. change by_confidence with (desc confidence).
  rewrite (sort_head confidence m Hq (Hle ms Hms)).
  eexists. split; [reflexivity |]. split; [reflexivity |].
  cbn [category_id category_name prediction_confidence alternative].
  split; [exact Hid |]. split; [exact Hn |]. split; [exact Hq |].
  split; [rewrite Hq; reflexivity |].
  destruct others as [| second others'].
  - inversion Hrest; subst. cbn [app].
    pose proof (sort_Forall confidence Hx) as Hs.
    destruct (Arr.sort (desc confidence) extra) as [| x xs];
      cbn [hd_error option_map]; [exact I |].
    inversion Hs; subst. cbn [to_alternative alt_confidence]. assumption.
  - inversion Hrest as [| ? m2 ? ms2 [Hid2 [Hn2 Hq2]] Hrest2]; subst.
    inversion Hms as [| ? ? _ Hms2]; subst. cbn [app].
    rewrite (sort_head confidence m2 Hq2 (Hle ms2 Hms2)).
    cbn [hd_error option_map]. unfold to_alternative.
    rewrite Hid2, Hn2, Hq2. reflexivity.
Qed.

(** C7, instance: three categories have a keyword in the description;
    the first of the list is predicted and the second is the
    alternative. *)
Lemma predictCategory_keyword_witness :
  exists p,
    predictCategory (U "кафе метро магнит") Sample.categories [] [] = Some p
    /\ category_id p = Category.id Sample.transport
    /\ prediction_confidence p = Fin 0.85
    /\ alternative p
       = Some {| alt_category_id := Category.id Sample.restaurants;
                 alt_category_name := Category.name Sample.restaurants;
                 alt_confidence := Fin 0.85 |}.
Proof.
  destruct (@predictCategory_keyword (U "кафе метро магнит")
              Sample.categories)
    as [first [others [p [Hf [Hp [Hid [_ [Hq [_ Halt]]]]]]]]].
  - vm_compute. discriminate.
  - exists Sample.groceries. split; [right; right; left; reflexivity |].
    vm_compute. reflexivity.
  - assert (E : filter (has_keyword (normalizeText (U "кафе метро магнит")))
                  Sample.categories
                = [Sample.transport; Sample.restaurants; Sample.groceries])
      by (vm_compute; reflexivity).
    rewrite E in Hf. injection Hf as <- <-.
    exists p. split; [exact Hp |]. split; [exact Hid |].
    split; [exact Hq | exact Halt].
Defined.

End Categorizer.

(* ================================================================== *)
(** * Further properties *)
(* ================================================================== *)

(** ** ml.ts: regression *)




(** ** ml.ts: trend and outliers *)




Section TrendFacts.
Context {H : Host}.

Lemma calculateStdDev_finite (qs : list Q) :
  exists s, ML.calculateStdDev (map Fin qs) = Fin s.
Proof.
  unfold ML.calculateStdDev.
  destruct (length (map Fin qs) <? 2)%nat eqn:El; [eexists; reflexivity |].
  apply Nat.ltb_ge in El.
  assert (Hn : length (map Fin qs) <> O) by lia.
  rewrite sum_map_Fin, (div_of_nat_finite _ Hn).
  set (mean := fold_left Qplus qs 0 / inject_Z (Z.of_nat (length (map Fin qs)))).
  rewrite map_map.
  change (map (fun x : Q => JS.sq (Fin x - Fin mean)%js) qs)
    with (map (fun x : Q => Fin ((x + - mean) * (x + - mean))) qs).
  rewrite <- (map_map (fun x => (x + - mean) * (x + - mean)) Fin).
  rewrite sum_map_Fin, (div_of_nat_finite _ Hn).
  set (S := fold_left Qplus (map (fun x => (x + - mean) * (x + - mean)) qs) 0).
  assert (HS : 0 <= S).
  { apply fold_Qplus_nonneg; [lra |].
    apply Forall_forall. intros x Hx. apply in_map_iff in Hx.
    destruct Hx as [y [<- _]]. apply Qsquare_nonneg. }
  assert (Hv : Qle_bool 0 (S / inject_Z (Z.of_nat (length (map Fin qs)))) = true).
  { apply Qle_bool_iff. apply Qle_shift_div_l; [apply of_nat_pos; exact Hn | lra]. }
  unfold JSMath.Math_sqrt. rewrite Hv. eexists; reflexivity.
Qed.



(** X4.  The values the z-score test lets pass form an interval: with
    the same history and threshold, a value between two values that
    are no anomalies is no anomaly either. *)
Theorem isAnomaly_interval (history : list Q) (threshold low value high : Q) :
  low <= value <= high ->
  ML.isAnomaly_ (ML.isAnomaly low (map Fin history) threshold) = false ->
  ML.isAnomaly_ (ML.isAnomaly high (map Fin history) threshold) = false ->
  ML.isAnomaly_ (ML.isAnomaly value (map Fin history) threshold) = false.
Proof.
  intros Hv. unfold ML.isAnomaly. rewrite length_map.
  destruct (length history <? 5)%nat eqn:El; [intros _ _; reflexivity |].
  apply Nat.ltb_ge in El.
  assert (Hn : length history <> O) by lia.
  rewrite sum_map_Fin, (div_of_nat_finite _ Hn).
  set (mean := fold_left Qplus history 0 / inject_Z (Z.of_nat (length history))).
  destruct (calculateStdDev_finite history) as [s Hs]. rewrite Hs.
  cbn [JS.eq]. destruct (Qeq_bool s 0) eqn:Es.
  - cbn [ML.isAnomaly_]. unfold JS.ne. cbn [JS.eq].
    rewrite !negb_false_iff. intros Hl Hh.
    apply Qeq_bool_iff in Hl, Hh. apply Qeq_bool_iff. lra.
  - cbn [ML.isAnomaly_ JS.sub JS.neg JS.add JS.div]. rewrite Es.
    cbn [JS.Math_abs]. unfold JS.gt. cbn [JS.lt].
    rewrite !negb_false_iff. intros Hl Hh.
    apply Qle_bool_iff in Hl, Hh. apply Qle_bool_iff.
    apply Qabs_Qle_condition in Hl, Hh. apply Qabs_Qle_condition.
    assert (Hs0 : ~ s == 0).
    { intros E0. apply Qeq_bool_iff in E0. congruence. }
    pose proof (Qmult_inv_r s Hs0) as Hsi.
    unfold Qdiv in *. set (i := / s) in *.
    destruct (Qlt_le_dec 0 s) as [Hpos | Hneg].
    + assert (Hi : 0 <= i) by nra. split; nra.
    + assert (Hi : i <= 0) by nra. split; nra.
Qed.

End TrendFacts.


(** X4, instance: 12 between 11 and 13, against eight purchases of 10
    to 14 with the threshold 2.5. *)
Lemma isAnomaly_interval_witness :
  ML.isAnomaly_
    (@ML.isAnomaly JSDate.utc_host 12
       (map Fin [10; 12; 11; 13; 12; 10; 11; 14]) 2.5)
  = false.
Proof.
  apply (@isAnomaly_interval JSDate.utc_host
           [10; 12; 11; 13; 12; 10; 11; 14] 2.5 11 12 13).
  - split; vm_compute; discriminate.
  - vm_compute. reflexivity.
  - vm_compute. reflexivity.
Defined.

(** ** ml.ts: quartiles *)

(** The comparator [a - b] sorts finite numbers in ascending order. *)
Lemma ascending_rank (x y : num) :
  finite x -> finite y ->
  ((x - y)%js >? 0)%js = negb (Qle_bool (value_of x) (value_of y)).
Proof.
  intros [a ->] [b ->]. unfold JS.gt. cbn [JS.sub JS.neg JS.add JS.lt value_of].
  destruct (Qle_bool a b) eqn:E1, (Qle_bool (a + - b) 0) eqn:E2; try reflexivity.
  - apply Qle_bool_iff in E1. apply Qle_bool_false in E2. lra.
  - apply Qle_bool_iff in E2. apply Qle_bool_false in E1. lra.
Qed.

Lemma sort_ascending (history : list Q) :
  exists sorted,
    Arr.sort (fun a b => (a - b)%js) (map Fin history) = map Fin sorted
    /\ length sorted = length history
    /\ StronglySorted Qle sorted.
Proof.
  set (cmp := fun a b : num => (a - b)%js).
  assert (Hf : Forall finite (Arr.sort cmp (map Fin history)))
    by apply sort_Forall_any, Forall_finite_Fin.
  pose proof (@sort_sorted_by _ cmp finite value_of ascending_rank
                (map Fin history) (Forall_finite_Fin history)) as Hs.
  pose proof (sort_length_any cmp (map Fin history)) as Hl.
  destruct (Forall_finite_map Hf) as [sorted Es]. rewrite Es in *.
  exists sorted. split; [reflexivity |]. split.
  - rewrite !length_map in Hl. exact Hl.
  - clear - Hs. induction sorted as [| q sorted IH]; [constructor |].
    cbn [map] in Hs. inversion Hs as [| ? ? Hs' Hq]; subst.
    constructor; [apply IH; exact Hs' |].
    apply Forall_forall. intros y Hy.
    assert (Hin : In (Fin y) (map Fin sorted)) by (apply in_map; exact Hy).
    exact (proj1 (Forall_forall _ _) Hq _ Hin).
Qed.

Lemma sorted_nth (l : list Q) (i j : nat) :
  StronglySorted Qle l -> (i <= j)%nat -> (j < length l)%nat ->
  nth i l 0 <= nth j l 0.
Proof.
  intros Hs. revert i j. induction Hs as [| x l Hs IH Hx]; intros i j Hij Hj;
    [cbn in Hj; lia |].
  destruct i as [| i], j as [| j]; cbn [nth]; try lia.
  - apply Qle_refl.
  - apply (proj1 (Forall_forall _ _) Hx). apply nth_In. cbn in Hj. lia.
  - apply IH; cbn in Hj; lia.
Qed.

Lemma Arr_get_nat (l : list Q) (k : Z) :
  (0 <= k)%Z ->
  Arr.get (map Fin l) (Fin (inject_Z k))
  = nth (Z.to_nat k) (map Fin l) NaN.
Proof.
  intros Hk. unfold Arr.get. rewrite Qfloor_Z.
  assert (E : Qeq_bool (inject_Z k) (inject_Z k) = true)
    by (apply Qeq_bool_iff; reflexivity).
  rewrite E. destruct (Z.leb_spec 0 k); [reflexivity | lia].
Qed.

Lemma nth_map_Fin (l : list Q) (i : nat) :
  (i < length l)%nat -> nth i (map Fin l) NaN = Fin (nth i l 0).
Proof.
  revert i. induction l as [| x l IH]; intros i Hi; [cbn in Hi; lia |].
  destruct i; [reflexivity |]. cbn [map nth]. apply IH. cbn in Hi. lia.
Qed.

(** A percentile of a sorted array lies between the elements next to
    its position. *)
Lemma percentile_between (sorted : list Q) (p : Q) :
  StronglySorted Qle sorted -> (1 <= length sorted)%nat -> 0 <= p <= 100 ->
  let index := p / 100 * (inject_Z (Z.of_nat (length sorted)) + - (1)) in
  exists v,
    ML.percentile (map Fin sorted) p = Fin v
    /\ nth (Z.to_nat (Qfloor index)) sorted 0 <= v
    /\ v <= nth (Z.to_nat (Qceiling index)) sorted 0.
Proof.
  intros Hs Hn Hp index. unfold ML.percentile. rewrite length_map.
  unfold JS.of_nat, JS.of_Z.
  change (p / 100 * (Fin (inject_Z (Z.of_nat (length sorted))) - 1))%js
    with (Fin index).
  cbn [JS.Math_floor JS.Math_ceil JS.of_Z]. unfold JS.of_Z. cbn [JS.eq].
  assert (Hn1 : 0 <= inject_Z (Z.of_nat (length sorted)) + - (1)).
  { assert (E : inject_Z 1 <= inject_Z (Z.of_nat (length sorted)))
      by (rewrite <- Zle_Qle; lia).
    change (inject_Z 1) with 1 in E. lra. }
  assert (Hi0 : 0 <= index).
  { unfold index. apply Qmult_le_0_compat; [| exact Hn1].
    apply Qle_shift_div_l; lra. }
  assert (Hi1 : index <= inject_Z (Z.of_nat (length sorted)) + - (1)).
  { unfold index.
    assert (Hp1 : p / 100 <= 1) by (apply Qle_shift_div_r; lra).
    nra. }
  pose proof (Qfloor_le index) as Hfl.
  pose proof (Qle_ceiling index) as Hce.
  assert (HL0 : (0 <= Qfloor index)%Z).
  { change 0%Z with (Qfloor 0). apply Qfloor_resp_le. exact Hi0. }
  assert (HU1 : (Qceiling index <= Z.of_nat (length sorted) - 1)%Z).
  { rewrite <- (Qceiling_Z (Z.of_nat (length sorted) - 1)).
    apply Qceiling_resp_le. unfold Z.sub. rewrite inject_Z_plus, inject_Z_opp.
    exact Hi1. }
  pose proof (Qle_floor_ceiling index) as HLU.
  rewrite <- Zle_Qle in HLU.
  rewrite !Arr_get_nat by lia.
  rewrite !nth_map_Fin by lia.
  set (a := nth (Z.to_nat (Qfloor index)) sorted 0).
  set (b := nth (Z.to_nat (Qceiling index)) sorted 0).
  assert (Hab : a <= b).
  { apply sorted_nth; [exact Hs | lia | lia]. }
  destruct (Qeq_bool (inject_Z (Qfloor index)) (inject_Z (Qceiling index))) eqn:E.
  - apply Qeq_bool_iff in E. apply (proj1 (inject_Z_injective _ _)) in E.
    exists a. split; [reflexivity |]. split; [apply Qle_refl |].
    unfold b. rewrite <- E. apply Qle_refl.
  - cbn [JS.sub JS.neg JS.add JS.mul].
    eexists. split; [reflexivity |].
    set (w := index + - inject_Z (Qfloor index)).
    assert (Hw0 : 0 <= w) by (unfold w; lra).
    assert (Hw1 : w <= 1).
    { unfold w. pose proof (Qlt_floor index) as Hlt.
      rewrite inject_Z_plus in Hlt. change (inject_Z 1) with 1 in Hlt. lra. }
    split; nra.
Qed.

(** X29.  With four historical values or more and a multiplier that is
    not negative, the first quartile of [detectAnomaliesIQR] is at most
    the third, and a value between the two quartiles is never reported
    as an anomaly. *)
Theorem detectAnomaliesIQR_between_quartiles (history : list Q)
  (multiplier value : Q) :
  (4 <= length history)%nat -> 0 <= multiplier ->
  let sorted := Arr.sort (fun a b => (a - b)%js) (map Fin history) in
  exists q1 q3,
    ML.percentile sorted 25 = Fin q1
    /\ ML.percentile sorted 75 = Fin q3
    /\ q1 <= q3
    /\ (q1 <= value <= q3 ->
        ML.detectAnomaliesIQR value (map Fin history) multiplier
        = {| ML.iqr_isAnomaly := false; ML.severity := ML.none |}).
Proof.
  intros Hlen Hm sorted.
  destruct (sort_ascending history) as [qs [Es [Hl Hs]]].
  unfold sorted. rewrite Es.
  destruct (@percentile_between qs 25 Hs ltac:(lia) ltac:(lra))
    as [q1 [E1 [H1a H1b]]].
  destruct (@percentile_between qs 75 Hs ltac:(lia) ltac:(lra))
    as [q3 [E3 [H3a H3b]]].
  cbv zeta in H1a, H1b, H3a, H3b.
  set (n1 := inject_Z (Z.of_nat (length qs)) + - (1)) in *.
  assert (Hn1 : 3 <= n1).
  { unfold n1.
    assert (E : inject_Z 4 <= inject_Z (Z.of_nat (length qs)))
      by (rewrite <- Zle_Qle; lia).
    change (inject_Z 4) with 4 in E. lra. }
  assert (Hidx : (Qceiling (25 / 100 * n1) <= Qfloor (75 / 100 * n1))%Z).
  { pose proof (Qceiling_lt (25 / 100 * n1)) as Hc.
    pose proof (Qlt_floor (75 / 100 * n1)) as Hf.
    unfold Z.sub in Hc. rewrite inject_Z_plus in Hc, Hf.
    change (inject_Z (- (1))) with (- (1)) in Hc. change (inject_Z 1) with 1 in Hf.
    assert (Hd : 25 / 100 * n1 + 1 <= 75 / 100 * n1).
    { assert (E25 : 25 / 100 == 1 # 4) by reflexivity.
      assert (E75 : 75 / 100 == 3 # 4) by reflexivity.
      rewrite E25, E75. lra. }
    assert (Hlt : inject_Z (Qceiling (25 / 100 * n1))
                  < inject_Z (Qfloor (75 / 100 * n1) + 1)).
    { rewrite inject_Z_plus. change (inject_Z 1) with 1. lra. }
    rewrite <- Zlt_Qlt in Hlt. lia. }
  assert (H0 : (0 <= Qceiling (25 / 100 * n1))%Z).
  { rewrite <- (Qceiling_Z 0). apply Qceiling_resp_le.
    assert (E25 : 25 / 100 == 1 # 4) by reflexivity. rewrite E25.
    change (inject_Z 0) with 0. lra. }
  assert (Hmax : (Qfloor (75 / 100 * n1) <= Z.of_nat (length qs) - 1)%Z).
  { rewrite <- (Qfloor_Z (Z.of_nat (length qs) - 1)). apply Qfloor_resp_le.
    unfold Z.sub. rewrite inject_Z_plus, inject_Z_opp.
    change (inject_Z 1) with 1. fold n1.
    assert (E75 : 75 / 100 == 3 # 4) by reflexivity. rewrite E75. lra. }
  assert (Hq : q1 <= q3).
  { apply (Qle_trans _ _ _ H1b). apply (Qle_trans _ (nth (Z.to_nat (Qfloor (75 / 100 * n1))) qs 0)); [| exact H3a].
    apply sorted_nth; [exact Hs | lia | lia]. }
  exists q1, q3. split; [exact E1 |]. split; [exact E3 |]. split; [exact Hq |].
  intros [Hv1 Hv3]. unfold ML.detectAnomaliesIQR. rewrite length_map.
  destruct (Nat.ltb_spec (length history) 4) as [Hlt | _]; [lia |].
  cbv zeta. rewrite Es, E1, E3.
  cbn [JS.sub JS.neg JS.add JS.mul JS.lt JS.gt].
  unfold JS.gt. cbn [JS.lt].
  assert (F1 : Qle_bool (q1 + - (3 * (q3 + - q1))) value = true)
    by (apply Qle_bool_iff; lra).
  assert (F2 : Qle_bool value (q3 + 3 * (q3 + - q1)) = true)
    by (apply Qle_bool_iff; lra).
  assert (F3 : Qle_bool (q1 + - (multiplier * (q3 + - q1))) value = true)
    by (apply Qle_bool_iff; nra).
  assert (F4 : Qle_bool value (q3 + multiplier * (q3 + - q1)) = true)
    by (apply Qle_bool_iff; nra).
  rewrite F1, F2, F3, F4. reflexivity.
Qed.

(** X29, instance: the value 3 against the history 5, 1, 4, 2, 3. *)
Lemma detectAnomaliesIQR_between_quartiles_witness :
  ML.detectAnomaliesIQR 3 (map Fin [5; 1; 4; 2; 3]) 1.5
  = {| ML.iqr_isAnomaly := false; ML.severity := ML.none |}.
Proof.
  destruct (@detectAnomaliesIQR_between_quartiles [5; 1; 4; 2; 3] 1.5 3)
    as [q1 [q3 [E1 [E3 [_ Hin]]]]].
  - cbn [length]. lia.
  - vm_compute. discriminate.
  - vm_compute in E1, E3.
    assert (H1 : q1 = 2) by congruence.
    assert (H3 : q3 = 4) by congruence.
    apply Hin. rewrite H1, H3. split; vm_compute; discriminate.
Defined.

(** ** ml.ts: forecasting and moving averages *)






Section ForecastFacts.
Import Forecasting.



Section WithHost.
Context {H : Host}.


End WithHost.


End ForecastFacts.



(** ** health.ts: the partial scores are monotone *)

(** Replace the inverse of a closed rational by its value. *)
Ltac inv_const :=
  unfold Qdiv;
  repeat match goal with
  | |- context [Qinv ?c] =>
      let v := eval vm_compute in (Qred (Qinv c)) in
      setoid_replace (Qinv c) with v by (vm_compute; reflexivity)
  end.

Ltac q_cases :=
  repeat match goal with
  | |- context [Qle_bool ?a ?b] =>
      let E := fresh "E" in
      destruct (Qle_bool a b) eqn:E;
      [apply Qle_bool_iff in E | apply Qle_bool_false in E];
      cbn [negb JS.Math_max JS.lt JS.sub JS.add JS.neg]; cbv iota
  end.

Ltac two_scores :=
  eexists; eexists; split; [reflexivity | split; [reflexivity |]];
  try (inv_const; lra).

(** X8.  The savings score does not decrease when the savings rate
    grows among positive rates or among rates that are not positive;
    it drops at zero: a rate of 0 scores more than any positive rate
    below 2.5%. *)
Theorem calculateSavingsScore_monotone_apart_from_zero
  (m1 m2 : HealthMetrics.t) (r1 r2 : Q) :
  HealthMetrics.savings_rate m1 = Fin r1 ->
  HealthMetrics.savings_rate m2 = Fin r2 ->
  r1 <= r2 ->
  exists s1 s2,
    Health.calculateSavingsScore m1 = Fin s1
    /\ Health.calculateSavingsScore m2 = Fin s2
    /\ ((0 < r1 \/ r2 <= 0) -> s1 <= s2)
    /\ (r1 == 0 -> 0 < r2 -> r2 < 0.025 -> s2 < s1).
Proof.
  intros H1 H2 Hle. unfold Health.calculateSavingsScore. rewrite H1, H2.
  score_unfold; q_cases;
    (eexists; eexists; split; [reflexivity | split; [reflexivity |]]);
    (split; [intros Hside | intros Hz Hpos Hsmall]);
    try (inv_const; destruct Hside; lra); try (inv_const; lra).
Qed.

(** X8, instance: rates of 12% and 15%. *)
Lemma calculateSavingsScore_monotone_apart_from_zero_witness :
  exists s1 s2,
    Health.calculateSavingsScore (Sample.metrics 0.12 1 0 0) = Fin s1
    /\ Health.calculateSavingsScore (Sample.metrics 0.15 1 0 0) = Fin s2
    /\ ((0 < 0.12 \/ 0.15 <= 0) -> s1 <= s2)
    /\ (0.12 == 0 -> 0 < 0.15 -> 0.15 < 0.025 -> s2 < s1).
Proof.
  apply (@calculateSavingsScore_monotone_apart_from_zero
           (Sample.metrics 0.12 1 0 0) (Sample.metrics 0.15 1 0 0) 0.12 0.15).
  - reflexivity.
  - reflexivity.
  - vm_compute. discriminate.
Defined.

(** X9.  With budgets to judge, the budget score does not decrease when
    the adherence rate grows. *)
Theorem calculateBudgetScore_monotone (m1 m2 : HealthMetrics.t) (r1 r2 : Q) :
  HealthMetrics.budget_adherence_rate m1 = Fin r1 ->
  HealthMetrics.budget_adherence_rate m2 = Fin r2 ->
  (HealthMetrics.budgets_on_track m1 + HealthMetrics.budgets_exceeded m1 <> 0)%nat ->
  (HealthMetrics.budgets_on_track m2 + HealthMetrics.budgets_exceeded m2 <> 0)%nat ->
  r1 <= r2 ->
  exists s1 s2,
    Health.calculateBudgetScore m1 = Fin s1
    /\ Health.calculateBudgetScore m2 = Fin s2
    /\ s1 <= s2.
Proof.
  intros H1 H2 B1 B2 Hle. unfold Health.calculateBudgetScore. rewrite H1, H2.
  apply Nat.eqb_neq in B1, B2. rewrite B1, B2.
  score_unfold; q_cases; two_scores.
Qed.

(** X9, instance: adherence of 60% and 80%. *)
Lemma calculateBudgetScore_monotone_witness :
  exists s1 s2,
    Health.calculateBudgetScore (Sample.metrics 0 0.6 0 0) = Fin s1
    /\ Health.calculateBudgetScore (Sample.metrics 0 0.8 0 0) = Fin s2
    /\ s1 <= s2.
Proof.
  apply (@calculateBudgetScore_monotone
           (Sample.metrics 0 0.6 0 0) (Sample.metrics 0 0.8 0 0) 0.6 0.8).
  - reflexivity.
  - reflexivity.
  - cbn. lia.
  - cbn. lia.
  - vm_compute. discriminate.
Defined.

(** X10.  The debt score does not increase when the share of credit in
    the expenses grows. *)
Theorem calculateDebtScore_antitone (m1 m2 : HealthMetrics.t) (r1 r2 : Q) :
  HealthMetrics.credit_ratio m1 = Fin r1 ->
  HealthMetrics.credit_ratio m2 = Fin r2 ->
  r1 <= r2 ->
  exists s1 s2,
    Health.calculateDebtScore m1 = Fin s1
    /\ Health.calculateDebtScore m2 = Fin s2
    /\ s2 <= s1.
Proof.
  intros H1 H2 Hle. unfold Health.calculateDebtScore. rewrite H1, H2.
  score_unfold.
  destruct (Qeq_bool r1 0) eqn:Z1; [apply Qeq_bool_iff in Z1 |];
    (destruct (Qeq_bool r2 0) eqn:Z2; [apply Qeq_bool_iff in Z2 |]);
    q_cases; two_scores.
Qed.

(** X10, instance: credit ratios of 15% and 30%. *)
Lemma calculateDebtScore_antitone_witness :
  exists s1 s2,
    Health.calculateDebtScore (Sample.metrics 0 1 0.15 0) = Fin s1
    /\ Health.calculateDebtScore (Sample.metrics 0 1 0.30 0) = Fin s2
    /\ s2 <= s1.
Proof.
  apply (@calculateDebtScore_antitone
           (Sample.metrics 0 1 0.15 0) (Sample.metrics 0 1 0.30 0) 0.15 0.30).
  - reflexivity.
  - reflexivity.
  - vm_compute. discriminate.
Defined.

Lemma stability_base_antitone (v1 v2 : Q) :
  v1 <= v2 ->
  let base (q : Q) : num :=
    if (Fin q <=? 0.15)%js then Fin 100
    else if (Fin q <=? 0.25)%js then
      (70 + 30 * (0.25 - Fin q) / (0.25 - 0.15))%js
    else if (Fin q <=? 0.40)%js then
      (40 + 30 * (0.40 - Fin q) / (0.40 - 0.25))%js
    else JS.Math_max 0 (40 - (Fin q - 0.40) * 50)%js in
  exists b1 b2, base v1 = Fin b1 /\ base v2 = Fin b2 /\ b2 <= b1.
Proof.
  intros Hle base. unfold base. score_unfold. q_cases; two_scores.
Qed.

(** X11.  With the same trends of income and expenses, the stability
    score does not increase when the volatility of the expenses
    grows. *)
Theorem calculateStabilityScore_antitone (m1 m2 : HealthMetrics.t) (v1 v2 : Q) :
  HealthMetrics.expense_volatility m1 = Fin v1 ->
  HealthMetrics.expense_volatility m2 = Fin v2 ->
  HealthMetrics.expense_trend m1 = HealthMetrics.expense_trend m2 ->
  HealthMetrics.income_trend m1 = HealthMetrics.income_trend m2 ->
  v1 <= v2 ->
  exists s1 s2,
    Health.calculateStabilityScore m1 = Fin s1
    /\ Health.calculateStabilityScore m2 = Fin s2
    /\ s2 <= s1.
Proof.
  intros H1 H2 He Hi Hle. unfold Health.calculateStabilityScore.
  rewrite H1, H2, He, Hi. cbv zeta.
  unfold Health.THRESHOLDS.stability.
  cbn [Health.excellent Health.good Health.fair Health.poor].
  destruct (stability_base_antitone Hle) as [b1 [b2 [E1 [E2 Hb]]]].
  cbv zeta in E1, E2. rewrite E1, E2.
  assert (Hp : exists p, match HealthMetrics.income_trend m2 with
                          | decreasing =>
                              (match HealthMetrics.expense_trend m2 with
                               | increasing => Fin 10 | _ => Fin 0 end + 10)%js
                          | _ => match HealthMetrics.expense_trend m2 with
                                 | increasing => Fin 10 | _ => Fin 0 end
                          end = Fin p).
  { destruct (HealthMetrics.income_trend m2), (HealthMetrics.expense_trend m2);
      cbn [JS.add]; eexists; reflexivity. }
  destruct Hp as [p Hp]. rewrite Hp.
  cbn [JS.sub JS.neg JS.add]. unfold JS.Math_max. cbn [JS.lt].
  q_cases; two_scores.
Qed.

(** X11, instance: volatilities of 20% and 50%. *)
Lemma calculateStabilityScore_antitone_witness :
  exists s1 s2,
    Health.calculateStabilityScore (Sample.metrics 0 1 0 0.2) = Fin s1
    /\ Health.calculateStabilityScore (Sample.metrics 0 1 0 0.5) = Fin s2
    /\ s2 <= s1.
Proof.
  apply (@calculateStabilityScore_antitone
           (Sample.metrics 0 1 0 0.2) (Sample.metrics 0 1 0 0.5) 0.2 0.5).
  - reflexivity.
  - reflexivity.
  - reflexivity.
  - reflexivity.
  - vm_compute. discriminate.
Defined.

(** X12.  The grade is monotone in the score: a higher score never gets
    a worse grade (F < D < C < B < A). *)
Theorem getGradeInfo_monotone (s1 s2 : Q) :
  s1 <= s2 ->
  (grade_rank (Health.getGradeInfo s1) <= grade_rank (Health.getGradeInfo s2))%nat.
Proof.
  intros Hle. unfold Health.getGradeInfo, JS.ge. cbn [JS.le].
  q_cases; cbn [grade_rank]; try lia; lra.
Qed.

(** X12, instance: scores of 50 and 80. *)
Lemma getGradeInfo_monotone_witness :
  (grade_rank (Health.getGradeInfo (Fin 50))
   <= grade_rank (Health.getGradeInfo (Fin 80)))%nat.
Proof.
  apply (@getGradeInfo_monotone 50 80). vm_compute. discriminate.
Defined.

(** ** health.ts: recommendations, metrics and comparison *)

(** X13.  [generateRecommendations] never returns an empty list, lists
    the recommendations of high priority before those of medium and
    those before the ones of low priority, and gives the general
    recommendation only when it is the only one. *)
Theorem generateRecommendations_sorted (score : Health.HealthScore)
  (metrics : HealthMetrics.t) :
  let recommendations := Health.generateRecommendations score metrics in
  recommendations <> []
  /\ StronglySorted (rank_le priority_rank) recommendations
  /\ ((exists r, In r recommendations /\ Health.category r = Health.rc_general) ->
      length recommendations = 1%nat).
Proof.
  cbv zeta. unfold Health.generateRecommendations.
  set (cmp := fun a b : Health.HealthRecommendation =>
                (Health.priorityOrder (Health.priority a)
                 - Health.priorityOrder (Health.priority b))%js).
  match goal with
  | |- context [Arr.sort cmp ?l] => set (recs := l)
  end.
  assert (Hne : recs <> []).
  { subst recs. match goal with |- match ?l with _ => _ end <> _ => destruct l end;
      discriminate. }
  split; [| split].
  - intros E. apply Hne. apply length_zero_iff_nil.
    rewrite <- (sort_length_any cmp recs), E. reflexivity.
  - apply (@sort_sorted_by _ cmp (fun _ => True) priority_rank).
    + intros x y _ _. unfold cmp, priority_rank.
      destruct (Health.priority x), (Health.priority y); reflexivity.
    + apply Forall_forall. intros; exact I.
  - intros [r [Hr Hg]]. rewrite sort_length_any.
    apply sort_In_any in Hr. subst recs.
    match goal with
    | Hr : In r (match ?l with _ => _ end) |- _ =>
        destruct l as [| r0 l0] eqn:El
    end; [reflexivity |].
    exfalso. rewrite <- El in Hr. clear El.
    repeat first
      [ apply in_app_or in Hr; destruct Hr as [Hr | Hr]
      | match type of Hr with
        | In _ (if ?c then _ else _) => destruct c
        | In _ (match ?c with _ => _ end) => destruct c
        end ];
      cbn [In] in Hr;
      repeat match type of Hr with
             | _ \/ _ => destruct Hr as [Hr | Hr]
             end;
      try contradiction; subst r; discriminate Hg.
Qed.

(** A loop that counts every element in one of two counters. *)
Lemma fold_two_counters {A : Type} (f : nat * nat -> A -> nat * nat)
  (l : list A) (acc : nat * nat) :
  (forall acc x, (fst (f acc x) + snd (f acc x) = S (fst acc + snd acc))%nat) ->
  (fst (fold_left f l acc) + snd (fold_left f l acc)
   = fst acc + snd acc + length l)%nat.
Proof.
  intros Hf. revert acc. induction l as [| x l IH]; intros acc; cbn [fold_left length].
  - lia.
  - rewrite IH, Hf. lia.
Qed.

Lemma fold_counter_le {A : Type} (f : nat -> A -> nat) (l : list A) (n : nat) :
  (forall n x, (f n x <= S n)%nat) ->
  (fold_left f l n <= n + length l)%nat.
Proof.
  intros Hf. revert n. induction l as [| x l IH]; intros n; cbn [fold_left length].
  - lia.
  - specialize (IH (f n x)). specialize (Hf n x). lia.
Qed.

Lemma fold_add_bounded {A : Type} (term : A -> num) (l : list A) (a : Q) :
  (forall x, exists t, term x = Fin t /\ t <= 1) ->
  exists q,
    fold_left (fun sum x => (sum + term x)%js) l (Fin a) = Fin q
    /\ q <= a + inject_Z (Z.of_nat (length l)).
Proof.
  intros Hterm. revert a. induction l as [| x l IH]; intros a; cbn [fold_left length].
  - exists a. split; [reflexivity |].
    change (inject_Z (Z.of_nat 0)) with 0. lra.
  - destruct (Hterm x) as [t [Et Ht]]. rewrite Et. cbn [JS.add].
    destruct (IH (a + t)) as [q [Eq Hq]]. exists q. split; [exact Eq |].
    rewrite Nat2Z.inj_succ. unfold Z.succ. rewrite inject_Z_plus.
    change (inject_Z 1) with 1. lra.
Qed.





Section MetricsFacts.
Context {H : Host}.

(** X14.  At every clock reading [calculateMetrics] returns metrics in
    which every active budget is counted once, on track or exceeded,
    the adherence rate lies in [0, 1], the goals on track are no more
    than the goals that are not completed, the progress of the goals is
    at most 1, and net_savings is total_income minus total_expense. *)
Theorem calculateMetrics_counts (now : Z) (transactions : list Transaction.t)
  (budgets : list Budget.t) (goals : list Goal.t) :
  exists m,
    Health.calculateMetrics now transactions budgets goals = Return m
    /\ (HealthMetrics.budgets_on_track m + HealthMetrics.budgets_exceeded m
        = length (filter Budget.is_active budgets))%nat
    /\ (exists q, HealthMetrics.budget_adherence_rate m = Fin q /\ 0 <= q <= 1)
    /\ (HealthMetrics.goals_on_track m
        <= length (filter (fun g => negb (Goal.is_completed g)) goals))%nat
    /\ (exists q, HealthMetrics.goals_progress m = Fin q /\ q <= 1)
    /\ HealthMetrics.net_savings m
       = (HealthMetrics.total_income m - HealthMetrics.total_expense m)%js.
Proof.
  unfold Health.calculateMetrics. cbv zeta.
  match goal with
  | |- context [fold_left ?f (filter Budget.is_active budgets) ?a] =>
      pose proof (@fold_two_counters _ f (filter Budget.is_active budgets) a)
        as Hcount;
      destruct (fold_left f (filter Budget.is_active budgets) a)
        as [on_track exceeded]
  end.
  cbn [fst snd] in Hcount. rewrite Nat.add_0_l in Hcount.
  assert (Hc : (on_track + exceeded
                = length (filter Budget.is_active budgets))%nat).
  { apply Hcount. intros [a b] x. cbv zeta.
    destruct (_ <=? _)%js; cbn [fst snd]; lia. }
  clear Hcount.
  match goal with
  | |- context [Health.calculateDailyExpenses ?l] =>
      destruct (@calculateDailyExpenses_returns _ l) as [qs Hqs]
  end.
  { apply Forall_forall. intros t Ht.
    apply filter_In in Ht. destruct Ht as [Ht _].
    apply filter_In in Ht. destruct Ht as [_ Ht].
    exact (ge_valid_date _ _ Ht). }
  rewrite Hqs. cbn [bind].
  match goal with
  | |- context [bind (ML.analyzeTrend ?l) _] =>
      destruct (analyzeTrend_returns l) as [expenseTrend He]; rewrite He
  end.
  cbn [bind].
  match goal with
  | |- context [bind (ML.analyzeTrend ?l) _] =>
      destruct (analyzeTrend_returns l) as [incomeTrend Hi]; rewrite Hi
  end.
  cbn [bind].
  eexists. split; [reflexivity |].
  cbn [HealthMetrics.budgets_on_track HealthMetrics.budgets_exceeded
       HealthMetrics.budget_adherence_rate HealthMetrics.goals_on_track
       HealthMetrics.goals_progress HealthMetrics.net_savings
       HealthMetrics.total_income HealthMetrics.total_expense].
  split; [exact Hc |].
  split; [| split; [| split; [| reflexivity]]].
  - destruct (Nat.ltb_spec 0 (length (filter Budget.is_active budgets)))
      as [Hpos | _].
    + rewrite div_of_nat_of_nat by lia.
      eexists. split; [reflexivity |]. split.
      * apply Qle_shift_div_l; [apply of_nat_pos; lia |].
        rewrite Qmult_0_l. apply of_nat_nonneg.
      * apply Qle_shift_div_r; [apply of_nat_pos; lia |].
        rewrite Qmult_1_l. rewrite <- Zle_Qle. lia.
    + eexists. split; [reflexivity | lra].
  - match goal with
    | |- (fold_left ?f ?l 0%nat <= _)%nat =>
        pose proof (@fold_counter_le _ f l 0%nat) as Hg
    end.
    rewrite Nat.add_0_l in Hg. apply Hg. intros n g.
    destruct (negb _); [lia |]. cbv zeta. destruct (_ >=? _)%js; lia.
  - set (activeGoals := filter (fun g => negb (Goal.is_completed g)) goals).
    destruct (Nat.ltb_spec 0 (length activeGoals)) as [Hpos | _];
      [| eexists; split; [reflexivity | lra]].
    match goal with
    | |- context [fold_left (fun sum g => (sum + @?term g)%js) activeGoals (Fin 0)] =>
        destruct (@fold_add_bounded _ term activeGoals 0) as [q [Eq Hq]]
    end.
    { intros g. cbv beta. unfold JS.gt. cbn [JS.lt].
      destruct (Qle_bool (Goal.target_amount g) 0) eqn:Et; cbn [negb].
      - cbn. eexists. split; [reflexivity | lra].
      - cbn [JS.div].
        destruct (Qeq_bool (Goal.target_amount g) 0) eqn:E0.
        + apply Qeq_bool_iff in E0. apply Qle_bool_false in Et. lra.
        + unfold JS.Math_min. cbn [JS.lt].
          destruct (Qle_bool 1 _) eqn:E1; cbn [negb].
          * eexists. split; [reflexivity | lra].
          * apply Qle_bool_false in E1. eexists. split; [reflexivity | lra]. }
    cbv beta in Eq. rewrite Eq. rewrite div_of_nat_finite by lia.
    eexists. split; [reflexivity |].
    apply Qle_shift_div_r; [apply of_nat_pos; lia | lra].
Qed.


(** X16.  With fewer than three snapshots there is no quarter to compare
    with: [calculateComparison] gives vs_last_quarter the value of
    vs_last_month. *)
Theorem calculateComparison_short_history (currentScore : num)
  (snapshots : list HealthSnapshot.t) :
  (length snapshots < 3)%nat ->
  Health.vs_last_quarter (Health.calculateComparison currentScore snapshots)
  = Health.vs_last_month (Health.calculateComparison currentScore snapshots).
Proof.
  intros Hlen. unfold Health.calculateComparison.
  destruct snapshots as [| s snapshots]; [reflexivity |].
  cbv zeta. cbn [Health.vs_last_quarter Health.vs_last_month].
  match goal with
  | |- context [nth_error ?l 2] =>
      assert (Hnone : nth_error l 2 = None)
  end.
  { apply nth_error_None. rewrite sort_length_any. lia. }
  rewrite Hnone. reflexivity.
Qed.

End MetricsFacts.


(** X16, instance: one snapshot. *)
Lemma calculateComparison_short_history_witness :
  Health.vs_last_quarter
    (@Health.calculateComparison JSDate.utc_host 80
       [ {| HealthSnapshot.snapshot_date := U "2024-02-01";
            HealthSnapshot.overall_score := 70 |} ])
  = Health.vs_last_month
      (@Health.calculateComparison JSDate.utc_host 80
         [ {| HealthSnapshot.snapshot_date := U "2024-02-01";
              HealthSnapshot.overall_score := 70 |} ]).
Proof.
  apply (@calculateComparison_short_history JSDate.utc_host 80
           [ {| HealthSnapshot.snapshot_date := U "2024-02-01";
                HealthSnapshot.overall_score := 70 |} ]).
  cbn. lia.
Defined.

(** ** anomaly.ts *)

Lemma fold_throws {A B : Type} (step : completion B -> A -> completion B)
  (l : list A) (e : exception) :
  (forall x, step (Throw e) x = Throw e) ->
  fold_left step l (Throw e) = Throw e.
Proof.
  intros Hstep. induction l as [| x l IH]; cbn [fold_left]; [reflexivity |].
  rewrite Hstep. exact IH.
Qed.

Section AnomalyFacts.
Context {H : Host}.

Lemma detectHighAmount_type (t : Transaction.t) (history : list Transaction.t)
  (cfg : Anomaly.AnomalyDetectionConfig) (a : Anomaly.DetectedAnomaly) :
  Anomaly.detectHighAmount t history cfg = Some a ->
  Anomaly.type a = Anomaly.high_amount.
Proof.
  unfold Anomaly.detectHighAmount. cbv zeta.
  destruct (_ <? _)%js; [discriminate |].
  destruct (negb _); [discriminate |].
  intros E. injection E as <-. reflexivity.
Qed.

Lemma detectCategoryAnomaly_type (t : Transaction.t)
  (history : list Transaction.t) (cfg : Anomaly.AnomalyDetectionConfig)
  (a : Anomaly.DetectedAnomaly) :
  Anomaly.detectCategoryAnomaly t history cfg = Some a ->
  Anomaly.type a = Anomaly.unusual_category
  /\ Anomaly.severity a <> Anomaly.info.
Proof.
  unfold Anomaly.detectCategoryAnomaly. cbv zeta.
  destruct (_ <? _)%js; [discriminate |].
  destruct (negb _); [discriminate |].
  intros E. injection E as <-. cbn [Anomaly.type Anomaly.severity].
  split; [reflexivity |]. destruct (ML.severity _); discriminate.
Qed.

Lemma detectUnusualCategory_type (t : Transaction.t)
  (history : list Transaction.t) (cats : list Category.t)
  (cfg : Anomaly.AnomalyDetectionConfig) (a : Anomaly.DetectedAnomaly) :
  Anomaly.detectUnusualCategory t history cats cfg = Some a ->
  Anomaly.type a = Anomaly.new_merchant /\ Anomaly.severity a = Anomaly.info.
Proof.
  unfold Anomaly.detectUnusualCategory.
  destruct (Transaction.category_id t) as [[| c cs] |]; try discriminate.
  cbv zeta. destruct (_ && _); [| discriminate].
  intros E. injection E as <-. split; reflexivity.
Qed.

Lemma detectFrequencyAnomaly_type (t : Transaction.t)
  (history : list Transaction.t) (cfg : Anomaly.AnomalyDetectionConfig)
  (a : Anomaly.DetectedAnomaly) :
  Anomaly.detectFrequencyAnomaly t history cfg = Some a ->
  Anomaly.type a = Anomaly.frequency /\ Anomaly.severity a = Anomaly.warning.
Proof.
  unfold Anomaly.detectFrequencyAnomaly. cbv zeta.
  destruct (_ && _); [| discriminate].
  intros E. injection E as <-. split; reflexivity.
Qed.

(** X17.  [detectTransactionAnomalies] returns at most four anomalies,
    at most one of each type and in the order high_amount,
    unusual_category, new_merchant, frequency; a new_merchant anomaly
    has severity info, a frequency anomaly warning, an unusual_category
    anomaly warning or alert; a transaction that is not an expense gets
    none. *)
Theorem detectTransactionAnomalies_shape (now : Z) (transaction : Transaction.t)
  (historicalTransactions : list Transaction.t) (categories : list Category.t)
  (config : Anomaly.PartialConfig) :
  let anomalies :=
    Anomaly.detectTransactionAnomalies now transaction historicalTransactions
      categories config in
  (exists a b c d : bool,
      map Anomaly.type anomalies
      = (if a then [Anomaly.high_amount] else [])
        ++ (if b then [Anomaly.unusual_category] else [])
        ++ (if c then [Anomaly.new_merchant] else [])
        ++ (if d then [Anomaly.frequency] else []))
  /\ Forall severity_allowed anomalies
  /\ (TransactionType_eqb (Transaction.type transaction) expense = false ->
      anomalies = []).
Proof.
  cbv zeta. unfold Anomaly.detectTransactionAnomalies. cbv zeta.
  destruct (Transaction.type transaction); cbn [TransactionType_eqb];
    try (split; [exists false, false, false, false; reflexivity |];
         split; [constructor | reflexivity]).
  set (rh := Anomaly.relevantHistory _ _ _ _).
  destruct (Anomaly.detectHighAmount transaction rh _) as [a1 |] eqn:E1;
    [pose proof (detectHighAmount_type _ _ _ E1) as T1 |].
  all: destruct (if truthy (Transaction.category_id transaction)
                 then Anomaly.detectCategoryAnomaly transaction rh
                        (Anomaly.merge config)
                 else None) as [a2 |] eqn:E2;
    [assert (T2 : Anomaly.type a2 = Anomaly.unusual_category
                  /\ Anomaly.severity a2 <> Anomaly.info)
       by (destruct (truthy _); [| discriminate];
           exact (detectCategoryAnomaly_type _ _ _ E2)) |].
  all: destruct (Anomaly.detectUnusualCategory transaction rh categories _)
         as [a3 |] eqn:E3;
    [pose proof (detectUnusualCategory_type _ _ _ _ E3) as T3 |].
  all: destruct (Anomaly.detectFrequencyAnomaly transaction
                   historicalTransactions _) as [a4 |] eqn:E4;
    [pose proof (detectFrequencyAnomaly_type _ _ _ E4) as T4 |].
  all: cbn [Anomaly.to_list app map].
  all: repeat match goal with
         | T : _ /\ _ |- _ => destruct T
         end.
  all: split;
    [ repeat match goal with
             | T : Anomaly.type _ = _ |- _ => rewrite T; clear T
             end;
      match goal with
      | |- exists a b c d, ?l = _ =>
          exists (existsb (fun x => match x with Anomaly.high_amount => true | _ => false end) l),
                 (existsb (fun x => match x with Anomaly.unusual_category => true | _ => false end) l),
                 (existsb (fun x => match x with Anomaly.new_merchant => true | _ => false end) l),
                 (existsb (fun x => match x with Anomaly.frequency => true | _ => false end) l)
      end; reflexivity
    | split; [| discriminate];
      repeat constructor; unfold severity_allowed;
      repeat match goal with
             | T : Anomaly.type ?a = _ |- context [Anomaly.type ?a] => rewrite T
             end; try assumption; exact I ].
Qed.

Lemma bump_other (k k' : jsstring) (o : Tally.t) :
  Str.eqb k' k = false -> Obj.get k (Tally.bump k' o) = Obj.get k o.
Proof.
  intros E. unfold Tally.bump.
  destruct (Obj.get k' o) as [c |]; [rewrite Obj_get_set, E; reflexivity |].
  destruct (Proto.find k') as [[text |] |]; try reflexivity;
    rewrite Obj_get_set, E; reflexivity.
Qed.

(** The tally of [detectUnusualCategory] holds, for a category that
    names no member of [Object.prototype], the number of transactions
    of the history in that category. *)
Lemma categoryCounts_tally (k : jsstring) (history : list Transaction.t)
  (counts : Tally.t) (n : nat) :
  k <> [] -> Proto.member k = false ->
  Obj.get k counts
  = match n with O => None | S _ => Some (Tally.Count n) end ->
  Tally.read k
    (fold_left
       (fun counts t =>
          match Transaction.category_id t with
          | Some (c :: cs) => Tally.bump (c :: cs) counts
          | _ => counts
          end)
       history counts)
  = JS.of_nat
      (n + length
             (filter (fun t => opt_eqb (Transaction.category_id t) (Some k))
                history)).
Proof.
  intros Hk Hm. revert counts n.
  induction history as [| t history IH]; intros counts n Hn;
    cbn [fold_left filter].
  - rewrite Nat.add_0_r. unfold Tally.read. rewrite Hn, Hm.
    destruct n; reflexivity.
  - destruct (Transaction.category_id t) as [[| c cs] |] eqn:Ec;
      cbn [opt_eqb].
    + destruct k; [contradiction |]. cbn [Str.eqb]. apply IH, Hn.
    + destruct (Str.eqb (c :: cs) k) eqn:E.
      * apply Str_eqb_eq in E. subst k. cbn [length].
        rewrite <- Nat.add_succ_comm. apply IH.
        unfold Tally.bump. rewrite Hn. unfold Proto.member in Hm.
        destruct n as [| n'].
        -- destruct (Proto.find (c :: cs)); [discriminate |].
           rewrite Obj_get_set, Str_eqb_refl. reflexivity.
        -- rewrite Obj_get_set, Str_eqb_refl. reflexivity.
      * apply IH. rewrite (@bump_other _ _ _ E). exact Hn.
    + apply IH, Hn.
Qed.

(** Under the name of a member of [Object.prototype] the tally holds
    nothing, or a string. *)
Lemma categoryCounts_member (k : jsstring) (history : list Transaction.t)
  (counts : Tally.t) :
  Proto.member k = true ->
  (Obj.get k counts = None
   \/ exists x s, Obj.get k counts = Some (Tally.Text (x :: s))) ->
  Tally.read k
    (fold_left
       (fun counts t =>
          match Transaction.category_id t with
          | Some (c :: cs) => Tally.bump (c :: cs) counts
          | _ => counts
          end)
       history counts)
  = NaN.
Proof.
  intros Hm. revert counts.
  induction history as [| t history IH]; intros counts Hc; cbn [fold_left].
  - unfold Tally.read. destruct Hc as [-> | [x [s ->]]];
      [rewrite Hm |]; reflexivity.
  - apply IH.
    destruct (Transaction.category_id t) as [[| c cs] |]; try exact Hc.
    destruct (Str.eqb (c :: cs) k) eqn:E;
      [| rewrite (@bump_other _ _ _ E); exact Hc].
    apply Str_eqb_eq in E. subst k. unfold Tally.bump.
    destruct Hc as [Hc | [x [s Hc]]]; rewrite Hc.
    + assert (Hf : exists m, Proto.find (c :: cs) = Some m).
      { unfold Proto.member in Hm.
        destruct (Proto.find (c :: cs)) as [m |]; [| discriminate].
        exists m. reflexivity. }
      destruct Hf as [[text |] Hf]; rewrite Hf.
      * right. rewrite Obj_get_set, Str_eqb_refl.
        destruct text as [| y text]; eexists; eexists; reflexivity.
      * left. exact Hc.
    + right. rewrite Obj_get_set, Str_eqb_refl. cbn [Tally.succ app].
      eexists. eexists. reflexivity.
Qed.

(** X18.  [detectUnusualCategory] flags a transaction with a category
    exactly when the category names no member of [Object.prototype],
    the history holds more than 20 transactions and fewer than one in
    fifty of them is in that category. *)
Theorem detectUnusualCategory_rare (transaction : Transaction.t)
  (history : list Transaction.t) (categories : list Category.t)
  (config : Anomaly.AnomalyDetectionConfig) (c : N) (cs : jsstring) :
  Transaction.category_id transaction = Some (c :: cs) ->
  let used :=
    length
      (filter
         (fun t => opt_eqb (Transaction.category_id t) (Some (c :: cs)))
         history) in
  (exists a,
      Anomaly.detectUnusualCategory transaction history categories config
      = Some a)
  <-> Proto.member (c :: cs) = false
      /\ (20 < length history /\ 50 * used < length history)%nat.
Proof.
  intros Hc used. unfold Anomaly.detectUnusualCategory. rewrite Hc. cbv zeta.
  destruct (Proto.member (c :: cs)) eqn:Hm.
  { rewrite (@categoryCounts_member (c :: cs) history Obj.empty Hm)
      by (left; reflexivity).
    rewrite andb_false_r.
    split; [intros [a Ha]; discriminate | intros [Hf _]; discriminate]. }
  rewrite (@categoryCounts_tally (c :: cs) history Obj.empty 0)
    by (try discriminate; try exact Hm; reflexivity).
  cbn [Nat.add]. unfold JS.of_nat at 1, JS.of_Z.
  change (length
            (filter
               (fun t => opt_eqb (Transaction.category_id t) (Some (c :: cs)))
               history)) with used.
  clearbody used.
  set (q := inject_Z (Z.of_nat used)).
  assert (Hu50 : inject_Z (Z.of_nat (50 * used)) == 50 * q).
  { unfold q. rewrite Nat2Z.inj_mul, inject_Z_mult. reflexivity. }
  destruct (Nat.ltb_spec 20 (length history)) as [Hlen | Hlen]; cbn [andb].
  - rewrite div_of_nat_finite by lia. cbn [JS.lt].
    assert (Hpos : 0 < inject_Z (Z.of_nat (length history)))
      by (apply of_nat_pos; lia).
    destruct (Qle_bool 0.02 _) eqn:E; cbn [negb].
    + apply Qle_bool_iff in E.
      split; [intros [a Ha]; discriminate |].
      intros [_ [_ Hrare]]. exfalso.
      assert (Hq' : inject_Z (Z.of_nat (50 * used))
                    < inject_Z (Z.of_nat (length history))).
      { rewrite <- Zlt_Qlt. lia. }
      assert (Hdiv : q / inject_Z (Z.of_nat (length history)) < 0.02).
      { apply Qlt_shift_div_r; [exact Hpos | lra]. }
      lra.
    + apply Qle_bool_false in E.
      split; [| intros _; eexists; reflexivity].
      intros _. split; [reflexivity |]. split; [exact Hlen |].
      assert (Hmul : q < 0.02 * inject_Z (Z.of_nat (length history))).
      { pose proof (Qmult_lt_compat_r _ _ _ Hpos E) as Hmu.
        assert (Hs : q / inject_Z (Z.of_nat (length history))
                     * inject_Z (Z.of_nat (length history)) == q)
          by (field; lra).
        lra. }
      assert (Hq' : inject_Z (Z.of_nat (50 * used))
                    < inject_Z (Z.of_nat (length history))) by lra.
      rewrite <- Zlt_Qlt in Hq'. lia.
  - split; [intros [a Ha]; discriminate | intros [_ [Hgt _]]; lia].
Qed.

Lemma aggregateByDay_returns (transactions : list Transaction.t) :
  Forall valid_date transactions ->
  exists days, Anomaly.aggregateByDay transactions = Return days.
Proof.
  intros Hvalid. unfold Anomaly.aggregateByDay.
  match goal with |- context [fold_left ?f _ _] => set (step := f) end.
  assert (Hfold : forall byDay,
             exists byDay',
               fold_left step transactions (@Return (list (Z * num)) byDay)
               = Return byDay').
  { induction Hvalid as [| t ts Ht _ IH]; intros byDay.
    - exists byDay. reflexivity.
    - cbn [fold_left]. unfold step at 2. cbn [bind].
      unfold valid_date in Ht.
      destruct (JSDate.of_string (Transaction.date t)) as [z |] eqn:Ez;
        [| congruence].
      cbn [JSDate.toISODate bind]. apply IH. }
  match goal with
  | |- context [fold_left step transactions (Return ?i)] =>
      destruct (Hfold i) as [byDay' Hr]; rewrite Hr
  end.
  cbn [bind]. eexists. reflexivity.
Qed.

Lemma aggregateByDay_throws (transactions : list Transaction.t) :
  ~ Forall valid_date transactions ->
  Anomaly.aggregateByDay transactions
  = Throw (RangeError "Invalid time value").
Proof.
  intros Hinvalid. unfold Anomaly.aggregateByDay.
  match goal with |- context [fold_left ?f _ _] => set (step := f) end.
  assert (Hfold : forall byDay,
             fold_left step transactions (@Return (list (Z * num)) byDay)
             = Throw (RangeError "Invalid time value")).
  { induction transactions as [| t ts IH]; intros byDay.
    - exfalso. apply Hinvalid. constructor.
    - cbn [fold_left]. unfold step at 2. cbn [bind].
      destruct (JSDate.of_string (Transaction.date t)) as [z |] eqn:Ez.
      + cbn [JSDate.toISODate bind]. apply IH.
        intros Hts. apply Hinvalid. constructor; [| exact Hts].
        unfold valid_date. congruence.
      + cbn [JSDate.toISODate bind]. apply fold_throws.
        intros x. reflexivity. }
  match goal with
  | |- context [fold_left step transactions (Return ?i)] => rewrite (Hfold i)
  end.
  reflexivity.
Qed.

(** The two conditions on a list of expenses, as checks that run. *)
Lemma valid_dates_checked (l : list Transaction.t) :
  forallb
    (fun t =>
       match JSDate.of_string (Transaction.date t) with
       | Some _ => true
       | None => false
       end) l = true ->
  Forall valid_date l.
Proof.
  intros Hl. apply Forall_forall. intros t Ht.
  pose proof (proj1 (forallb_forall _ _) Hl t Ht) as Hd. cbv beta in Hd.
  unfold valid_date. destruct (JSDate.of_string (Transaction.date t));
    [discriminate | discriminate Hd].
Qed.

Lemma own_categories_checked (l : list Transaction.t) :
  forallb
    (fun t =>
       match Transaction.category_id t with
       | Some id => negb (Proto.member id)
       | None => true
       end) l = true
  <-> Forall own_category l.
Proof.
  rewrite forallb_forall, Forall_forall.
  split; intros Hl t Ht; specialize (Hl t Ht); unfold own_category in *;
    destruct (Transaction.category_id t) as [id |]; try reflexivity;
    try exact I; destruct (Proto.member id); try reflexivity;
    discriminate Hl.
Qed.

Lemma Obj_get_member {V : Type} (k : jsstring) (o : Obj.t V) :
  Forall (fun k' => Proto.member k' = false) (map fst o) ->
  Proto.member k = true -> Obj.get k o = None.
Proof.
  intros Ho Hk. induction o as [| [k1 v1] o IH]; cbn [Obj.get];
    [reflexivity |].
  cbn [map fst] in Ho. inversion Ho as [| ? ? H1 Ho']; subst.
  destruct (Str.eqb k1 k) eqn:E; [| exact (IH Ho')].
  apply Str_eqb_eq in E. subst k1. congruence.
Qed.

Lemma own_category_key (t : Transaction.t) :
  own_category t
  <-> Proto.member
        match Transaction.category_id t with
        | Some (c :: cs) => c :: cs
        | _ => U "uncategorized"
        end = false.
Proof.
  unfold own_category.
  destruct (Transaction.category_id t) as [[| c cs] |]; split; intros Ht;
    try reflexivity; try exact Ht; exact I.
Qed.

(** [groupByCategory] returns when no category names a member of
    [Object.prototype], and throws a TypeError at the first one that
    does. *)
Lemma groupByCategory_completion (transactions : list Transaction.t) :
  (Forall own_category transactions ->
   exists groups, Anomaly.groupByCategory transactions = Return groups)
  /\ (~ Forall own_category transactions ->
      exists message,
        Anomaly.groupByCategory transactions = Throw (TypeError message)).
Proof.
  unfold Anomaly.groupByCategory.
  match goal with |- context [fold_left ?f _ _] => set (step := f) end.
  assert (Hgen : forall txs acc,
             Forall (fun k => Proto.member k = false) (map fst acc) ->
             (Forall own_category txs ->
              exists groups, fold_left step txs (Return acc) = Return groups)
             /\ (~ Forall own_category txs ->
                 exists message,
                   fold_left step txs (Return acc)
                   = Throw (TypeError message))).
  { induction txs as [| t ts IH]; intros acc Hacc.
    - split; [intros _; exists acc; reflexivity |].
      intros Hn. exfalso. apply Hn. constructor.
    - cbn [fold_left]. unfold step at 2 4. cbn [bind]. cbv zeta.
      pose proof (own_category_key t) as Hkey.
      set (key := match Transaction.category_id t with
                  | Some (c :: cs) => c :: cs
                  | _ => U "uncategorized"
                  end) in *.
      destruct (Proto.member key) eqn:Hk.
      + rewrite (@Obj_get_member _ _ _ Hacc Hk). try rewrite (@Obj_get_member _ _ _ Hacc Hk).
        split.
        * intros Hall. inversion Hall as [| ? ? Ht _]; subst.
          apply Hkey in Ht. discriminate Ht.
        * intros _. eexists. apply fold_throws. intros x. reflexivity.
      + assert (Ht : own_category t) by (apply Hkey; reflexivity).
        assert (Hrest : (~ Forall own_category (t :: ts))
                        -> ~ Forall own_category ts).
        { intros Hn Hts. apply Hn. constructor; assumption. }
        destruct (Obj.get key acc) as [group |] eqn:Eg.
        * rewrite Eg.
          destruct (IH (Obj.set key (group ++ [t]) acc)) as [IH1 IH2].
          { apply Obj_set_keys_Forall; assumption. }
          split; [intros Hall; inversion Hall; subst; apply IH1; assumption |].
          intros Hn. apply IH2, Hrest, Hn.
        * rewrite Obj_get_set, Str_eqb_refl.
          destruct (IH (Obj.set key ([] ++ [t]) (Obj.set key [] acc)))
            as [IH1 IH2].
          { apply Obj_set_keys_Forall; [exact Hk |].
            apply Obj_set_keys_Forall; assumption. }
          split; [intros Hall; inversion Hall; subst; apply IH1; assumption |].
          intros Hn. apply IH2, Hrest, Hn. }
  apply Hgen. constructor.
Qed.

(** X19.  [analyzeSpendingPatterns] answers "not enough data" when the
    expenses are fewer than min_transactions, whatever they are.
    Otherwise it throws a TypeError when the category of some expense
    names a member of [Object.prototype]; when none does, it returns
    (at most two trend anomalies, all of type frequency, and category
    anomalies of type unusual_category) if every expense has a valid
    date, and throws a RangeError if one expense has an invalid
    date. *)
Theorem analyzeSpendingPatterns_completion (transactions : list Transaction.t)
  (config : Anomaly.PartialConfig) :
  let expenses :=
    filter (fun t => TransactionType_eqb (Transaction.type t) expense)
      transactions in
  let few :=
    (JS.of_nat (length expenses)
     <? Anomaly.min_transactions (Anomaly.merge config))%js in
  (few = true ->
   Anomaly.analyzeSpendingPatterns transactions config
   = Return {| Anomaly.categoryAnomalies := [];
               Anomaly.trendAnomalies := [];
               Anomaly.overallAssessment := U "Недостаточно данных для анализа" |})
  /\ (few = false -> ~ Forall own_category expenses ->
      exists message,
        Anomaly.analyzeSpendingPatterns transactions config
        = Throw (TypeError message))
  /\ (few = false -> Forall own_category expenses ->
      Forall valid_date expenses ->
      exists p,
        Anomaly.analyzeSpendingPatterns transactions config = Return p
        /\ (length (Anomaly.trendAnomalies p) <= 2)%nat
        /\ Forall (fun a => Anomaly.type a = Anomaly.unusual_category)
             (Anomaly.categoryAnomalies p)
        /\ Forall (fun a => Anomaly.type a = Anomaly.frequency)
             (Anomaly.trendAnomalies p))
  /\ (few = false -> Forall own_category expenses ->
      ~ Forall valid_date expenses ->
      Anomaly.analyzeSpendingPatterns transactions config
      = Throw (RangeError "Invalid time value")).
Proof.
  cbv zeta. unfold Anomaly.analyzeSpendingPatterns. cbv zeta.
  set (expenses := filter _ transactions).
  destruct (_ <? _)%js.
  - split; [reflexivity |]. repeat split; discriminate.
  - split; [discriminate |].
    destruct (groupByCategory_completion expenses) as [Hreturns Hthrows].
    match goal with
    | |- context [bind (Anomaly.groupByCategory expenses) ?k] =>
        set (rest := k)
    end.
    assert (Hgood : forall byCategory,
              (Forall valid_date expenses ->
               exists p,
                 rest byCategory = Return p
                 /\ (length (Anomaly.trendAnomalies p) <= 2)%nat
                 /\ Forall (fun a => Anomaly.type a = Anomaly.unusual_category)
                      (Anomaly.categoryAnomalies p)
                 /\ Forall (fun a => Anomaly.type a = Anomaly.frequency)
                      (Anomaly.trendAnomalies p))
              /\ (~ Forall valid_date expenses ->
                  rest byCategory = Throw (RangeError "Invalid time value"))).
    2: { split; [| split].
         - intros _ Hbad. destruct (Hthrows Hbad) as [message Hg].
           exists message. rewrite Hg. reflexivity.
         - intros _ Hown. destruct (Hreturns Hown) as [byCategory Hg].
           rewrite Hg. cbn [bind]. apply Hgood.
         - intros _ Hown. destruct (Hreturns Hown) as [byCategory Hg].
           rewrite Hg. cbn [bind]. apply Hgood. }
    intros byCategory. subst rest. cbv beta.
    match goal with
    | |- context [fold_left ?f (Obj.entries ?o) (Return [])] =>
        set (step := f); set (entries := Obj.entries o)
    end.
    assert (Hcat : forall acc,
               Forall (fun a => Anomaly.type a = Anomaly.unusual_category) acc ->
               exists acc',
                 fold_left step entries (Return acc) = Return acc'
                 /\ Forall (fun a => Anomaly.type a = Anomaly.unusual_category)
                      acc').
    { induction entries as [| [categoryId categoryTransactions] entries IH];
        intros acc Hacc; cbn [fold_left].
      - exists acc. split; [reflexivity | exact Hacc].
      - unfold step at 2. cbn [bind].
        destruct (analyzeTrend_returns
                    (map (fun t => Fin (Transaction.amount t))
                       categoryTransactions)) as [trend Ht].
        rewrite Ht. cbn [bind].
        destruct (ML.direction trend); try (apply IH; exact Hacc).
        destruct (_ >? _)%js; apply IH; [| exact Hacc].
        apply Forall_app. split; [exact Hacc |].
        constructor; [reflexivity | constructor]. }
    destruct (Hcat [] (Forall_nil _)) as [categoryAnomalies [Ec Hc]].
    rewrite Ec. cbn [bind].
    split.
    + intros Hvalid.
      destruct (aggregateByDay_returns Hvalid) as [days Hd]. rewrite Hd.
      cbn [bind].
      destruct (analyzeTrend_returns (map snd days)) as [overallTrend Ho].
      rewrite Ho. cbn [bind].
      eexists. split; [reflexivity |].
      cbn [Anomaly.trendAnomalies Anomaly.categoryAnomalies].
      split; [| split; [exact Hc |]].
      * rewrite length_app.
        destruct (ML.direction overallTrend);
          repeat match goal with
                 | |- context [if ?c then _ else _] => destruct c
                 end; cbn [length]; lia.
      * apply Forall_app. split.
        -- destruct (ML.direction overallTrend); try constructor.
           destruct (_ >? _)%js; repeat constructor.
        -- destruct (_ >? _)%js; repeat constructor.
    + intros Hinvalid. rewrite (aggregateByDay_throws Hinvalid). reflexivity.
Qed.

End AnomalyFacts.

(** X18, instance: a first purchase in a category after twenty-one
    purchases in another is flagged; it is not when its category is
    [constructor]. *)
Lemma detectUnusualCategory_rare_witness :
  (exists a,
      Anomaly.detectUnusualCategory Sample.rare_category_purchase
        Sample.usual_category_history [] Anomaly.DEFAULT_CONFIG = Some a)
  /\ Anomaly.detectUnusualCategory Sample.builtin_purchase
       Sample.usual_category_history [] Anomaly.DEFAULT_CONFIG = None.
Proof.
  split.
  - apply (proj2 (@detectUnusualCategory_rare
                    Sample.rare_category_purchase
                    Sample.usual_category_history
                    [] Anomaly.DEFAULT_CONFIG 99%N (U "at-2") eq_refl)).
    split; [reflexivity |]. vm_compute. split; lia.
  - destruct (Anomaly.detectUnusualCategory Sample.builtin_purchase
                Sample.usual_category_history [] Anomaly.DEFAULT_CONFIG)
      as [a |] eqn:E; [| reflexivity].
    destruct (proj1 (@detectUnusualCategory_rare
                       Sample.builtin_purchase Sample.usual_category_history
                       [] Anomaly.DEFAULT_CONFIG 99%N (U "onstructor") eq_refl)
                (ex_intro _ a E)) as [Hmember _].
    discriminate Hmember.
Defined.

(** X19, instance: twenty-one expenses in one category are analysed;
    with one more, filed under [constructor], the call throws. *)
Lemma analyzeSpendingPatterns_completion_witness :
  (exists p,
      Anomaly.analyzeSpendingPatterns (H := JSDate.utc_host)
        Sample.usual_category_history Anomaly.no_config = Return p
      /\ (length (Anomaly.trendAnomalies p) <= 2)%nat
      /\ Forall (fun a => Anomaly.type a = Anomaly.unusual_category)
           (Anomaly.categoryAnomalies p)
      /\ Forall (fun a => Anomaly.type a = Anomaly.frequency)
           (Anomaly.trendAnomalies p))
  /\ exists message,
       Anomaly.analyzeSpendingPatterns (H := JSDate.utc_host)
         Sample.builtin_expenses Anomaly.no_config
       = Throw (TypeError message).
Proof.
  split.
  - destruct (@analyzeSpendingPatterns_completion JSDate.utc_host
                Sample.usual_category_history Anomaly.no_config)
      as [_ [_ [Hreturns _]]].
    apply Hreturns.
    + vm_compute. reflexivity.
    + apply own_categories_checked. vm_compute. reflexivity.
    + apply valid_dates_checked. vm_compute. reflexivity.
  - destruct (@analyzeSpendingPatterns_completion JSDate.utc_host
                Sample.builtin_expenses Anomaly.no_config)
      as [_ [Hthrows _]].
    apply Hthrows.
    + vm_compute. reflexivity.
    + intros Hall. apply own_categories_checked in Hall.
      vm_compute in Hall. discriminate Hall.
Defined.

(** ** analytics.ts *)



Section AnalyticsFacts.
Import Analytics.






End AnalyticsFacts.



(** ** autocategory.ts: normalized text *)

Section TextFacts.
Import AutoCategory.

Lemma letter_or_digit_range (c : N) :
  letter_or_digit c = true
  <-> (97 <= c <= 122 \/ 1072 <= c <= 1103 \/ 48 <= c <= 57)%N.
Proof.
  unfold letter_or_digit.
  rewrite !orb_true_iff, !andb_true_iff, !N.leb_le. tauto.
Qed.

(** Decide the comparisons of the goal one by one, leaving the cases
    the hypotheses allow. *)
Ltac n_cases :=
  repeat match goal with
  | |- context [(?a <=? ?b)%N] => destruct (N.leb_spec a b); try lia
  | |- context [(?a =? ?b)%N] => destruct (N.eqb_spec a b); try lia
  end; cbn [andb orb negb]; try reflexivity.

Lemma kept_cases (c : N) :
  kept c = true -> letter_or_digit c = true \/ Str.is_space c = true.
Proof.
  unfold kept. fold (letter_or_digit c). intros Hc.
  apply orb_true_iff in Hc. exact Hc.
Qed.

Lemma space_32 : Str.is_space 32 = true.
Proof.
  reflexivity.
Qed.

Lemma trim_start_no_lead (s : jsstring) : no_lead (Str.trim_start s).
Proof.
  induction s as [| c s IH]; cbn [Str.trim_start]; [exact I |].
  destruct (Str.is_space c) eqn:E; [exact IH | exact E].
Qed.

Lemma trim_start_fixed (s : jsstring) : no_lead s -> Str.trim_start s = s.
Proof.
  destruct s as [| c s]; cbn [no_lead Str.trim_start]; [reflexivity |].
  intros ->. reflexivity.
Qed.

Lemma trim_start_app (a b : jsstring) :
  Str.trim_start (a ++ b)
  = match Str.trim_start a with
    | [] => Str.trim_start b
    | r => r ++ b
    end.
Proof.
  induction a as [| c a IH]; cbn [app Str.trim_start]; [reflexivity |].
  destruct (Str.is_space c); [exact IH | reflexivity].
Qed.

Lemma trim_end_rev (s : jsstring) :
  rev (Str.trim_start (rev s)) = trim_end s.
Proof.
  induction s as [| c s IH]; [reflexivity |].
  cbn [rev trim_end]. rewrite trim_start_app, <- IH.
  destruct (Str.trim_start (rev s)) as [| x r] eqn:E.
  - cbn [rev Str.trim_start]. destruct (Str.is_space c); reflexivity.
  - rewrite rev_app_distr. cbn [rev app].
    destruct (rev r ++ [x]) eqn:E'; [| reflexivity].
    destruct (rev r); discriminate.
Qed.

Lemma trim_trim_end (s : jsstring) : Str.trim s = trim_end (Str.trim_start s).
Proof.
  unfold Str.trim. apply trim_end_rev.
Qed.

Lemma trim_end_no_lead (s : jsstring) : no_lead s -> no_lead (trim_end s).
Proof.
  destruct s as [| c s]; cbn [no_lead trim_end]; [tauto |].
  intros E. rewrite E. destruct (trim_end s); exact E.
Qed.

Lemma trim_end_idempotent (s : jsstring) : trim_end (trim_end s) = trim_end s.
Proof.
  induction s as [| c s IH]; [reflexivity |]. cbn [trim_end].
  destruct (trim_end s) as [| x r] eqn:E.
  - destruct (Str.is_space c) eqn:Ec; [reflexivity |].
    cbn [trim_end]. rewrite Ec. reflexivity.
  - cbn [trim_end]. cbn [trim_end] in IH. rewrite IH. reflexivity.
Qed.

Lemma trim_idempotent (s : jsstring) : Str.trim (Str.trim s) = Str.trim s.
Proof.
  rewrite !trim_trim_end.
  rewrite (@trim_start_fixed _ (@trim_end_no_lead _ (trim_start_no_lead s))).
  apply trim_end_idempotent.
Qed.

Lemma collapse_single_spaced (b : bool) (s : jsstring) :
  single_spaced b (collapse b s) = true.
Proof.
  revert b. induction s as [| c s IH]; intros b; cbn [collapse]; [reflexivity |].
  destruct (Str.is_space c) eqn:E.
  - destruct b; [apply IH |]. cbn [single_spaced]. rewrite space_32.
    cbn. apply IH.
  - cbn [single_spaced]. rewrite E. apply IH.
Qed.

Lemma collapse_fixed (b : bool) (s : jsstring) :
  single_spaced b s = true -> collapse b s = s.
Proof.
  revert b. induction s as [| c s IH]; intros b; cbn [collapse single_spaced];
    [reflexivity |].
  destruct (Str.is_space c) eqn:E.
  - rewrite !andb_true_iff, negb_true_iff, N.eqb_eq.
    intros [[-> ->] Hs]. rewrite (IH true Hs). reflexivity.
  - intros Hs. rewrite (IH false Hs). reflexivity.
Qed.

Lemma single_spaced_trim_start (b : bool) (s : jsstring) :
  single_spaced b s = true -> single_spaced false (Str.trim_start s) = true.
Proof.
  revert b. induction s as [| c s IH]; intros b;
    cbn [single_spaced Str.trim_start]; [reflexivity |].
  destruct (Str.is_space c) eqn:E.
  - rewrite !andb_true_iff. intros [_ Hs]. exact (IH true Hs).
  - intros Hs. cbn [single_spaced]. rewrite E. exact Hs.
Qed.

Lemma single_spaced_trim_end (b : bool) (s : jsstring) :
  single_spaced b s = true -> single_spaced b (trim_end s) = true.
Proof.
  revert b. induction s as [| c s IH]; intros b; cbn [single_spaced trim_end];
    [reflexivity |].
  destruct (Str.is_space c) eqn:E.
  - rewrite !andb_true_iff. intros [[Hc Hb] Hs].
    specialize (IH true Hs).
    destruct (trim_end s) as [| x r]; [reflexivity |].
    cbn [single_spaced]. rewrite E. cbn [single_spaced] in IH.
    rewrite Hc, Hb, IH. reflexivity.
  - intros Hs. specialize (IH false Hs).
    destruct (trim_end s) as [| x r]; cbn [single_spaced]; rewrite E;
      [reflexivity | exact IH].
Qed.

Lemma Forall_trim_start (P : N -> Prop) (s : jsstring) :
  Forall P s -> Forall P (Str.trim_start s).
Proof.
  induction 1 as [| c s Hc Hs IH]; cbn [Str.trim_start]; [constructor |].
  destruct (Str.is_space c); [exact IH | constructor; assumption].
Qed.

Lemma Forall_trim (P : N -> Prop) (s : jsstring) :
  Forall P s -> Forall P (Str.trim s).
Proof.
  intros Hs. unfold Str.trim.
  apply Forall_rev, Forall_trim_start, Forall_rev, Forall_trim_start, Hs.
Qed.

Lemma Forall_collapse (b : bool) (s : jsstring) :
  Forall (fun c => kept c = true) s -> Forall normal_unit (collapse b s).
Proof.
  intros Hs. revert b. induction Hs as [| c s Hc _ IH]; intros b;
    cbn [collapse]; [constructor |].
  destruct (Str.is_space c) eqn:E.
  - destruct b; [apply IH |]. constructor; [right; reflexivity | apply IH].
  - constructor; [| apply IH].
    destruct (kept_cases c Hc) as [Hl | Hsp]; [left; exact Hl | congruence].
Qed.

Lemma blanked_kept (s : jsstring) :
  Forall (fun c => kept c = true) (map (fun c => if kept c then c else 32%N) s).
Proof.
  apply Forall_forall. intros c Hc. apply in_map_iff in Hc.
  destruct Hc as [x [<- _]]. destruct (kept x) eqn:E; [exact E | reflexivity].
Qed.

Lemma normalizeText_alphabet (text : jsstring) :
  Forall normal_unit (normalizeText text).
Proof.
  unfold normalizeText. apply Forall_trim, Forall_collapse, blanked_kept.
Qed.

Lemma normal_unit_kept (c : N) : normal_unit c -> kept c = true.
Proof.
  intros [Hc | ->]; [| reflexivity].
  unfold kept. fold (letter_or_digit c). rewrite Hc. reflexivity.
Qed.

Lemma normal_unit_lower (c : N) : normal_unit c -> toLowerCase_unit c = [c].
Proof.
  unfold toLowerCase_unit.
  intros [Hc | ->]; [| reflexivity]. apply letter_or_digit_range in Hc. n_cases.
Qed.

Lemma normal_unit_yo (c : N) : normal_unit c -> (c =? 1105)%N = false.
Proof.
  intros [Hc | ->]; [| reflexivity]. apply letter_or_digit_range in Hc. n_cases.
Qed.

Lemma normal_maps_fixed (s : jsstring) :
  Forall normal_unit s ->
  map (fun c => if kept c then c else 32%N)
    (map (fun c => if (c =? 1105)%N then 1077%N else c) (toLowerCase s)) = s.
Proof.
  unfold toLowerCase.
  induction 1 as [| c s Hc _ IH]; [reflexivity |].
  cbn [flat_map]. rewrite (normal_unit_lower Hc). cbn [app map].
  rewrite (normal_unit_yo Hc), (normal_unit_kept Hc), IH. reflexivity.
Qed.

(** X22.  [normalizeText] is idempotent, and its result is made of small
    Latin and Cyrillic letters, digits and single spaces, with no space
    at either end. *)
Theorem normalizeText_idempotent (text : jsstring) :
  let normalized := normalizeText text in
  normalizeText normalized = normalized
  /\ Forall normal_unit normalized
  /\ single_spaced false normalized = true
  /\ Str.trim normalized = normalized.
Proof.
  cbv zeta.
  assert (Hs : single_spaced false (normalizeText text) = true).
  { unfold normalizeText. rewrite trim_trim_end.
    apply single_spaced_trim_end.
    apply (@single_spaced_trim_start false), collapse_single_spaced. }
  assert (Ht : Str.trim (normalizeText text) = normalizeText text).
  { unfold normalizeText. apply trim_idempotent. }
  pose proof (normalizeText_alphabet text) as Ha.
  split; [| split; [exact Ha | split; [exact Hs | exact Ht]]].
  unfold normalizeText at 1.
  rewrite (normal_maps_fixed Ha), (collapse_fixed _ _ Hs). exact Ht.
Qed.

Lemma normal_unit_token (c : N) : normal_unit c -> tokenize [c] = [Lit c].
Proof.
  unfold tokenize. cbn [map].
  intros [Hc | ->]; [| reflexivity]. apply letter_or_digit_range in Hc. n_cases.
Qed.

Lemma tokenize_normal (p : jsstring) :
  Forall normal_unit p -> tokenize p = map Lit p.
Proof.
  induction 1 as [| c p Hc _ IH]; [reflexivity |].
  change (tokenize (c :: p)) with (tokenize [c] ++ tokenize p).
  rewrite (normal_unit_token Hc), IH. reflexivity.
Qed.

Lemma canonicalize_value (c : N) :
  normal_unit c ->
  canonicalize c
  = if ((48 <=? c) && (c <=? 57) || (c =? 32))%N then c else (c - 32)%N.
Proof.
  unfold canonicalize.
  intros [Hc | ->]; [| reflexivity]. apply letter_or_digit_range in Hc. n_cases.
Qed.

Lemma canonicalize_normal (c p : N) :
  normal_unit c -> normal_unit p ->
  (canonicalize c =? canonicalize p)%N = (p =? c)%N.
Proof.
  intros Hc Hp. rewrite (canonicalize_value Hc), (canonicalize_value Hp).
  destruct Hc as [Hc | ->], Hp as [Hp | ->];
    try apply letter_or_digit_range in Hc;
    try apply letter_or_digit_range in Hp;
    repeat match goal with
    | |- context [(?a <=? ?b)%N] => destruct (N.leb_spec a b); try lia
    | |- context [(?a =? 32)%N] => destruct (N.eqb_spec a 32); try lia
    end; cbn [andb orb]; n_cases.
Qed.

Lemma match_here_literal (p text : jsstring) :
  Forall normal_unit p -> Forall normal_unit text ->
  match_here (map Lit p) text = Str.starts_with p text.
Proof.
  intros Hp. revert text. induction Hp as [| x p Hx _ IH]; intros text Ht;
    [reflexivity |].
  cbn [map match_here Str.starts_with].
  destruct Ht as [| c text Hc Ht]; [reflexivity |].
  rewrite (canonicalize_normal Hc Hx), (IH text Ht). reflexivity.
Qed.

Lemma search_literal (p text : jsstring) :
  Forall normal_unit p -> Forall normal_unit text ->
  search (map Lit p) text = Str.includes text p.
Proof.
  intros Hp Ht. induction Ht as [| c text Hc Ht IH].
  - cbn [search Str.includes]. rewrite match_here_literal by (constructor || assumption).
    reflexivity.
  - cbn [search Str.includes].
    rewrite match_here_literal by (try assumption; constructor; assumption).
    rewrite IH. reflexivity.
Qed.

Lemma matchesPattern_includes (text pattern : jsstring) :
  matchesPattern (normalizeText text) (normalizeText pattern)
  = Str.includes (normalizeText text) (normalizeText pattern).
Proof.
  unfold matchesPattern.
  rewrite (tokenize_normal (normalizeText_alphabet pattern)).
  apply search_literal; apply normalizeText_alphabet.
Qed.

(** X23.  On normalized operands a pattern is a plain substring:
    [matchesPattern] of a normalized text and a normalized pattern is
    [includes]; no wildcard or case folding is left. *)
Theorem matchesPattern_normalized (text pattern : jsstring) :
  matchesPattern (normalizeText text) (normalizeText pattern)
  = Str.includes (normalizeText text) (normalizeText pattern).
Proof.
  apply matchesPattern_includes.
Qed.

Lemma intersection_sym (bigramsA bigramsB : list bigram) :
  NoDup bigramsA -> NoDup bigramsB ->
  length (filter (set_has bigramsB) bigramsA)
  = length (filter (set_has bigramsA) bigramsB).
Proof.
  intros HA HB. apply Permutation_length. apply NoDup_Permutation.
  - apply NoDup_filter, HA.
  - apply NoDup_filter, HB.
  - intros x. rewrite !filter_In, !set_has_In. tauto.
Qed.

Lemma bigrams_from_grows (a : jsstring) (acc : list bigram) :
  (length acc <= length (bigrams_from acc a))%nat.
Proof.
  revert acc. induction a as [| x a IH]; intros acc; [apply Nat.le_refl |].
  destruct a as [| y a']; [apply Nat.le_refl |].
  change (length acc <= length (bigrams_from (set_add acc (x, y)) (y :: a')))%nat.
  eapply Nat.le_trans; [| apply IH].
  unfold set_add. destruct (set_has acc (x, y)); [apply Nat.le_refl |].
  rewrite length_app. cbn. lia.
Qed.

Lemma bigrams_nonempty (a : jsstring) :
  (2 <= length a)%nat -> (1 <= length (bigrams a))%nat.
Proof.
  destruct a as [| x [| y a]]; cbn [length]; try lia. intros _.
  unfold bigrams.
  change (bigrams_from [] (x :: y :: a))
    with (bigrams_from (set_add [] (x, y)) (y :: a)).
  eapply Nat.le_trans; [| apply bigrams_from_grows]. cbn. lia.
Qed.

(** X24.  [calculateSimilarity] and [areSimilar] are symmetric, and the
    similarity is a finite number in [0, 1] except for two different
    strings of one character each, where it is NaN. *)
Theorem calculateSimilarity_symmetric (a b : jsstring) :
  calculateSimilarity a b = calculateSimilarity b a
  /\ (forall threshold, areSimilar a b threshold = areSimilar b a threshold)
  /\ (calculateSimilarity a b = NaN
      /\ a <> b /\ length a = 1%nat /\ length b = 1%nat
      \/ finite_in 0 1 (calculateSimilarity a b)).
Proof.
  assert (Hs : calculateSimilarity a b = calculateSimilarity b a).
  { unfold calculateSimilarity. rewrite (Str_eqb_sym a b).
    destruct (Str.eqb b a); [reflexivity |].
    rewrite (orb_comm (length a =? 0)%nat).
    destruct ((length b =? 0)%nat || (length a =? 0)%nat); [reflexivity |].
    rewrite (@intersection_sym (bigrams a) (bigrams b))
      by (apply bigrams_from_NoDup, NoDup_nil).
    rewrite (Nat.add_comm (length (bigrams a))). reflexivity. }
  split; [exact Hs |]. split.
  { intros threshold. unfold areSimilar.
    rewrite Hs, (orb_comm (Str.includes a b)). reflexivity. }
  unfold calculateSimilarity.
  destruct (Str.eqb a b) eqn:Eab;
    [right; eexists; split; [reflexivity | lra] |].
  destruct (Nat.eqb_spec (length a) 0) as [Ha | Ha]; cbn [orb];
    [right; eexists; split; [reflexivity | lra] |].
  destruct (Nat.eqb_spec (length b) 0) as [Hb | Hb];
    [right; eexists; split; [reflexivity | lra] |].
  pose proof (@intersection_le (bigrams a) (bigrams b)
                (bigrams_from_NoDup a (NoDup_nil _))) as Hle.
  destruct (le_lt_dec 2 (length a)) as [Ha2 | Ha1];
    [pose proof (bigrams_nonempty a Ha2) |];
    (destruct (le_lt_dec 2 (length b)) as [Hb2 | Hb1];
     [pose proof (bigrams_nonempty b Hb2) |]).
  4: { left. assert (La : length a = 1%nat) by lia.
       assert (Lb : length b = 1%nat) by lia.
       split; [| split; [| split; assumption]].
       - destruct a as [| x [| ? ?]]; try discriminate La.
         destruct b as [| y [| ? ?]]; try discriminate Lb.
         reflexivity.
       - intros E. apply Str_eqb_eq in E. congruence. }
  all: right; rewrite div_of_nat_of_nat by lia;
    eexists; (split; [reflexivity |]); split;
    [ apply Qle_shift_div_l; [apply of_nat_pos; lia |];
      rewrite Qmult_0_l; apply of_nat_nonneg
    | apply Qle_shift_div_r; [apply of_nat_pos; lia |];
      rewrite Qmult_1_l; rewrite <- Zle_Qle; lia ].
Qed.

(** ** autocategory.ts: predictions *)

Lemma ruleMatches_names (nd : jsstring) (cats : list Category.t)
  (rules : list CategoryRule.t) :
  Forall (names_category cats) (ruleMatches nd cats rules).
Proof.
  induction rules as [| rule rules IH]; cbn [ruleMatches]; [constructor |].
  destruct (matchesPattern nd (CategoryRule.pattern rule)); [| exact IH].
  destruct (findCategory (CategoryRule.category_id rule) cats) as [c |] eqn:Ec;
    [| exact IH].
  destruct (findCategory_id _ _ Ec) as [Hin _].
  constructor; [| constructor]. exists c. repeat split. exact Hin.
Qed.

Lemma keywordMatches_names (nd : jsstring) (cats : list Category.t) :
  Forall (names_category cats) (keywordMatches nd cats).
Proof.
  unfold keywordMatches. apply Forall_forall. intros m Hm.
  apply in_flat_map in Hm. destruct Hm as [c [Hc Hm]].
  destruct (Arr.find _ (Category.keywords c)); [| destruct Hm].
  destruct Hm as [<- | []]. exists c. repeat split. exact Hc.
Qed.

Lemma defaultMatches_names (nd : jsstring) (cats : list Category.t)
  (matches : list MatchResult) :
  Forall (names_category cats) matches ->
  Forall (names_category cats) (defaultMatches nd cats matches).
Proof.
  unfold defaultMatches. generalize DEFAULT_KEYWORDS. intros table.
  revert matches. induction table as [| [categoryName keywords] table IH];
    intros matches Hm; cbn [fold_left]; [exact Hm |].
  apply IH.
  destruct (Arr.find _ keywords); [| exact Hm].
  destruct (Arr.find _ cats) as [c |] eqn:Ec; [| exact Hm].
  destruct (existsb _ matches); [exact Hm |].
  apply Forall_app. split; [exact Hm |].
  constructor; [| constructor].
  exists c. repeat split. unfold Arr.find in Ec. apply find_some in Ec.
  exact (proj1 Ec).
Qed.

Lemma findHistoricalMatch_names (description : jsstring)
  (transactions : list Transaction.t) (cats : list Category.t)
  (m : MatchResult) :
  findHistoricalMatch description transactions cats = Some m ->
  names_category cats m.
Proof.
  unfold findHistoricalMatch.
  match goal with
  | |- context [fold_left ?f (flat_map ?g ?l) ?init] =>
      destruct (fold_left f (flat_map g l) init)
        as [[[bestId bestCount] |] totalCount]
  end; [| discriminate].
  destruct (Tally.below bestCount 2); [discriminate |].
  destruct (findCategory bestId cats) as [c |] eqn:Ec; [| discriminate].
  intros Hm. injection Hm as <-.
  destruct (findCategory_id _ _ Ec) as [Hin _].
  exists c. repeat split. exact Hin.
Qed.

Lemma fuzzyMatchCategory_names (description : jsstring)
  (cats : list Category.t) (m : MatchResult) :
  fuzzyMatchCategory description cats = Some m -> names_category cats m.
Proof.
  unfold fuzzyMatchCategory.
  match goal with |- context [fold_left ?f cats None] => set (step := f) end.
  assert (Hinv : forall cs acc,
             incl cs cats ->
             match acc with Some (c, _) => In c cats | None => True end ->
             match fold_left step cs acc with
             | Some (c, _) => In c cats
             | None => True
             end).
  { induction cs as [| c cs IH]; intros acc Hcs Hacc; [exact Hacc |].
    cbn [fold_left]. apply IH.
    - intros x Hx. apply Hcs. right. exact Hx.
    - unfold step at 1. destruct (_ && _); [| exact Hacc].
      apply Hcs. left. reflexivity. }
  specialize (Hinv cats None (incl_refl _) I).
  destruct (fold_left step cats None) as [[c score] |]; [| discriminate].
  intros Hm. injection Hm as <-. exists c. repeat split. exact Hinv.
Qed.

Lemma candidates_names (description : jsstring) (cats : list Category.t)
  (hist : list Transaction.t) (rules : list CategoryRule.t) :
  Forall (names_category cats) (candidates description cats hist rules).
Proof.
  unfold candidates. cbv zeta.
  set (nd := normalizeText description).
  match goal with
  | |- context [defaultMatches nd cats ?base] =>
      assert (Hbase : Forall (names_category cats) (defaultMatches nd cats base))
  end.
  { apply defaultMatches_names, Forall_app. split;
      [apply ruleMatches_names | apply keywordMatches_names]. }
  match goal with
  | |- context [defaultMatches nd cats ?base] =>
      set (d := defaultMatches nd cats base) in *
  end.
  assert (Hhist : Forall (names_category cats)
                    match findHistoricalMatch nd hist cats with
                    | Some historicalMatch => d ++ [historicalMatch]
                    | None => d
                    end).
  { destruct (findHistoricalMatch nd hist cats) as [h |] eqn:Eh; [| exact Hbase].
    apply Forall_app. split; [exact Hbase |].
    constructor; [| constructor]. exact (findHistoricalMatch_names _ _ _ Eh). }
  destruct (match findHistoricalMatch nd hist cats with
            | Some historicalMatch => d ++ [historicalMatch]
            | None => d
            end) as [| m ms]; [| exact Hhist].
  destruct (fuzzyMatchCategory nd cats) as [f |] eqn:Ef; [| constructor].
  constructor; [| constructor]. exact (fuzzyMatchCategory_names _ _ Ef).
Qed.

(** X25.  A prediction names a category of the list it was given: its
    category_id and category_name are those of one of the categories,
    and so are those of its alternative. *)
Theorem predictCategory_existing_category (description : jsstring)
  (categories : list Category.t) (historicalTransactions : list Transaction.t)
  (customRules : list CategoryRule.t) (p : CategoryPrediction) :
  predictCategory description categories historicalTransactions customRules
  = Some p ->
  (exists c, In c categories /\ category_id p = Category.id c
             /\ category_name p = Category.name c)
  /\ match alternative p with
     | Some alt =>
         exists c, In c categories /\ alt_category_id alt = Category.id c
                   /\ alt_category_name alt = Category.name c
     | None => True
     end.
Proof.
  rewrite predictCategory_select.
  destruct (length (Str.trim description) =? 0)%nat; [discriminate |].
  pose proof (candidates_names description categories historicalTransactions
                customRules) as Hn.
  unfold select.
  apply (sort_Forall_any by_confidence) in Hn.
  destruct (Arr.sort by_confidence _) as [| best rest]; [discriminate |].
  intros E. injection E as <-.
  cbn [category_id category_name alternative].
  inversion Hn as [| ? ? Hbest Hrest]; subst.
  split; [exact Hbest |].
  destruct rest as [| second rest']; cbn [hd_error option_map]; [exact I |].
  inversion Hrest as [| ? ? Hsecond _]; subst. exact Hsecond.
Qed.

(** X26.  A rule made by [createRule] applies to every description that
    contains its pattern, both normalized: for a description that is
    not blank, a category that exists and a history that stays clear of
    [Object.prototype], [predictCategory] with that rule writes nothing
    to the global [Object] and returns the category of the rule with
    confidence 0.95. *)
Theorem createRule_matches_substring (familyId ruleCategory id : UUID)
  (pattern : jsstring) (priority : Q) (description : jsstring)
  (categories : list Category.t) (historicalTransactions : list Transaction.t)
  (category : Category.t) :
  let created := createRule familyId ruleCategory pattern priority in
  let rule :=
    {| CategoryRule.id := id;
       CategoryRule.category_id := new_category_id created;
       CategoryRule.pattern := new_pattern created;
       CategoryRule.priority := new_priority created |} in
  Str.trim description <> [] ->
  Forall ordinary historicalTransactions ->
  findCategory ruleCategory categories = Some category ->
  Str.includes (normalizeText description) (normalizeText pattern) = true ->
  writesObject (normalizeText description) historicalTransactions = false
  /\ exists p,
       predictCategory description categories historicalTransactions [rule]
       = Some p
       /\ category_id p = ruleCategory
       /\ category_name p = Category.name category
       /\ prediction_confidence p = Fin 0.95.
Proof.
  intros created rule Hd Hord Hc Hinc.
  split; [exact (ordinary_no_write _ Hord) |].
  set (nd := normalizeText description) in *.
  assert (Happ : rule_applies nd categories rule = true).
  { unfold rule_applies, rule, created. cbn [CategoryRule.pattern
      CategoryRule.category_id createRule new_pattern new_category_id].
    unfold nd. rewrite matchesPattern_includes. fold nd.
    rewrite Hinc, Hc. reflexivity. }
  assert (Hf : find (rule_applies nd categories) (Arr.sort by_priority [rule])
               = Some rule).
  { cbn [Arr.sort fold_right Arr.insert find]. rewrite Happ. reflexivity. }
  destruct (ruleMatches_find _ _ _ Hf) as [category' [Hc' Hm]].
  assert (category' = category).
  { unfold rule, created in Hc'. cbn in Hc'. congruence. }
  subst category'.
  match type of Hm with _ = [?x] => set (m := x) in * end.
  destruct (@candidates_head description categories historicalTransactions
              [rule] m (keywordMatches nd categories) 0.95)
    as [rest [Hcand Hrest]].
  - fold nd. rewrite Hm. reflexivity.
  - lra.
  - apply (@conf_eq_at_most 0.95 0.85); [lra | apply keywordMatches_conf].
  - intros h Hh.
    apply (@findHistoricalMatch_conf _ _ _ _
             (ordinary_own_category Hord)) in Hh.
    destruct Hh as [b [Hb Hr]]. exists b. split; [exact Hb | lra].
  - destruct (@select_head m rest 0.95 eq_refl Hrest) as [p [Hp [Hid [Hn Hq]]]].
    exists p.
    rewrite predictCategory_select, (not_blank _ Hd), Hcand.
    subst m. cbn [categoryId categoryName] in Hid, Hn.
    destruct (findCategory_id _ _ Hc) as [_ Hcid].
    repeat split; try assumption. congruence.
Qed.

Lemma by_priority_rank (x y : CategoryRule.t) :
  (by_priority x y >? 0)%js
  = negb (Qle_bool (- CategoryRule.priority x) (- CategoryRule.priority y)).
Proof.
  unfold by_priority, JS.gt. cbn [JS.sub JS.neg JS.add JS.lt].
  destruct (Qle_bool (- CategoryRule.priority x) (- CategoryRule.priority y)) eqn:E1,
    (Qle_bool (CategoryRule.priority y + - CategoryRule.priority x) 0) eqn:E2;
    try reflexivity.
  - apply Qle_bool_iff in E1. apply Qle_bool_false in E2. lra.
  - apply Qle_bool_iff in E2. apply Qle_bool_false in E1. lra.
Qed.

Lemma sort_by_priority_idempotent (rules : list CategoryRule.t) :
  Arr.sort by_priority (Arr.sort by_priority rules) = Arr.sort by_priority rules.
Proof.
  apply (@sort_idempotent _ by_priority (fun _ => True)
           (fun r => - CategoryRule.priority r)).
  - intros x y _ _. apply by_priority_rank.
  - apply Forall_forall. intros; exact I.
Qed.

(** [predictCategory] reads its rules through their sorted copy. *)
Lemma predictCategory_sorted_rules (description : jsstring)
  (cats : list Category.t) (hist : list Transaction.t)
  (rules rules' : list CategoryRule.t) :
  Arr.sort by_priority rules' = Arr.sort by_priority rules ->
  predictCategory description cats hist rules'
  = predictCategory description cats hist rules.
Proof.
  intros Hs. rewrite !predictCategory_select. unfold candidates.
  rewrite Hs. reflexivity.
Qed.

Lemma rulesAfter_sorted (description : jsstring)
  (rules rules' : list CategoryRule.t) :
  Arr.sort by_priority rules' = Arr.sort by_priority rules ->
  Arr.sort by_priority (rulesAfter description rules')
  = Arr.sort by_priority rules.
Proof.
  intros Hs. unfold rulesAfter.
  destruct (length (Str.trim description) =? 0)%nat; [exact Hs |].
  change (fun a b : CategoryRule.t =>
            (CategoryRule.priority b - CategoryRule.priority a)%js)
    with by_priority.
  rewrite sort_by_priority_idempotent. exact Hs.
Qed.

(** X27.  When no description of the history normalizes to the name of
    a member of [Object.prototype], so that no call writes to the
    global [Object], the entry of an id in the map [batchCategorize]
    returns is the prediction of the last transaction with that id
    that got one, as [predictCategory] computes it from the rules as
    given: sorting the shared array of rules in place between the
    calls changes no prediction. *)
Theorem batchCategorize_lookup (id : jsstring)
  (transactions : list (jsstring * jsstring)) (categories : list Category.t)
  (historicalTransactions : list Transaction.t)
  (customRules : list CategoryRule.t) :
  Forall own_description historicalTransactions ->
  exists results,
    batchCategorize transactions categories historicalTransactions customRules
    = Some results
    /\ Obj.get id results
       = last_prediction id transactions categories historicalTransactions
           customRules.
Proof.
  intros Hown. unfold batchCategorize, last_prediction.
  match goal with
  | |- exists _, option_map fst (fold_left ?f _ _) = _
                 /\ _ = fold_left ?g _ _ =>
      set (step := f); set (spec := g)
  end.
  assert (Hgen : forall txs results rules',
             Arr.sort by_priority rules' = Arr.sort by_priority customRules ->
             exists results' rules'',
               fold_left step txs (Some (results, rules'))
               = Some (results', rules'')
               /\ Obj.get id results'
                  = fold_left spec txs (Obj.get id results)).
  { induction txs as [| [id' description] txs IH]; intros results rules' Hs.
    - exists results, rules'. split; reflexivity.
    - cbn [fold_left]. unfold step at 2, spec at 2.
      rewrite (own_description_no_write _ Hown), andb_false_r.
      rewrite (@predictCategory_sorted_rules description categories
                 historicalTransactions customRules rules' Hs).
      pose proof (@rulesAfter_sorted description customRules rules' Hs) as Hs'.
      destruct (predictCategory description categories historicalTransactions
                  customRules) as [prediction |].
      + destruct (IH (Obj.set id' prediction results) _ Hs')
          as [results' [rules'' [E1 E2]]].
        exists results', rules''. split; [exact E1 |].
        rewrite E2, Obj_get_set. destruct (Str.eqb id' id); reflexivity.
      + destruct (IH results _ Hs') as [results' [rules'' [E1 E2]]].
        exists results', rules''. split; [exact E1 |].
        rewrite E2. destruct (Str.eqb id' id); reflexivity. }
  destruct (Hgen transactions Obj.empty customRules eq_refl)
    as [results [rules' [E1 E2]]].
  exists results. rewrite E1. split; [reflexivity | exact E2].
Qed.

Lemma countPattern_ok (key : jsstring) (categoryId : UUID)
  (patterns : Obj.t (UUID * nat)) :
  pattern_key key -> patterns_ok patterns ->
  patterns_ok (countPattern key categoryId patterns).
Proof.
  intros Hk [Hn Hf]. unfold countPattern.
  destruct (Str.eqb key (U "constructor")); [split; assumption |].
  set (patterns' := match Obj.get key patterns with
                    | Some _ => patterns
                    | None => Obj.set key (categoryId, O) patterns
                    end).
  assert (Hok : patterns_ok patterns').
  { subst patterns'. destruct (Obj.get key patterns); [split; assumption |].
    split; [apply Obj_set_keys_NoDup, Hn | apply Obj_set_keys_Forall; assumption]. }
  destruct Hok as [Hn' Hf'].
  destruct (Obj.get key patterns') as [[c count] |]; [| split; assumption].
  destruct (Str.eqb c categoryId); [| split; assumption].
  split; [apply Obj_set_keys_NoDup, Hn' | apply Obj_set_keys_Forall; assumption].
Qed.

Lemma countWords_ok (categoryId : UUID) (words : list jsstring)
  (patterns : Obj.t (UUID * nat)) :
  Forall (fun w => (2 < length w)%nat) words -> patterns_ok patterns ->
  patterns_ok (countWords categoryId words patterns).
Proof.
  intros Hw. revert patterns. induction Hw as [| w words Hlen Hws IH];
    intros patterns Hok; cbn [countWords]; [exact Hok |].
  apply IH.
  assert (Hok1 : patterns_ok
                   (if (4 <=? length w)%nat
                    then countPattern w categoryId patterns else patterns)).
  { destruct (Nat.leb_spec 4 (length w)); [| exact Hok].
    apply countPattern_ok; assumption. }
  destruct Hws as [| w' words' Hlen' _]; [exact Hok1 |].
  apply countPattern_ok; [| exact Hok1].
  unfold pattern_key. rewrite !length_app. cbn [length]. lia.
Qed.

(** X28.  [extractLearningPatterns] returns patterns that were counted
    three times or more, of four characters or more, with pairwise
    distinct descriptions, in descending order of their count. *)
Theorem extractLearningPatterns_patterns (transactions : list Transaction.t) :
  let patterns := extractLearningPatterns transactions in
  Forall (fun p => (3 <= ld_count p)%nat /\ (4 <= length (ld_description p))%nat)
    patterns
  /\ StronglySorted (fun a b => (ld_count b <= ld_count a)%nat) patterns
  /\ NoDup (map ld_description patterns).
Proof.
  cbv zeta. unfold extractLearningPatterns.
  match goal with
  | |- context [fold_left ?f transactions Obj.empty] =>
      set (patterns := fold_left f transactions Obj.empty);
      assert (Hok : patterns_ok patterns)
  end.
  { subst patterns.
    apply fold_left_invariant with (P := fun _ : Transaction.t => True).
    - intros b tx _ Hb.
      destruct (Transaction.description tx) as [[| d ds] |]; try exact Hb.
      destruct (Transaction.category_id tx) as [[| c cs] |]; try exact Hb.
      apply countWords_ok; [| exact Hb].
      apply Forall_forall. intros w Hw. apply filter_In in Hw.
      destruct Hw as [_ Hw]. apply Nat.ltb_lt in Hw. exact Hw.
    - apply Forall_forall. intros; exact I.
    - split; constructor. }
  destruct Hok as [Hn Hf].
  set (cmp := fun a b : LearningData =>
                (JS.of_nat (ld_count b) - JS.of_nat (ld_count a))%js).
  set (mk := fun '(description, (categoryId, count)) =>
               {| ld_description := description;
                  ld_categoryId := categoryId;
                  ld_count := count |}).
  set (enough := fun '(_, (_, count)) => (3 <=? count)%nat).
  assert (Hfst : forall l : list (jsstring * (UUID * nat)),
             map ld_description (map mk l) = map fst l).
  { intros l. rewrite map_map. apply map_ext. intros [k [c n]]. reflexivity. }
  split; [| split].
  - apply sort_Forall_any. apply Forall_forall. intros p Hp.
    apply in_map_iff in Hp. destruct Hp as [[k [c n]] [<- Hin]].
    apply filter_In in Hin. destruct Hin as [Hin Hen].
    cbn [mk ld_count ld_description]. split.
    + apply Nat.leb_le. exact Hen.
    + apply (Permutation_in _ (Obj_entries_Permutation patterns)) in Hin.
      apply (proj1 (Forall_forall _ _) Hf).
      apply in_map_iff. exists (k, (c, n)). split; [reflexivity | exact Hin].
  - apply (@StronglySorted_weaken _
             (rank_le (fun p => - inject_Z (Z.of_nat (ld_count p))))).
    + unfold rank_le. intros a b Hab.
      assert (Hq : inject_Z (Z.of_nat (ld_count b))
                   <= inject_Z (Z.of_nat (ld_count a))) by lra.
      rewrite <- Zle_Qle in Hq. lia.
    + apply (@sort_sorted_by _ cmp (fun _ => True)).
      * intros x y _ _. unfold cmp, JS.of_nat, JS.of_Z, JS.gt.
        cbn [JS.sub JS.neg JS.add JS.lt].
        match goal with
        | |- negb (Qle_bool ?a 0) = negb (Qle_bool ?b ?c) =>
            destruct (Qle_bool a 0) eqn:E1, (Qle_bool b c) eqn:E2
        end; try reflexivity.
        -- apply Qle_bool_iff in E1. apply Qle_bool_false in E2. lra.
        -- apply Qle_bool_iff in E2. apply Qle_bool_false in E1. lra.
      * apply Forall_forall. intros; exact I.
  - apply (Permutation_NoDup
             (l := map ld_description (map mk (filter enough (Obj.entries patterns))))).
    + apply Permutation_map. symmetry. apply sort_Permutation.
    + rewrite Hfst. apply NoDup_map_filter.
      apply (Permutation_NoDup (l := map fst patterns)); [| exact Hn].
      apply Permutation_map. symmetry. apply Obj_entries_Permutation.
Qed.

End TextFacts.

(** X25, instance: a description with two keyword matches. *)
Lemma predictCategory_existing_category_witness :
  exists p,
    AutoCategory.predictCategory (U "кафе метро") Sample.categories [] []
    = Some p
    /\ (exists c, In c Sample.categories
                  /\ AutoCategory.category_id p = Category.id c
                  /\ AutoCategory.category_name p = Category.name c)
    /\ match AutoCategory.alternative p with
       | Some alt =>
           exists c, In c Sample.categories
                     /\ AutoCategory.alt_category_id alt = Category.id c
                     /\ AutoCategory.alt_category_name alt = Category.name c
       | None => True
       end.
Proof.
  eexists. split; [vm_compute; reflexivity |].
  apply (@predictCategory_existing_category (U "кафе метро")
           Sample.categories [] []).
  vm_compute. reflexivity.
Defined.

(** X26, instance: the pattern "Кафе!" and the description
    "кафе пушкин", which the history files twice under groceries. *)
Lemma createRule_matches_substring_witness :
  exists p,
    AutoCategory.predictCategory (U "кафе пушкин") Sample.categories
      Sample.cafe_history
      [ {| CategoryRule.id := U "rule-9";
           CategoryRule.category_id :=
             AutoCategory.new_category_id
               (AutoCategory.createRule (U "family-1") (U "cat-restaurants")
                  (U "Кафе!") 1);
           CategoryRule.pattern :=
             AutoCategory.new_pattern
               (AutoCategory.createRule (U "family-1") (U "cat-restaurants")
                  (U "Кафе!") 1);
           CategoryRule.priority :=
             AutoCategory.new_priority
               (AutoCategory.createRule (U "family-1") (U "cat-restaurants")
                  (U "Кафе!") 1) |} ]
    = Some p
    /\ AutoCategory.category_id p = U "cat-restaurants"
    /\ AutoCategory.category_name p = Category.name Sample.restaurants
    /\ AutoCategory.prediction_confidence p = Fin 0.95.
Proof.
  apply (@createRule_matches_substring (U "family-1") (U "cat-restaurants")
           (U "rule-9") (U "Кафе!") 1 (U "кафе пушкин") Sample.categories
           Sample.cafe_history Sample.restaurants).
  - vm_compute. discriminate.
  - repeat constructor.
  - vm_compute. reflexivity.
  - vm_compute. reflexivity.
Defined.

(** X27, instance: two transactions under one id, the second of which is
    the one that decides. *)
Lemma batchCategorize_lookup_witness :
  exists results,
    AutoCategory.batchCategorize
      [(U "t1", U "метро"); (U "t1", U "кафе пушкин")] Sample.categories
      Sample.cafe_history [Sample.rule_low; Sample.rule_high]
    = Some results
    /\ Obj.get (U "t1") results
       = AutoCategory.predictCategory (U "кафе пушкин") Sample.categories
           Sample.cafe_history [Sample.rule_low; Sample.rule_high].
Proof.
  destruct (@batchCategorize_lookup (U "t1")
              [(U "t1", U "метро"); (U "t1", U "кафе пушкин")]
              Sample.categories Sample.cafe_history
              [Sample.rule_low; Sample.rule_high])
    as [results [E1 E2]].
  - repeat constructor.
  - exists results. split; [exact E1 |]. rewrite E2. vm_compute. reflexivity.
Defined.
